(** * Race results scraper: cleaning, merging and normalising the results table

    A shallow embedding of the notebook
    [Analyzing_Race_Results_Part_1_Web_Scraping]: the function
    [parse_results_table], the per-year loop that builds the shared frame,
    [convert_date_string_to_datetime], and the final normalisation cell
    ([Time], [Minutes], [astype(int)], [sort_values]).

    Python exceptions are values of [exn]; a computation that may raise
    returns a [result].  Library calls ([datetime.strptime], [int],
    [DataFrame.append], [sort_values]) are embedded by what they do on the
    values this notebook hands them; each such definition says so. *)

From Stdlib Require Import List String Ascii Bool Arith ZArith Lia.
From Stdlib Require Import Permutation Sorted FinFun.
From Stdlib Require Import Floats Uint63 QArith Qabs DecimalString.
Import ListNotations.

Set Warnings "-inexact-float".

Local Close Scope Q_scope.
Local Open Scope string_scope.
Local Open Scope list_scope.

(** ** Exceptions and results *)

Inductive exn : Type :=
| IndexError      (* [][0] : the spec's HeaderNotFoundError *)
| ValueError      (* strptime / int() : the spec's TimeParseError, TypeCoercionError *)
| TypeError
| KeyError
| AttributeError  (* [None.find_all] : the spec's StructureError *)
| OverflowError
| URLError        (* urlopen : the spec's FetchError *)
| Unfinished.     (* no Python exception: a bounded loop of the model ran out *)

Inductive result (A : Type) : Type :=
| Ok (a : A)
| Raise (e : exn).

Arguments Ok {A} a.
Arguments Raise {A} e.

Definition bind {A B} (r : result A) (k : A -> result B) : result B :=
  match r with
  | Ok a => k a
  | Raise e => Raise e
  end.

Notation "x <- r ;; k" := (bind r (fun x => k))
  (at level 61, r at next level, right associativity).

(** [mapM f l] runs [f] on the elements from left to right and stops at the
    first exception, as a Python loop or [Series.apply] does. *)
Fixpoint mapM {A B} (f : A -> result B) (l : list A) : result (list B) :=
  match l with
  | [] => Ok []
  | a :: l' => b <- f a ;; bs <- mapM f l' ;; Ok (b :: bs)
  end.

(** ** Rows *)

(** A row of the table: the stripped text of its [td] cells.  The text of a
    cell is a [string]: its characters one by one, each by its code point,
    which the embedding takes below 256.  A page with a character beyond
    U+00FF is outside the embedding. *)
Definition Row := list string.

Definition row_eq_dec : forall r1 r2 : Row, {r1 = r2} + {r1 <> r2} :=
  list_eq_dec string_dec.

(** Python's [row <> header] on two lists of strings. *)
Definition row_neqb (r1 r2 : Row) : bool :=
  if row_eq_dec r1 r2 then false else true.

(** Python's [len(row)]. *)
Definition len (row : Row) : nat := List.length row.

Definition len9 (row : Row) : bool := Nat.eqb (len row) 9.

(** ** [parse_results_table], from [raw_data] on *)

(** [header = [row for row in raw_data if len(row) == 9][0]] *)
Definition find_header (raw_data : list Row) : result Row :=
  match filter len9 raw_data with
  | [] => Raise IndexError
  | header :: _ => Ok header
  end.

(** One iteration of the cleaning loop:
    [if row <> header and len(row) == 9: cleaned_data.append(row)]. *)
Definition clean_step (header : Row) (cleaned_data : list Row) (row : Row)
  : list Row :=
  if row_neqb row header && len9 row then cleaned_data ++ [row]
  else cleaned_data.

(** The loop [for row in raw_data: ...] started from [cleaned_data = []]. *)
Definition clean_rows (header : Row) (raw_data : list Row) : list Row :=
  fold_left (clean_step header) raw_data [].

(** The header and the cleaned rows that [parse_results_table] hands to
    [pd.DataFrame(data = cleaned_data, columns = header)]. *)
Definition classify (raw_data : list Row) : result (Row * list Row) :=
  header <- find_header raw_data ;;
  Ok (header, clean_rows header raw_data).

(** The test of the loop body, as a predicate on rows. *)
Definition keeps (header row : Row) : bool := row_neqb row header && len9 row.

(** ** Durations, cell values and frames *)

(** Python's [timedelta], kept normalised as the library keeps it:
    [0 <= seconds < 86400], [0 <= microseconds < 1000000]. *)
Record timedelta : Type := mk_timedelta {
  days : Z;
  seconds : Z;
  microseconds : Z
}.

(** [timedelta(minutes = m, seconds = s)] *)
Definition timedelta_of (m s : Z) : timedelta :=
  let total := (m * 60 + s)%Z in
  mk_timedelta (total / 86400) (total mod 86400) 0.

(** [td.total_seconds()] of a duration without microseconds. *)
Definition total_seconds (td : timedelta) : Z :=
  (days td * 86400 + seconds td)%Z.

(** The [timedelta64[ns]] integer a frame stores for a duration; a column of
    durations is ordered by it. *)
Definition nanoseconds (td : timedelta) : Z :=
  (((days td * 86400 + seconds td) * 1000000 + microseconds td) * 1000)%Z.

(** What a cell of a frame can hold. [NaN] is the missing value. *)
Inductive value : Type :=
| VStr (s : string)
| VInt (z : Z)
| VFloat (f : float)
| VTimedelta (td : timedelta)
| NaN.

(** One line of a frame, read by label.  The nine labels of the site's header
    are distinct; under a repeated label [lookup] reads the first cell and
    [lookup_all], below, all of them. *)
Definition record := list (string * value).

Fixpoint lookup (r : record) (label : string) : value :=
  match r with
  | [] => NaN
  | (l, x) :: r' => if String.eqb l label then x else lookup r' label
  end.

Definition has_label (r : record) (label : string) : bool :=
  existsb (String.eqb label) (map fst r).

(** Writing one cell: the labelled cell is overwritten (every cell under the
    label, when it is repeated), a new label is added after the existing
    ones. *)
Definition assign (label : string) (x : value) (r : record) : record :=
  if has_label r label
  then map (fun lx => if String.eqb (fst lx) label then (fst lx, x) else lx) r
  else r ++ [(label, x)].

(** A [pandas.DataFrame]: its column labels and its lines in order.  The
    index is not modelled: the notebook drops it ([reset_index(drop=True)]). *)
Record DataFrame : Type := mk_frame {
  columns : list string;
  rows : list record
}.

(** [pd.DataFrame()] *)
Definition empty_frame : DataFrame := mk_frame [] [].

(** [pd.DataFrame(data = cleaned_data, columns = header)]: every line of
    [cleaned_data] has as many cells as [header] when the call is reached. *)
Definition new_frame (data : list Row) (header : Row) : DataFrame :=
  mk_frame header (map (fun row => combine header (map VStr row)) data).

Definition has_column (df : DataFrame) (label : string) : bool :=
  existsb (String.eqb label) (columns df).

Definition add_column (cols : list string) (label : string) : list string :=
  if existsb (String.eqb label) cols then cols else cols ++ [label].

(** [df[label] = x] with a scalar [x]: the same value on every line. *)
Definition setitem (df : DataFrame) (label : string) (x : value) : DataFrame :=
  mk_frame (add_column (columns df) label) (map (assign label x) (rows df)).

(** [df[label] = series], the series having one value per line. *)
Definition setitem_series (df : DataFrame) (label : string) (xs : list value)
  : DataFrame :=
  mk_frame (add_column (columns df) label)
           (map (fun rx => assign label (snd rx) (fst rx)) (combine (rows df) xs)).

(** The cells a line holds under [label], from left to right: one cell, unless
    the label is repeated among the columns. *)
Fixpoint lookup_all (r : record) (label : string) : list value :=
  match r with
  | [] => []
  | (l, x) :: r' =>
      if String.eqb l label then x :: lookup_all r' label else lookup_all r' label
  end.

(** More than one column carries the label. *)
Definition repeated (df : DataFrame) (label : string) : bool :=
  (1 <? count_occ string_dec (columns df) label)%nat.

(** The cells of the column [label], from top to bottom; a line that lacks the
    cell reads as [NaN]. *)
Definition column (df : DataFrame) (label : string) : list value :=
  map (fun r => lookup r label) (rows df).

(** What [df[label]] gives: the column as a series, or, when the label is
    repeated, a frame of the columns that carry it (line by line, the cells
    under the label). *)
Inductive selection : Type :=
| Series (cells : list value)
| Frame (lines : list (list value)).

(** [df[label]]: [KeyError] when the frame has no such column. *)
Definition getitem (df : DataFrame) (label : string) : result selection :=
  if has_column df label then
    if repeated df label
    then Ok (Frame (map (fun r => lookup_all r label) (rows df)))
    else Ok (Series (column df label))
  else Raise KeyError.

(** [df[labels]] with a list of labels: the columns that carry one of them,
    label by label in the order of [labels] and from left to right under a
    repeated label, each as its cells from top to bottom; [KeyError] when a
    label is missing. *)
Definition columns_at (df : DataFrame) (label : string) : list (list value) :=
  map (fun k => map (fun r => nth k (lookup_all r label) NaN) (rows df))
      (seq 0 (count_occ string_dec (columns df) label)).

Definition getitems (df : DataFrame) (labels : list string)
  : result (list (list value)) :=
  if forallb (has_column df) labels then Ok (flat_map (columns_at df) labels)
  else Raise KeyError.

(** [df.append(d)]: the lines of [df] followed by the lines of [d]; the
    columns are those of [df] and, after them, those of [d] that [df] lacks,
    a repeated label as often as [d] has it (a cell absent from a line reads
    as [NaN]).  How pandas orders the joined labels is not modelled. *)
Definition append (df d : DataFrame) : DataFrame :=
  mk_frame (columns df
            ++ filter (fun l => negb (existsb (String.eqb l) (columns df)))
                      (columns d))
           (rows df ++ rows d).

(** The part of [parse_results_table] that follows the extraction of
    [raw_data]. *)
Definition parse_rows (raw_data : list Row) : result DataFrame :=
  hc <- classify raw_data ;;
  Ok (new_frame (snd hc) (fst hc)).

(** ** [years] and [urls] *)

Definition years : list Z := [2015%Z; 2016%Z].

(** Python's [s[n:]]. *)
Fixpoint drop (n : nat) (s : string) : string :=
  match n, s with
  | O, _ => s
  | S _, EmptyString => EmptyString
  | S n', String _ s' => drop n' s'
  end.

(** Python's [str(y)] on an integer. *)
Definition str (y : Z) : string := DecimalString.NilZero.string_of_int (Z.to_int y).

(** ['http://www.empirerunners.com/results/empireopen/eo{}.html'.format(str(y)[2:])] *)
Definition url_of (y : Z) : string :=
  "http://www.empirerunners.com/results/empireopen/eo" ++ drop 2 (str y) ++ ".html".

(** [urls = [... for y in years]] *)
Definition urls (ys : list Z) : list string := map url_of ys.

(** ** Fetching, extracting and the per-year loop *)

(** A loop whose body may raise: the first exception ends it. *)
Fixpoint foldM {A S} (body : S -> A -> result S) (l : list A) (s : S) : result S :=
  match l with
  | [] => Ok s
  | a :: l' => s' <- body s a ;; foldM body l' s'
  end.

Section Web.

(** [urllib2.urlopen(url).read()]: the page text, or the exception raised. *)
Variable urlopen_read : string -> result string.

(** BeautifulSoup's part, a function of the page text:
    [[[cell.text.strip() for cell in row.find_all('td')]
      for row in soup.find('table').find_all('tr')]],
    raising [AttributeError] when [soup.find('table')] is [None]. *)
Variable table_rows : string -> result (list Row).

Definition parse_results_table (url : string) : result DataFrame :=
  html <- urlopen_read url ;;
  raw_data <- table_rows html ;;
  parse_rows raw_data.

(** The body of [for year, url in zip(years, urls)]. *)
Definition year_step (df : DataFrame) (yu : Z * string) : result DataFrame :=
  d <- parse_results_table (snd yu) ;;
  Ok (append df (setitem d "Year" (VInt (fst yu)))).

(** The frame [df] after the loop over the configured years. *)
Definition build_frame (ys : list Z) : result DataFrame :=
  foldM year_step (combine ys (urls ys)) empty_frame.

End Web.

(** ** [datetime.strptime(time_string, "%M:%S")] *)

(** The format is turned by the library into the regular expression
    [(?P<M>[0-5]\d|\d):(?P<S>6[0-1]|[0-5]\d|\d)], matched at the start of the
    string; a match that leaves text over, or no match, is a [ValueError], and
    so is a second that [datetime] refuses (60 and 61 match the directive). *)

Definition digit_value (c : ascii) : Z := (Z.of_nat (nat_of_ascii c) - 48)%Z.

(** The character classes of the expression. *)
Definition cls_d (c : ascii) : bool :=
  (48 <=? nat_of_ascii c)%nat && (nat_of_ascii c <=? 57)%nat.   (* \d    *)
Definition cls_0_5 (c : ascii) : bool :=
  (48 <=? nat_of_ascii c)%nat && (nat_of_ascii c <=? 53)%nat.   (* [0-5] *)
Definition cls_0_1 (c : ascii) : bool :=
  (48 <=? nat_of_ascii c)%nat && (nat_of_ascii c <=? 49)%nat.   (* [0-1] *)
Definition cls_6 (c : ascii) : bool := Ascii.eqb c "6".         (* 6     *)
Definition cls_colon (c : ascii) : bool := Ascii.eqb c ":".     (* :     *)

(** Two characters of classes [c1 c2] read as a number: the ways to match, with
    what is left of the string. *)
Definition two_chars (c1 c2 : ascii -> bool) (s : string) : list (Z * string) :=
  match s with
  | String a (String b rest) =>
      if c1 a && c2 b then [((10 * digit_value a + digit_value b)%Z, rest)] else []
  | _ => []
  end.

Definition one_char (c1 : ascii -> bool) (s : string) : list (Z * string) :=
  match s with
  | String a rest => if c1 a then [(digit_value a, rest)] else []
  | _ => []
  end.

(** The alternatives of a group, in the order the matcher tries them. *)
Definition group_M (s : string) : list (Z * string) :=
  two_chars cls_0_5 cls_d s ++ one_char cls_d s.

Definition group_S (s : string) : list (Z * string) :=
  two_chars cls_6 cls_0_1 s ++ two_chars cls_0_5 cls_d s ++ one_char cls_d s.

Definition literal_colon (s : string) : list string :=
  match s with
  | String a rest => if cls_colon a then [rest] else []
  | _ => []
  end.

(** [format_regex.match(data_string)]: the first way, in backtracking order,
    to match the whole expression; minute, second and the text left over. *)
Definition regex_match (s : string) : option (Z * Z * string) :=
  hd_error
    (flat_map (fun m1 =>
       flat_map (fun r2 =>
         map (fun s3 => (fst m1, fst s3, snd s3)) (group_S r2))
         (literal_colon (snd m1)))
       (group_M s)).

(** The fields of the [datetime] that [strptime] builds:
    [datetime(1900, 1, 1, 0, minute, second)]. *)
Record datetime : Type := mk_datetime {
  year : Z; month : Z; day : Z; hour : Z; minute : Z; second : Z
}.

Definition strptime (data_string : string) : result datetime :=
  match regex_match data_string with
  | None => Raise ValueError                        (* does not match format *)
  | Some (m, s, rest) =>
      match rest with
      | EmptyString =>
          if (s <=? 59)%Z then Ok (mk_datetime 1900 1 1 0 m s)
          else Raise ValueError                     (* second must be in 0..59 *)
      | String _ _ => Raise ValueError              (* unconverted data remains *)
      end
  end.

Definition convert_date_string_to_datetime (time_string : string)
  : result timedelta :=
  t <- strptime time_string ;;
  let delta := timedelta_of (minute t) (second t) in
  Ok delta.

(** ** The normalisation cell *)

(** [Series.apply(convert_date_string_to_datetime)] on one cell: a cell that
    is not a string makes [strptime] raise [TypeError]. *)
Definition apply_convert (x : value) : result value :=
  match x with
  | VStr s => td <- convert_date_string_to_datetime s ;; Ok (VTimedelta td)
  | _ => Raise TypeError
  end.

(** [df['Time'] = df['Total Time'].apply(convert_date_string_to_datetime)].
    On a series [apply] calls the function on each cell.  Under a repeated
    label the selection is a frame, on which [apply] calls the function on
    each column, a series: [strptime] raises [TypeError] on it. *)
Definition add_Time (df : DataFrame) : result DataFrame :=
  sel <- getitem df "Total Time" ;;
  match sel with
  | Series col =>
      times <- mapM apply_convert col ;;
      Ok (setitem_series df "Time" times)
  | Frame _ => Raise TypeError
  end.

(** The float division of an integer number of seconds by 60. *)
Definition div60 (secs : Z) : float :=
  (PrimFloat.of_uint63 (Uint63.of_Z secs) / 60)%float.

(** [.dt.seconds / 60] on one cell of a duration column. *)
Definition minutes_of (x : value) : result value :=
  match x with
  | VTimedelta td => Ok (VFloat (div60 (seconds td)))
  | _ => Raise AttributeError
  end.

(** [df['Minutes'] = df['Time'].dt.seconds/60].  A column without lines has
    no duration type, and [.dt] raises on it; a frame, selected under a
    repeated label, has no [.dt] at all. *)
Definition add_Minutes (df : DataFrame) : result DataFrame :=
  sel <- getitem df "Time" ;;
  match sel with
  | Series [] => Raise AttributeError
  | Series col => mins <- mapM minutes_of col ;; Ok (setitem_series df "Minutes" mins)
  | Frame _ => Raise AttributeError
  end.

(** ** [astype(int)] *)

(** Python's [int(x)] on a string: an integer literal in base ten, optionally
    preceded by a sign and surrounded by whitespace.  [int] reads any decimal
    digit and skips any whitespace of the character set; among the characters
    below 256 the decimal digits are [0] to [9] ([cls_d]) and the whitespace
    is tab to carriage return, the space, U+0085 and U+00A0.  The digits and
    the whitespace beyond U+00FF are not embedded: what is proved of a
    string that [int] refuses is proved of ASCII text ([ascii_text]). *)
Definition is_space (c : ascii) : bool :=
  let n := nat_of_ascii c in
  ((9 <=? n)%nat && (n <=? 13)%nat) || (n =? 32)%nat
  || (n =? 133)%nat || (n =? 160)%nat.

Fixpoint skip_spaces (s : string) : string :=
  match s with
  | String c rest => if is_space c then skip_spaces rest else s
  | EmptyString => s
  end.

Fixpoint read_digits (acc : Z) (s : string) : Z * string :=
  match s with
  | String c rest =>
      if cls_d c then read_digits (10 * acc + digit_value c)%Z rest else (acc, s)
  | EmptyString => (acc, s)
  end.

Definition read_sign (s : string) : Z * string :=
  match s with
  | String c rest =>
      if Ascii.eqb c "+" then (1%Z, rest)
      else if Ascii.eqb c "-" then ((-1)%Z, rest)
      else (1%Z, s)
  | EmptyString => (1%Z, s)
  end.

Definition int (x : string) : result Z :=
  let sg := read_sign (skip_spaces x) in
  match snd sg with
  | String c _ =>
      if cls_d c then
        let nr := read_digits 0 (snd sg) in
        match skip_spaces (snd nr) with
        | EmptyString => Ok (fst sg * fst nr)%Z
        | String _ _ => Raise ValueError
        end
      else Raise ValueError
  | EmptyString => Raise ValueError
  end.

(** The integers a column of type [int] (64 bits) can hold. *)
Definition fits_int64 (z : Z) : bool :=
  ((- 2 ^ 63 <=? z) && (z <? 2 ^ 63))%Z.

(** The conversion of one cell by [astype(int)]: a string goes through
    [int], [NaN] cannot be converted. *)
Definition astype_int_cell (x : value) : result value :=
  match x with
  | VStr s => z <- int s ;; if fits_int64 z then Ok (VInt z) else Raise OverflowError
  | VInt z => Ok (VInt z)
  | NaN => Raise ValueError
  | _ => Raise TypeError
  end.

(** [df[['Place','Age','Bib No']] = df[['Place','Age','Bib No']].astype(int)]:
    the selection raises [KeyError] for a missing column before anything is
    converted; the selected columns are then converted one after the other,
    each from top to bottom, and the first cell that cannot be converted ends
    the statement.  The assignment writes the converted columns back under
    the three labels, and raises [ValueError] when there are more columns
    than labels, as under a repeated label. *)
Definition int_columns : list string := ["Place"; "Age"; "Bib No"].

Definition astype_int (df : DataFrame) : result DataFrame :=
  sub <- getitems df int_columns ;;
  ints <- mapM (mapM astype_int_cell) sub ;;
  if Nat.eqb (List.length ints) (List.length int_columns)
  then Ok (fold_left (fun df lx => setitem_series df (fst lx) (snd lx))
                     (combine int_columns ints) df)
  else Raise ValueError.

(** ** [sort_values(by = 'Time')] *)

(** With one sort key and the default [kind = 'quicksort'], pandas asks numpy
    for [argsort] of the key column and takes the lines in that order.  The
    definitions below follow numpy's indirect quicksort ([aquicksort] of
    [npysort/quicksort.c.src]): median of three, partition with the pivot
    parked at [pr - 1], the larger part pushed on a stack, insertion sort once
    a part has at most [SMALL_QUICKSORT + 1] elements, which is 16: a part of
    17 elements is partitioned.  The depth limit that
    later versions of the library add (heapsort on a part that was split too
    often) is left out.  Loops are bounded; [None] stands for a bound that was
    reached, which [aquicksort_sorts] shows never happens. *)

Definition SMALL_QUICKSORT : Z := 15.

Section Argsort.

(** The key column, as the integers the frame stores. *)
Variable v : list Z.

Definition key_at (i : nat) : Z := nth i v 0%Z.                   (* v[i] *)

Definition rd (tosort : list nat) (p : Z) : nat :=                (* *p *)
  nth (Z.to_nat p) tosort 0%nat.

Fixpoint wr_nat (tosort : list nat) (n : nat) (x : nat) : list nat :=
  match tosort, n with
  | [], _ => []
  | _ :: rest, O => x :: rest
  | y :: rest, S n' => y :: wr_nat rest n' x
  end.

Definition wr (tosort : list nat) (p : Z) (x : nat) : list nat := (* *p = x *)
  wr_nat tosort (Z.to_nat p) x.

(** [INTP_SWAP( *p, *q )]: [tmp = *q; *q = *p; *p = tmp]. *)
Definition INTP_SWAP (tosort : list nat) (p q : Z) : list nat :=
  let tmp := rd tosort q in
  wr (wr tosort q (rd tosort p)) p tmp.

(** [do ++pi; while (v[*pi] < vp);] *)
Fixpoint scan_up (fuel : nat) (a : list nat) (vp : Z) (pi : Z) : option Z :=
  match fuel with
  | O => None
  | S fuel' =>
      let pi := (pi + 1)%Z in
      if (key_at (rd a pi) <? vp)%Z then scan_up fuel' a vp pi else Some pi
  end.

(** [do --pj; while (vp < v[*pj]);] *)
Fixpoint scan_down (fuel : nat) (a : list nat) (vp : Z) (pj : Z) : option Z :=
  match fuel with
  | O => None
  | S fuel' =>
      let pj := (pj - 1)%Z in
      if (vp <? key_at (rd a pj))%Z then scan_down fuel' a vp pj else Some pj
  end.

(** The [for (;;)] loop of the partition; it ends with [pi >= pj]. *)
Fixpoint exchange (fuel : nat) (a : list nat) (vp : Z) (pi pj : Z)
  : option (list nat * Z) :=
  match fuel with
  | O => None
  | S fuel' =>
      match scan_up (S (List.length a)) a vp pi with
      | None => None
      | Some pi =>
          match scan_down (S (List.length a)) a vp pj with
          | None => None
          | Some pj =>
              if (pi >=? pj)%Z then Some (a, pi)
              else exchange fuel' (INTP_SWAP a pi pj) vp pi pj
          end
      end
  end.

Definition swap_if_less (a : list nat) (p q : Z) : list nat :=
  (* if (v[*p] < v[*q]) INTP_SWAP( *p, *q ) *)
  if (key_at (rd a p) <? key_at (rd a q))%Z then INTP_SWAP a p q else a.

(** One partition of [pl .. pr]; the array and the final place of the pivot. *)
Definition partition (a : list nat) (pl pr : Z) : option (list nat * Z) :=
  let pm := (pl + Z.shiftr (pr - pl) 1)%Z in
  let a := swap_if_less a pm pl in
  let a := swap_if_less a pr pm in
  let a := swap_if_less a pm pl in
  let vp := key_at (rd a pm) in
  let pi := pl in
  let pj := (pr - 1)%Z in
  let a := INTP_SWAP a pm pj in
  match exchange (S (List.length a)) a vp pi pj with
  | None => None
  | Some (a, pi) =>
      let pk := (pr - 1)%Z in
      Some (INTP_SWAP a pi pk, pi)
  end.

(** [while (pj > pl && vp < v[*pk]) { *pj-- = *pk--; }], with [pk = pj - 1]. *)
Fixpoint shift_right (fuel : nat) (a : list nat) (pl : Z) (vp : Z) (pj : Z)
  : option (list nat * Z) :=
  match fuel with
  | O => None
  | S fuel' =>
      if (pj >? pl)%Z && (vp <? key_at (rd a (pj - 1)))%Z
      then shift_right fuel' (wr a pj (rd a (pj - 1))) pl vp (pj - 1)%Z
      else Some (a, pj)
  end.

(** [for (pi = pl + 1; pi <= pr; ++pi) { vi = *pi; ...; *pj = vi; }] *)
Fixpoint insertion (fuel : nat) (a : list nat) (pl pr pi : Z) : option (list nat) :=
  match fuel with
  | O => None
  | S fuel' =>
      if (pi <=? pr)%Z then
        let vi := rd a pi in
        match shift_right (S (List.length a)) a pl (key_at vi) pi with
        | None => None
        | Some (a, pj) => insertion fuel' (wr a pj vi) pl pr (pi + 1)%Z
        end
      else Some a
  end.

(** The outer [while (1)]: partition while the part is large, insertion sort
    on the small part, then the next part from the stack. *)
Fixpoint quicksort_loop (fuel : nat) (a : list nat) (pl pr : Z)
         (stack : list (Z * Z)) : option (list nat) :=
  match fuel with
  | O => None
  | S fuel' =>
      if (pr - pl >? SMALL_QUICKSORT)%Z then
        match partition a pl pr with
        | None => None
        | Some (a, pi) =>
            if (pi - pl <? pr - pi)%Z
            then quicksort_loop fuel' a pl (pi - 1)%Z (((pi + 1)%Z, pr) :: stack)
            else quicksort_loop fuel' a (pi + 1)%Z pr ((pl, (pi - 1)%Z) :: stack)
        end
      else
        match insertion (S (List.length a)) a pl pr (pl + 1)%Z with
        | None => None
        | Some a =>
            match stack with
            | [] => Some a
            | (l, r) :: stack' => quicksort_loop fuel' a l r stack'
            end
        end
  end.

(** [aquicksort(v, tosort, num)] on [tosort = arange(num)]. *)
Definition aquicksort : option (list nat) :=
  let num := List.length v in
  quicksort_loop (2 * num + 2) (seq 0 num) 0%Z (Z.of_nat num - 1)%Z [].

End Argsort.

(** The sort key of a line: the cell [by] must hold a duration, which it does
    on every line once [add_Time] has run. *)
Definition sort_key (by_ : string) (r : record) : result Z :=
  match lookup r by_ with
  | VTimedelta td => Ok (nanoseconds td)
  | _ => Raise TypeError
  end.

(** [df.take(indexer)] *)
Definition take (rs : list record) (indexer : list nat) : list record :=
  map (fun i => nth i rs []) indexer.

(** [df.sort_values(by = by_)] where the key column is sorted by [argsort]. *)
Definition sort_values_with (argsort : list Z -> option (list nat))
           (df : DataFrame) (by_ : string) : result DataFrame :=
  if has_column df by_ then
    keys <- mapM (sort_key by_) (rows df) ;;
    match argsort keys with
    | Some indexer => Ok (mk_frame (columns df) (take (rows df) indexer))
    | None => Raise Unfinished
    end
  else Raise KeyError.

(** [df.sort_values(by = by_).reset_index(drop=True)] with the default kind. *)
Definition sort_values (df : DataFrame) (by_ : string) : result DataFrame :=
  sort_values_with aquicksort df by_.

(** The last cell of the notebook, up to the frame that [to_pickle] writes. *)
Definition normalise (df : DataFrame) : result DataFrame :=
  df <- add_Time df ;;
  df <- add_Minutes df ;;
  df <- astype_int df ;;
  sort_values df "Time".

(** The whole run for the configured years: fetch, extract, clean, build, then
    normalise and sort. *)
Definition notebook (urlopen_read : string -> result string)
           (table_rows : string -> result (list Row)) (ys : list Z)
  : result DataFrame :=
  df <- build_frame urlopen_read table_rows ys ;;
  normalise df.

(** [print df.head()], the last line of the last cell, and [.head()] in the
    exploratory cell: the first five lines of a frame (the default [n = 5]). *)
Definition head (df : DataFrame) : DataFrame :=
  mk_frame (columns df) (firstn 5 (rows df)).

(** * The vocabulary of the statements *)

(** ** The worked example: rows and pages *)

Definition title_row : Row := ["Women's Race"].

Definition site_header : Row :=
  ["Place"; "Name"; "Team"; "Bib No"; "Age"; "Gender"; "Age Group";
   "Total Time"; "Pace"].

Definition alexandra : Row :=
  ["1"; "Alexandra Sciocchetti"; "UNATTACHED"; "189"; "20"; "F"; "1/48 13-39";
   "20:20"; "5:55/M"].

Definition tamma : Row :=
  ["2"; "Tamma Carleton"; "Strawberry Canyon TC"; "114"; "27"; "F";
   "2/48 13-39"; "20:23"; "5:56/M"].

Definition four_rows : list Row := [title_row; site_header; alexandra; tamma].

Definition ten_cells : Row :=
  ["3"; "Julia Sizek"; "Strawberry Canyon TC"; "191"; "24"; "F"; "3/48 13-39";
   "20:26"; "5:57/M"; "extra"].

(** The web of the worked example: every page holds the four rows. *)
Definition example_urlopen (url : string) : result string := Ok url.
Definition example_table_rows (html : string) : result (list Row) := Ok four_rows.

(** A page on which eighteen runners share one time. *)
Definition tied_row (i : nat) : Row :=
  [str (Z.of_nat i); "Runner"; "UNATTACHED"; str (Z.of_nat (100 + i)); "30";
   "M"; "16-99"; "16:56"; "4:56/M"].

Definition tied_page : list Row :=
  title_row :: site_header :: map tied_row (seq 1 18).

(** ** The time format *)

(** A field of one or two decimal digits, with its value. *)
Inductive digits12 : string -> Z -> Prop :=
| one_digit (a : ascii) :
    cls_d a = true -> digits12 (String a "") (digit_value a)
| two_digits (a b : ascii) :
    cls_d a = true -> cls_d b = true ->
    digits12 (String a (String b "")) (10 * digit_value a + digit_value b).

(** The strings [strptime] converts under ["%M:%S"]: a minute field and a
    second field of one or two digits each, both at most 59, around a colon. *)
Definition minute_second_string (s : string) (m sec : Z) : Prop :=
  exists mp sp,
    s = (mp ++ ":" ++ sp)%string /\ digits12 mp m /\ digits12 sp sec /\
    (m <= 59)%Z /\ (sec <= 59)%Z.

(** ** The merged frame *)

(** The lines a year contributes: those of its cleaned frame, each with the
    year written into it. *)
Definition year_rows (y : Z) (d : DataFrame) : list record :=
  map (assign "Year" (VInt y)) (rows d).

Definition merged_rows (ys : list Z) (ds : list DataFrame) : list record :=
  List.concat (map (fun yd => year_rows (fst yd) (snd yd)) (combine ys ds)).

(** ** Integer literals *)

Fixpoint string_all (p : ascii -> bool) (s : string) : bool :=
  match s with
  | EmptyString => true
  | String c rest => p c && string_all p rest
  end.

(** The value of a string of digits read from the left, starting from [acc]. *)
Fixpoint horner (acc : Z) (ds : string) : Z :=
  match ds with
  | EmptyString => acc
  | String c rest => horner (10 * acc + digit_value c)%Z rest
  end.

Definition decimal_value (ds : string) : Z := horner 0 ds.

Inductive sign_prefix : string -> Z -> Prop :=
| no_sign : sign_prefix "" 1
| plus_sign : sign_prefix "+" 1
| minus_sign : sign_prefix "-" (-1).

(** What [int] reads: whitespace, an optional sign, one digit or more,
    whitespace. *)
Definition integer_literal (s : string) (z : Z) : Prop :=
  exists ws1 sg ds ws2 sgn,
    s = (ws1 ++ sg ++ ds ++ ws2)%string /\
    string_all is_space ws1 = true /\
    string_all is_space ws2 = true /\
    sign_prefix sg sgn /\
    ds <> "" /\ string_all cls_d ds = true /\
    z = (sgn * decimal_value ds)%Z.

(** The conversion of the one column [label], written back at once.  On a
    frame without repeated labels [astype_int] does this for [Place], [Age]
    and [Bib No] in turn. *)
Definition astype_int_column (df : DataFrame) (label : string) : result DataFrame :=
  ints <- mapM astype_int_cell (column df label) ;;
  Ok (setitem_series df label ints).



(** A cell that holds an integer literal within 64 bits. *)
Definition numeric_cell (x : value) : Prop :=
  exists s z, x = VStr s /\ integer_literal s z /\ fits_int64 z = true.




(** What the conversion of the columns [labels], one after the other, does
    to each line. *)
Definition converted (labels : list string) (r r' : record) : Prop :=
  (forall l, In l labels ->
     exists z, astype_int_cell (lookup r l) = Ok (VInt z) /\ lookup r' l = VInt z) /\
  (forall l, ~ In l labels -> lookup r' l = lookup r l).

(** ** Floats as rationals *)

(** The rational number a finite float stands for. *)
Definition float_value (f : float) : Q :=
  match Prim2SF f with
  | S754_finite neg m e =>
      ((if neg then -1 else 1) * inject_Z (Zpos m) * Qpower 2 e)%Q
  | _ => 0%Q
  end.

(** [f] is [q] when written with six decimals, as pandas prints a float. *)
Definition six_decimals (f : float) (q : Q) : Prop :=
  (Qabs (float_value f - q) <= 5 # 10000000)%Q.

(** ** The worked example: frames *)

(** The frame the notebook writes for the page of the worked example. *)
Definition alexandra_record : record :=
  [("Place", VInt 1); ("Name", VStr "Alexandra Sciocchetti");
   ("Team", VStr "UNATTACHED"); ("Bib No", VInt 189); ("Age", VInt 20);
   ("Gender", VStr "F"); ("Age Group", VStr "1/48 13-39");
   ("Total Time", VStr "20:20"); ("Pace", VStr "5:55/M"); ("Year", VInt 2015);
   ("Time", VTimedelta (timedelta_of 20 20)); ("Minutes", VFloat (div60 1220))].

Definition tamma_record : record :=
  [("Place", VInt 2); ("Name", VStr "Tamma Carleton");
   ("Team", VStr "Strawberry Canyon TC"); ("Bib No", VInt 114); ("Age", VInt 27);
   ("Gender", VStr "F"); ("Age Group", VStr "2/48 13-39");
   ("Total Time", VStr "20:23"); ("Pace", VStr "5:56/M"); ("Year", VInt 2015);
   ("Time", VTimedelta (timedelta_of 20 23)); ("Minutes", VFloat (div60 1223))].

Definition example_frame : DataFrame :=
  mk_frame (site_header ++ ["Year"; "Time"; "Minutes"])
           [alexandra_record; tamma_record].

(** The frame of the worked example with its lines the other way round. *)
Definition late_first : DataFrame :=
  mk_frame (columns example_frame) [tamma_record; alexandra_record].



(** ** The order of the sorted frame *)

(** The line [r] does not come after the line [r'] in the order of [by_]. *)
Definition key_le (by_ : string) (r r' : record) : Prop :=
  exists k k', sort_key by_ r = Ok k /\ sort_key by_ r' = Ok k' /\ (k <= k')%Z.

(** The [Place] cells of the lines of a frame, in order. *)
Definition places (r : result DataFrame) : list value :=
  match r with
  | Ok df => map (fun r => lookup r "Place") (rows df)
  | Raise _ => []
  end.

(** ** Arrays of indices and the parts of the sort *)

Local Open Scope Z_scope.

Section SortInvariants.

(** The key column. *)
Variable v : list Z.

(** [p] is a position of the array [a]. *)
Definition in_array (a : list nat) (p : Z) : Prop :=
  0 <= p < Z.of_nat (List.length a).

(** The key of the element at position [p]. *)
Definition K (a : list nat) (p : Z) : Z := key_at v (rd a p).

(** [a'] is [a] with the elements of [pl .. pr] rearranged. *)
Definition moved_within (pl pr : Z) (a a' : list nat) : Prop :=
  List.length a' = List.length a /\
  Permutation a' a /\
  (forall p, 0 <= p -> p < pl \/ pr < p -> rd a' p = rd a p) /\
  (forall p, pl <= p <= pr -> exists q, pl <= q <= pr /\ rd a' p = rd a q).

Definition sorted_between (a : list nat) (l r : Z) : Prop :=
  forall p q, l <= p -> p <= q -> q <= r -> K a p <= K a q.

(** A part [pl .. pr] of an array of [n] elements; [pr = pl - 1] is empty. *)
Definition part_ok (n : Z) (s : Z * Z) : Prop :=
  0 <= fst s /\ snd s < n /\ fst s <= snd s + 1.

Definition apart (s t : Z * Z) : Prop := snd s < fst t \/ snd t < fst s.

(** [p] and [q] lie in one part that is still to be sorted. *)
Definition together (parts : list (Z * Z)) (p q : Z) : Prop :=
  Exists (fun s => fst s <= p /\ q <= snd s) parts.

(** The iterations the loop still needs, at most. *)
Fixpoint work (parts : list (Z * Z)) : Z :=
  match parts with
  | [] => 0
  | s :: rest => 2 * (snd s - fst s + 1) + 1 + work rest
  end.

(** What holds each time the outer loop starts on a part: the array is a
    rearrangement of the initial one, and two positions are in order unless
    they lie together in a part still to be sorted. *)
Definition loop_inv (a0 a : list nat) (parts : list (Z * Z)) : Prop :=
  List.length a = List.length a0 /\
  Permutation a a0 /\
  Forall (part_ok (Z.of_nat (List.length a0))) parts /\
  ForallOrdPairs apart parts /\
  (forall p q, 0 <= p -> p < q -> q < Z.of_nat (List.length a0) ->
     together parts p q \/ K a p <= K a q).

End SortInvariants.

Local Close Scope Z_scope.

(** ** Further tables, webs and frames *)

(** A table without the site's header: its first row of nine cells is a
    runner's, and the same row comes again at the end. *)
Definition headless_table : list Row := [title_row; alexandra; tamma; alexandra].


(** The frame of the page of the worked example. *)
Definition example_page_frame : DataFrame := new_frame [alexandra; tamma] site_header.

(** The frame the loop builds for the page of the worked example. *)
Definition built_example : DataFrame :=
  append empty_frame
         (setitem (new_frame [alexandra; tamma] site_header) "Year" (VInt 2015)).

(** A frame whose second line carries a time of more than an hour. *)
Definition over_an_hour : DataFrame :=
  mk_frame ["Total Time"]
           [[("Total Time", VStr "59:59")]; [("Total Time", VStr "1:00:03")]].

(** The page frame of the worked example without its [Age] column. *)
Definition no_age : DataFrame :=
  mk_frame ["Place"; "Bib No"; "Total Time"]
           [[("Place", VStr "1"); ("Bib No", VStr "189");
             ("Total Time", VStr "20:20")]].

(** ** The lines of the written frame *)

(** The labels the normalisation cell writes. *)
Definition derived_labels : list string :=
  ["Time"; "Minutes"; "Place"; "Age"; "Bib No"].

(** A line as the notebook writes it: [Time] is the duration of the string
    under [Total Time], [Minutes] its number of seconds over 60, and the three
    integer columns hold integers. *)
Definition normalised_record (r : record) : Prop :=
  (exists s td,
     lookup r "Total Time" = VStr s /\
     convert_date_string_to_datetime s = Ok td /\
     lookup r "Time" = VTimedelta td /\
     lookup r "Minutes" = VFloat (div60 (total_seconds td))) /\
  (forall l, In l int_columns -> exists z, lookup r l = VInt z).

(** The line [r'] is the line [r] after the normalisation cell. *)
Definition normalised_from (r r' : record) : Prop :=
  normalised_record r' /\
  (forall l, ~ In l derived_labels -> lookup r' l = lookup r l).

(** [Minutes] of [n] seconds is below [Minutes] of [n + 1] seconds. *)
Definition minutes_step_up (n : nat) : bool :=
  negb (Qle_bool (float_value (div60 (Z.of_nat (S n))))
                 (float_value (div60 (Z.of_nat n)))).

(** The order of two lines by [Minutes]. *)
Definition minutes_le (r r' : record) : Prop :=
  exists f f', lookup r "Minutes" = VFloat f /\ lookup r' "Minutes" = VFloat f' /\
               (float_value f <= float_value f')%Q.

(** ** The address of a year's page *)

(** The two decimal digits of a number below 100. *)
Definition suffix_digits (z : Z) : string :=
  String (ascii_of_nat (48 + Z.to_nat (z / 10)))
         (String (ascii_of_nat (48 + Z.to_nat (z mod 10))) "").

(** The number that two decimal digits stand for. *)
Definition suffix_value (s : string) : Z :=
  match s with
  | String a (String b _) => (10 * digit_value a + digit_value b)%Z
  | _ => 0%Z
  end.

(** The address that ends in the digits [digits]. *)
Definition page_address (digits : string) : string :=
  "http://www.empirerunners.com/results/empireopen/eo" ++ digits ++ ".html".

(** The years from 1000 to 9999. *)
Definition four_digit_years : list Z :=
  map (fun n => (1000 + Z.of_nat n)%Z) (seq 0 (Z.to_nat 9000)).

(** ** The stable order of an index array *)

(** Sixteen lines with one time, in the order of their places. *)
Definition sixteen_tied : DataFrame :=
  mk_frame ["Place"; "Time"]
           (map (fun i => [("Place", VInt (Z.of_nat i));
                           ("Time", VTimedelta (timedelta_of 16 56))])
                (seq 1 16)).

(** Line [i] of the unsorted frame goes before line [j] in a stable sort: a
    smaller key, or the same key and an earlier place. *)
Definition lex_before (v : list Z) (i j : nat) : Prop :=
  (key_at v i < key_at v j)%Z \/ (key_at v i = key_at v j /\ i < j).

(** [indexer] is the stable sort of the keys [v]. *)
Definition stable_indexer (v : list Z) (indexer : list nat) : Prop :=
  Permutation indexer (seq 0 (List.length v)) /\
  forall p q, p < q -> q < List.length v ->
    lex_before v (nth p indexer 0) (nth q indexer 0).

(** * Properties *)

(** ** The cleaning loop *)

Lemma clean_loop_acc (header : Row) (raw_data acc : list Row) :
  fold_left (clean_step header) raw_data acc
  = acc ++ filter (keeps header) raw_data.
Proof.
  revert acc.
  induction raw_data as [|row rest IH]; intros acc; simpl.
  - now rewrite app_nil_r.
  - rewrite IH. unfold clean_step, keeps.
    destruct (row_neqb row header && len9 row); simpl.
    + now rewrite <- app_assoc.
    + reflexivity.
Qed.

Lemma clean_rows_filter (header : Row) (raw_data : list Row) :
  clean_rows header raw_data = filter (keeps header) raw_data.
Proof. unfold clean_rows. now rewrite clean_loop_acc. Qed.

Lemma keeps_spec (header row : Row) :
  keeps header row = true <-> len row = 9 /\ row <> header.
Proof.
  unfold keeps, row_neqb, len9.
  destruct (row_eq_dec row header) as [e|n]; simpl.
  - split; [discriminate | intros [_ H]; contradiction].
  - rewrite Nat.eqb_eq. tauto.
Qed.

Lemma len9_spec (row : Row) : len9 row = true <-> len row = 9.
Proof. unfold len9. apply Nat.eqb_eq. Qed.

(** The first element satisfying [p], with the elements before it. *)
Lemma filter_head_split {A} (p : A -> bool) (l : list A) (x : A) (xs : list A) :
  filter p l = x :: xs ->
  exists before after,
    l = before ++ x :: after /\ p x = true /\
    Forall (fun y => p y = false) before.
Proof.
  induction l as [|a l IH]; simpl; [discriminate|].
  destruct (p a) eqn:Hpa; intros H.
  - inversion H; subst. exists [], l. repeat split; auto.
  - destruct (IH H) as (before & after & -> & Hx & Hb).
    exists (a :: before), after. repeat split; auto.
Qed.

Lemma find_header_ok (raw_data : list Row) (header : Row) :
  find_header raw_data = Ok header ->
  exists before after,
    raw_data = before ++ header :: after /\ len header = 9 /\
    Forall (fun row => len row <> 9) before.
Proof.
  unfold find_header.
  destruct (filter len9 raw_data) as [|h t] eqn:Hf; [discriminate|].
  intros H; inversion H; subst h.
  destruct (filter_head_split _ _ _ _ Hf) as (before & after & -> & Hh & Hb).
  exists before, after. repeat split; auto.
  - now apply len9_spec.
  - eapply Forall_impl; [|exact Hb]. simpl. intros row Hr Hlen.
    apply len9_spec in Hlen. congruence.
Qed.

Lemma find_header_some (raw_data : list Row) :
  Exists (fun row => len row = 9) raw_data ->
  exists header, find_header raw_data = Ok header.
Proof.
  intros Hex. unfold find_header.
  destruct (filter len9 raw_data) as [|h t] eqn:Hf; [|eauto].
  exfalso. apply Exists_exists in Hex. destruct Hex as (row & Hin & Hlen).
  assert (Hin' : In row (filter len9 raw_data)).
  { apply filter_In. split; auto. now apply len9_spec. }
  rewrite Hf in Hin'. contradiction.
Qed.

Lemma find_header_none (raw_data : list Row) :
  Forall (fun row => len row <> 9) raw_data ->
  find_header raw_data = Raise IndexError.
Proof.
  intros Hall. unfold find_header.
  destruct (filter len9 raw_data) as [|h t] eqn:Hf; [reflexivity|].
  exfalso.
  assert (Hin : In h (filter len9 raw_data)) by (rewrite Hf; now left).
  apply filter_In in Hin. destruct Hin as [Hin Hlen].
  rewrite Forall_forall in Hall. apply (Hall _ Hin). now apply len9_spec.
Qed.

Lemma classify_ok (raw_data : list Row) (header : Row) (cleaned : list Row) :
  classify raw_data = Ok (header, cleaned) ->
  find_header raw_data = Ok header /\ cleaned = filter (keeps header) raw_data.
Proof.
  unfold classify, bind.
  destruct (find_header raw_data) as [h|e]; [|discriminate].
  intros H; inversion H; subst. split; auto. apply clean_rows_filter.
Qed.

(** C1: when some row has length 9, the header is the first row of length 9
    and the cleaned output is, in the original order, exactly the rows of
    length 9 that differ from the header; the header and the rows shorter
    than 9 are not in it. *)
Theorem classify_keeps_data_rows (raw_data : list Row) :
  Exists (fun row => len row = 9) raw_data ->
  exists header before after,
    raw_data = before ++ header :: after /\
    len header = 9 /\
    Forall (fun row => len row <> 9) before /\
    classify raw_data
    = Ok (header,
          filter (fun row => if row_eq_dec row header then false
                             else Nat.eqb (len row) 9) raw_data) /\
    (forall cleaned, classify raw_data = Ok (header, cleaned) ->
       (forall row, In row cleaned <->
                    In row raw_data /\ len row = 9 /\ row <> header) /\
       ~ In header cleaned /\
       (forall row, len row < 9 -> ~ In row cleaned)).
Proof.
  intros Hex.
  destruct (find_header_some _ Hex) as [header Hh].
  destruct (find_header_ok _ _ Hh) as (before & after & Hsplit & Hlen & Hb).
  exists header, before, after.
  assert (Hc : classify raw_data = Ok (header, filter (keeps header) raw_data)).
  { unfold classify. rewrite Hh. simpl. now rewrite clean_rows_filter. }
  split; [exact Hsplit|]. split; [exact Hlen|]. split; [exact Hb|].
  split.
  - rewrite Hc. do 2 f_equal. apply filter_ext. intros row.
    unfold keeps, row_neqb, len9.
    now destruct (row_eq_dec row header).
  - intros cleaned H. rewrite Hc in H. inversion H; subst cleaned.
    split; [|split].
    + intros row. rewrite filter_In, keeps_spec. tauto.
    + rewrite filter_In, keeps_spec. intros [_ [_ Hne]]. now apply Hne.
    + intros row Hlt. rewrite filter_In, keeps_spec. intros [_ [H9 _]]. lia.
Qed.

Lemma classify_keeps_data_rows_witness :
  Exists (fun row => len row = 9) four_rows /\
  exists header before after,
    four_rows = before ++ header :: after /\
    len header = 9 /\
    Forall (fun row => len row <> 9) before /\
    classify four_rows
    = Ok (header,
          filter (fun row => if row_eq_dec row header then false
                             else Nat.eqb (len row) 9) four_rows) /\
    (forall cleaned, classify four_rows = Ok (header, cleaned) ->
       (forall row, In row cleaned <->
                    In row four_rows /\ len row = 9 /\ row <> header) /\
       ~ In header cleaned /\
       (forall row, len row < 9 -> ~ In row cleaned)).
Proof.
  assert (H : Exists (fun row => len row = 9) four_rows).
  { apply Exists_cons_tl, Exists_cons_hd. reflexivity. }
  split; [exact H | exact (classify_keeps_data_rows four_rows H)].
Defined.

(** C5: when no row has length 9, the selection of the header raises (the
    [IndexError] of [[...][0]] on an empty list, the spec's
    HeaderNotFoundError) and no cleaned output or frame is produced. *)
Theorem no_header_raises (raw_data : list Row) :
  Forall (fun row => len row <> 9) raw_data ->
  classify raw_data = Raise IndexError /\
  parse_rows raw_data = Raise IndexError /\
  (forall urlopen_read table_rows url html,
     urlopen_read url = Ok html ->
     table_rows html = Ok raw_data ->
     parse_results_table urlopen_read table_rows url = Raise IndexError).
Proof.
  intros Hall.
  assert (Hc : classify raw_data = Raise IndexError).
  { unfold classify. now rewrite (find_header_none _ Hall). }
  assert (Hp : parse_rows raw_data = Raise IndexError).
  { unfold parse_rows. now rewrite Hc. }
  split; [exact Hc|]. split; [exact Hp|].
  intros urlopen_read table_rows url html Hu Ht.
  unfold parse_results_table. rewrite Hu. simpl. rewrite Ht. simpl. exact Hp.
Qed.

Lemma no_header_raises_witness :
  Forall (fun row => len row <> 9) [title_row; ["Men's Race"; "5K"]] /\
  classify [title_row; ["Men's Race"; "5K"]] = Raise IndexError.
Proof.
  assert (H : Forall (fun row => len row <> 9) [title_row; ["Men's Race"; "5K"]]).
  { repeat constructor; simpl; lia. }
  split; [exact H | exact (proj1 (no_header_raises _ H))].
Defined.

Lemma combine_cells_length (header row : Row) :
  len header = 9 -> len row = 9 ->
  List.length (combine header (map VStr row)) = 9.
Proof.
  unfold len. intros Hh Hr.
  rewrite length_combine, length_map, Hh, Hr. reflexivity.
Qed.

(** C10: every row of the cleaned output has length exactly 9, so a row
    longer than 9 is discarded like a shorter one, and the frame is built
    from nine-cell rows under a nine-label header. *)
Theorem cleaned_rows_have_nine_cells (raw_data : list Row) (header : Row)
        (cleaned : list Row) :
  classify raw_data = Ok (header, cleaned) ->
  Forall (fun row => len row = 9) cleaned /\
  (forall row, 9 < len row -> ~ In row cleaned) /\
  parse_rows raw_data = Ok (new_frame cleaned header) /\
  List.length (columns (new_frame cleaned header)) = 9 /\
  Forall (fun r => List.length r = 9) (rows (new_frame cleaned header)).
Proof.
  intros Hc.
  destruct (classify_ok _ _ _ Hc) as [Hh ->].
  destruct (find_header_ok _ _ Hh) as (_ & _ & _ & Hlen & _).
  assert (Hall : Forall (fun row => len row = 9) (filter (keeps header) raw_data)).
  { apply Forall_forall. intros row Hin.
    apply filter_In in Hin. destruct Hin as [_ Hk].
    now apply keeps_spec in Hk. }
  split; [exact Hall|]. split; [|split; [|split]].
  - intros row Hgt Hin. rewrite Forall_forall in Hall.
    specialize (Hall _ Hin). lia.
  - unfold parse_rows. rewrite Hc. reflexivity.
  - exact Hlen.
  - simpl. apply Forall_map. eapply Forall_impl; [|exact Hall].
    intros row Hr. now apply combine_cells_length.
Qed.

Lemma cleaned_rows_have_nine_cells_witness :
  classify (four_rows ++ [ten_cells]) = Ok (site_header, [alexandra; tamma]) /\
  Forall (fun row => len row = 9) [alexandra; tamma] /\
  (forall row, 9 < len row -> ~ In row [alexandra; tamma]).
Proof.
  assert (H : classify (four_rows ++ [ten_cells])
              = Ok (site_header, [alexandra; tamma])) by reflexivity.
  split; [exact H|].
  pose proof (cleaned_rows_have_nine_cells _ _ _ H) as (H1 & H2 & _).
  split; [exact H1 | exact H2].
Defined.

(** ** The time format *)

Lemma cls_colon_eq (c : ascii) : cls_colon c = true -> c = ":"%char.
Proof. unfold cls_colon. apply Ascii.eqb_eq. Qed.

Lemma cls_d_range (c : ascii) :
  cls_d c = true -> (0 <= digit_value c <= 9)%Z.
Proof.
  unfold cls_d, digit_value. rewrite andb_true_iff, !Nat.leb_le. lia.
Qed.

Lemma cls_0_5_range (c : ascii) :
  cls_0_5 c = true -> cls_d c = true /\ (0 <= digit_value c <= 5)%Z.
Proof.
  unfold cls_0_5, cls_d, digit_value.
  rewrite !andb_true_iff, !Nat.leb_le. lia.
Qed.

Lemma cls_0_1_range (c : ascii) :
  cls_0_1 c = true -> cls_d c = true /\ (0 <= digit_value c <= 1)%Z.
Proof.
  unfold cls_0_1, cls_d, digit_value.
  rewrite !andb_true_iff, !Nat.leb_le. lia.
Qed.

Lemma cls_6_value (c : ascii) :
  cls_6 c = true -> cls_d c = true /\ digit_value c = 6%Z.
Proof.
  unfold cls_6. intros H. apply Ascii.eqb_eq in H. subst c. split; reflexivity.
Qed.

Lemma cls_0_5_of_digit (c : ascii) :
  cls_d c = true -> (digit_value c <= 5)%Z -> cls_0_5 c = true.
Proof.
  unfold cls_0_5, cls_d, digit_value.
  rewrite !andb_true_iff, !Nat.leb_le. lia.
Qed.

Lemma cls_6_of_digit (c : ascii) :
  (digit_value c <= 5)%Z -> cls_6 c = false.
Proof.
  intros H. destruct (cls_6 c) eqn:E; [|reflexivity].
  apply cls_6_value in E. lia.
Qed.

Lemma digit_not_colon (c : ascii) : cls_d c = true -> cls_colon c = false.
Proof.
  intros H. destruct (cls_colon c) eqn:E; [|reflexivity].
  apply cls_colon_eq in E. subst c. discriminate.
Qed.

Lemma colon_not_digit : cls_d ":" = false.
Proof. reflexivity. Qed.

Ltac regex_step :=
  cbn -[cls_d cls_0_5 cls_6 cls_0_1 cls_colon digit_value Z.mul Z.add Z.leb].

(** Every string of the accepted form is converted. *)
Lemma strptime_complete (s : string) (m sec : Z) :
  minute_second_string s m sec ->
  strptime s = Ok (mk_datetime 1900 1 1 0 m sec).
Proof.
  intros (mp & sp & -> & Hm & Hs & Hm59 & Hs59).
  apply Z.leb_le in Hs59.
  assert (Hcolon : cls_colon ":" = true) by reflexivity.
  pose proof colon_not_digit as Hnd.
  destruct Hm as [a Ha | a b Ha Hb]; destruct Hs as [c Hc | c d Hc Hd].
  all: try (assert (Ha5 : cls_0_5 a = true)
              by (pose proof (cls_d_range _ Ha); pose proof (cls_d_range _ Hb);
                  apply cls_0_5_of_digit; auto; lia)).
  all: try (assert (Hc5 : cls_0_5 c = true /\ cls_6 c = false)
              by (pose proof (cls_d_range _ Hc); pose proof (cls_d_range _ Hd);
                  apply Z.leb_le in Hs59; split;
                  [apply cls_0_5_of_digit | apply cls_6_of_digit]; auto; lia);
            destruct Hc5 as [Hc5 Hc6]).
  all: unfold strptime, regex_match, group_M, group_S, two_chars, one_char,
         literal_colon.
  all: regex_step.
  all: rewrite ?Ha, ?Hb, ?Hc, ?Hd, ?Ha5, ?Hc5, ?Hc6, ?Hnd, ?Hcolon,
         ?andb_false_r, ?andb_true_r; regex_step.
  all: rewrite ?Ha, ?Hb, ?Hc, ?Hd, ?Ha5, ?Hc5, ?Hc6, ?Hnd, ?Hcolon,
         ?(digit_not_colon _ Hb), ?(digit_not_colon _ Hd),
         ?andb_false_r, ?andb_true_r; regex_step.
  all: rewrite ?Ha, ?Hb, ?Hc, ?Hd, ?Ha5, ?Hc5, ?Hc6, ?Hnd, ?Hcolon,
         ?andb_false_r, ?andb_true_r; regex_step.
  all: rewrite ?Hs59; try reflexivity.
Qed.

Ltac regex_step_in H :=
  cbn -[cls_d cls_0_5 cls_6 cls_0_1 cls_colon digit_value Z.mul Z.add Z.leb] in H.

Ltac break_if :=
  match goal with
  | H : context [if ?b then _ else _] |- _ =>
      let E := fresh "E" in destruct b eqn:E
  end.

Ltac class_facts :=
  repeat match goal with
  | H : _ && _ = true |- _ => apply andb_true_iff in H; destruct H
  | H : cls_colon ?c = true |- _ => apply cls_colon_eq in H; subst c
  | H : cls_0_5 ?c = true |- _ => apply cls_0_5_range in H; destruct H
  | H : cls_0_1 ?c = true |- _ => apply cls_0_1_range in H; destruct H
  | H : cls_6 ?c = true |- _ => apply cls_6_value in H; destruct H
  | H : (_ <=? _)%Z = true |- _ => apply Z.leb_le in H
  | H : cls_d ":" = true |- _ => rewrite colon_not_digit in H; discriminate H
  end.

Ltac digit_bounds :=
  repeat match goal with
  | H : cls_d ?c = true |- _ => apply cls_d_range in H
  end; lia.

Ltac give_fields mp sp :=
  exists mp, sp;
  split; [reflexivity|];
  split; [constructor; assumption|];
  split; [constructor; assumption|];
  split; digit_bounds.

Ltac find_fields :=
  match goal with
  | |- minute_second_string (String ?a (String ":" (String ?c ""))) _ _ =>
      give_fields (String a "") (String c "")
  | |- minute_second_string
         (String ?a (String ":" (String ?c (String ?d "")))) _ _ =>
      give_fields (String a "") (String c (String d ""))
  | |- minute_second_string
         (String ?a (String ?b (String ":" (String ?d "")))) _ _ =>
      give_fields (String a (String b "")) (String d "")
  | |- minute_second_string
         (String ?a (String ?b (String ":" (String ?d (String ?e ""))))) _ _ =>
      give_fields (String a (String b "")) (String d (String e ""))
  end.

(** Whatever is converted has the accepted form. *)
Lemma strptime_sound (s : string) (t : datetime) :
  strptime s = Ok t ->
  minute_second_string s (minute t) (second t) /\
  t = mk_datetime 1900 1 1 0 (minute t) (second t).
Proof.
  unfold strptime, regex_match, group_M, group_S, two_chars, one_char,
    literal_colon.
  destruct s as [|a [|b [|c [|d [|e [|f r]]]]]]; regex_step; intros H.
  all: repeat (break_if; regex_step_in H).
  all: try discriminate.
  all: match type of H with Ok ?x = Ok _ =>
         assert (Ht : t = x) by congruence; subst t; clear H end;
       cbn [minute second].
  all: class_facts.
  all: split; [find_fields | reflexivity].
Qed.

(** [strptime] raises nothing but [ValueError]. *)
Lemma strptime_raises (s : string) (e : exn) :
  strptime s = Raise e -> e = ValueError.
Proof.
  unfold strptime.
  destruct (regex_match s) as [[[m sec] rest]|]; [|congruence].
  destruct rest; [|congruence].
  destruct (sec <=? 59)%Z; congruence.
Qed.

Lemma convert_ok_inv (s : string) (td : timedelta) :
  convert_date_string_to_datetime s = Ok td ->
  exists t, strptime s = Ok t /\ td = timedelta_of (minute t) (second t).
Proof.
  unfold convert_date_string_to_datetime, bind.
  destruct (strptime s) as [t|e]; [|discriminate].
  intros H. exists t. split; congruence.
Qed.

Lemma convert_sound (s : string) (td : timedelta) :
  convert_date_string_to_datetime s = Ok td ->
  exists m sec, minute_second_string s m sec /\ td = timedelta_of m sec.
Proof.
  intros H. destruct (convert_ok_inv _ _ H) as (t & Ht & ->).
  exists (minute t), (second t). split; [|reflexivity].
  now apply strptime_sound.
Qed.

(** C2, as the code has it: the strings converted to a duration are exactly
    those made of a minute field and a second field of one or two digits each,
    both at most 59, around a colon; the duration is (minutes, seconds); every
    other string raises [ValueError] (the spec's TimeParseError). *)
Theorem convert_accepts_minute_second_strings (s : string) :
  (forall m sec, minute_second_string s m sec ->
     convert_date_string_to_datetime s = Ok (timedelta_of m sec)) /\
  (forall td, convert_date_string_to_datetime s = Ok td ->
     exists m sec, minute_second_string s m sec /\ td = timedelta_of m sec) /\
  ((~ exists m sec, minute_second_string s m sec) ->
     convert_date_string_to_datetime s = Raise ValueError).
Proof.
  pose proof (convert_sound s) as Hsound.
  split; [|split].
  - intros m sec H. unfold convert_date_string_to_datetime.
    rewrite (strptime_complete _ _ _ H). reflexivity.
  - exact Hsound.
  - intros Hno.
    destruct (convert_date_string_to_datetime s) as [td|e] eqn:E.
    + exfalso. apply Hno. destruct (Hsound td eq_refl) as (m & sec & H & _).
      now exists m, sec.
    + f_equal. unfold convert_date_string_to_datetime, bind in E.
      destruct (strptime s) as [t|e'] eqn:Es; [discriminate|].
      inversion E; subst e'. now apply strptime_raises in Es.
Qed.

Lemma sixteen_fifty_one : minute_second_string "16:51" 16 51.
Proof.
  exists "16", "51". split; [reflexivity|].
  split; [exact (two_digits "1" "6" eq_refl eq_refl)|].
  split; [exact (two_digits "5" "1" eq_refl eq_refl)|]. split; lia.
Qed.

Lemma convert_accepts_minute_second_strings_witness :
  minute_second_string "16:51" 16 51 /\
  convert_date_string_to_datetime "16:51" = Ok (timedelta_of 16 51).
Proof.
  split; [exact sixteen_fifty_one|].
  exact (proj1 (convert_accepts_minute_second_strings "16:51") 16%Z 51%Z
           sixteen_fifty_one).
Defined.

(** C2, as stated, fails on the code: a three-digit minute field is refused,
    so is a two-digit minute field above 59, and a one-digit second field is
    accepted. *)
Lemma convert_three_digit_minutes_refused :
  convert_date_string_to_datetime "104:32" = Raise ValueError /\
  convert_date_string_to_datetime "60:00" = Raise ValueError /\
  convert_date_string_to_datetime "5:3" = Ok (timedelta_of 5 3).
Proof. repeat split; reflexivity. Qed.

(** ** Reading and writing cells *)

Lemma has_label_cons (l0 : string) (y : value) (r : record) (label : string) :
  has_label ((l0, y) :: r) label = String.eqb label l0 || has_label r label.
Proof. reflexivity. Qed.

Lemma lookup_no_label (r : record) (label : string) (x : value) :
  has_label r label = false -> lookup (r ++ [(label, x)]) label = x.
Proof.
  induction r as [|[l0 y] r IH]; simpl.
  - now rewrite String.eqb_refl.
  - rewrite has_label_cons, orb_false_iff, (String.eqb_sym label l0).
    intros [-> H]. now apply IH.
Qed.

Lemma lookup_assign_same (label : string) (x : value) (r : record) :
  lookup (assign label x r) label = x.
Proof.
  unfold assign. destruct (has_label r label) eqn:E.
  - induction r as [|[l0 y] r IH]; [discriminate|].
    rewrite has_label_cons, (String.eqb_sym label l0) in E. simpl.
    destruct (String.eqb l0 label) eqn:El; simpl.
    + now rewrite El.
    + rewrite El. now apply IH.
  - now apply lookup_no_label.
Qed.

Lemma lookup_assign_other (label other : string) (x : value) (r : record) :
  other <> label -> lookup (assign label x r) other = lookup r other.
Proof.
  intros Hne. unfold assign. destruct (has_label r label).
  - induction r as [|[l0 y] r IH]; [reflexivity|]. simpl.
    destruct (String.eqb l0 label) eqn:El; simpl; rewrite IH; auto.
    apply String.eqb_eq in El. subst l0.
    destruct (String.eqb label other) eqn:Eo; auto.
    apply String.eqb_eq in Eo. congruence.
  - induction r as [|[l0 y] r IH]; simpl.
    + destruct (String.eqb label other) eqn:Eo; auto.
      apply String.eqb_eq in Eo. congruence.
    + now rewrite IH.
Qed.

Lemma mapM_Forall2 {A B} (f : A -> result B) (l : list A) (l' : list B) :
  mapM f l = Ok l' -> Forall2 (fun a b => f a = Ok b) l l'.
Proof.
  revert l'. induction l as [|a l IH]; simpl; intros l' H.
  - inversion H. constructor.
  - destruct (f a) as [b|e] eqn:Ea; [|discriminate]. simpl in H.
    destruct (mapM f l) as [bs|e]; [|discriminate]. simpl in H.
    inversion H; subst. constructor; auto.
Qed.

(** The lines of a frame after a column has been written from a series that
    was computed line by line. *)
Lemma series_rows {B} (g : record -> B) (R : B -> value -> Prop)
      (label : string) (rs : list record) (xs : list value) :
  Forall2 R (map g rs) xs ->
  Forall2 (fun r r' => exists x, R (g r) x /\ r' = assign label x r)
          rs (map (fun rx => assign label (snd rx) (fst rx)) (combine rs xs)).
Proof.
  revert xs. induction rs as [|r rs IH]; intros xs H; simpl in *.
  - constructor.
  - inversion H; subst. simpl. constructor; eauto.
Qed.

Lemma getitem_ok (df : DataFrame) (label : string) (col : list value) :
  getitem df label = Ok (Series col) ->
  has_column df label = true /\ col = map (fun r => lookup r label) (rows df).
Proof.
  unfold getitem. destruct (has_column df label); [|discriminate].
  destruct (repeated df label); [discriminate|].
  intros H; inversion H. auto.
Qed.

Lemma add_Time_rows (df df1 : DataFrame) :
  add_Time df = Ok df1 ->
  Forall2 (fun r r1 => exists x, apply_convert (lookup r "Total Time") = Ok x /\
                                 r1 = assign "Time" x r)
          (rows df) (rows df1).
Proof.
  unfold add_Time, bind.
  destruct (getitem df "Total Time") as [[col|lines]|] eqn:Eg; try discriminate.
  destruct (mapM apply_convert col) as [times|] eqn:Em; [|discriminate].
  intros H; inversion H; subst df1; clear H. simpl.
  apply getitem_ok in Eg. destruct Eg as [_ ->].
  apply mapM_Forall2 in Em.
  exact (series_rows _ (fun a b => apply_convert a = Ok b) "Time" _ _ Em).
Qed.

Lemma add_Minutes_rows (df df2 : DataFrame) :
  add_Minutes df = Ok df2 ->
  Forall2 (fun r r2 => exists x, minutes_of (lookup r "Time") = Ok x /\
                                 r2 = assign "Minutes" x r)
          (rows df) (rows df2).
Proof.
  unfold add_Minutes, bind.
  destruct (getitem df "Time") as [[col|lines]|] eqn:Eg; try discriminate.
  destruct col as [|c col]; [discriminate|].
  destruct (mapM minutes_of (c :: col)) as [mins|] eqn:Em; [|discriminate].
  intros H; inversion H; subst df2; clear H. simpl.
  apply getitem_ok in Eg. destruct Eg as [_ Eg]. rewrite Eg in Em.
  apply mapM_Forall2 in Em.
  exact (series_rows _ (fun a b => minutes_of a = Ok b) "Minutes" _ _ Em).
Qed.

Lemma Forall2_compose {A B C} (P : A -> B -> Prop) (Q : B -> C -> Prop)
      (l1 : list A) (l2 : list B) (l3 : list C) :
  Forall2 P l1 l2 -> Forall2 Q l2 l3 ->
  Forall2 (fun a c => exists b, P a b /\ Q b c) l1 l3.
Proof.
  intros H. revert l3. induction H; intros l3 HQ; inversion HQ; subst.
  - constructor.
  - constructor; eauto.
Qed.

Lemma timedelta_of_parsed (s : string) (td : timedelta) :
  convert_date_string_to_datetime s = Ok td ->
  days td = 0%Z /\ seconds td = total_seconds td /\
  (0 <= total_seconds td < 3600)%Z.
Proof.
  intros H.
  destruct (convert_sound s td H)
    as (m & sec & (mp & sp & _ & Hm & Hs & Hm59 & Hs59) & ->).
  assert (0 <= m)%Z.
  { destruct Hm as [a Ha|a b Ha Hb];
      digit_bounds. }
  assert (0 <= sec)%Z.
  { destruct Hs as [a Ha|a b Ha Hb];
      digit_bounds. }
  unfold timedelta_of, total_seconds. cbn [days seconds].
  rewrite Z.div_small, Z.mod_small by lia. lia.
Qed.



(** ** The per-year loop *)

Section Loop.

Variable urlopen_read : string -> result string.
Variable table_rows : string -> result (list Row).

Let parse := parse_results_table urlopen_read table_rows.
Let step := year_step urlopen_read table_rows.

Lemma year_loop_ok (ys : list Z) (ds : list DataFrame) (df0 : DataFrame) :
  Forall2 (fun y d => parse (url_of y) = Ok d) ys ds ->
  exists df,
    foldM step (combine ys (urls ys)) df0 = Ok df /\
    rows df = rows df0 ++ merged_rows ys ds.
Proof.
  intros H. revert df0. induction H as [|y d ys ds Hy _ IH]; intros df0.
  - exists df0. split; [reflexivity|]. unfold merged_rows. simpl.
    now rewrite app_nil_r.
  - simpl. unfold step at 1, year_step. simpl. fold parse. rewrite Hy. simpl.
    destruct (IH (append df0 (setitem d "Year" (VInt y)))) as (df & Hdf & Hrows).
    exists df. split; [exact Hdf|].
    rewrite Hrows. simpl. unfold merged_rows. simpl.
    now rewrite <- app_assoc.
Qed.

Lemma year_loop_inv (ys : list Z) (df0 df : DataFrame) :
  foldM step (combine ys (urls ys)) df0 = Ok df ->
  exists ds,
    Forall2 (fun y d => parse (url_of y) = Ok d) ys ds /\
    rows df = rows df0 ++ merged_rows ys ds.
Proof.
  revert df0. induction ys as [|y ys IH]; intros df0; simpl.
  - intros H; inversion H; subst. exists []. split; [constructor|].
    unfold merged_rows. simpl. now rewrite app_nil_r.
  - unfold step at 1, year_step. simpl. fold parse.
    destruct (parse (url_of y)) as [d|e] eqn:Hy; [|discriminate]. simpl.
    intros H. destruct (IH _ H) as (ds & Hds & Hrows).
    exists (d :: ds). split; [constructor; auto|].
    rewrite Hrows. simpl. unfold merged_rows. simpl.
    now rewrite <- app_assoc.
Qed.

End Loop.



(** ** Integer literals *)

Lemma digit_not_space (c : ascii) : cls_d c = true -> is_space c = false.
Proof.
  unfold cls_d, is_space. rewrite andb_true_iff, !Nat.leb_le. intros [H1 H2].
  rewrite !orb_false_iff. repeat split.
  - apply andb_false_iff. right. apply Nat.leb_gt. lia.
  - apply Nat.eqb_neq. lia.
  - apply Nat.eqb_neq. lia.
  - apply Nat.eqb_neq. lia.
Qed.

Lemma digit_not_sign (c : ascii) :
  cls_d c = true -> Ascii.eqb c "+" = false /\ Ascii.eqb c "-" = false.
Proof.
  intros H. split.
  - destruct (Ascii.eqb c "+") eqn:E; auto.
    apply Ascii.eqb_eq in E. subst. discriminate.
  - destruct (Ascii.eqb c "-") eqn:E; auto.
    apply Ascii.eqb_eq in E. subst. discriminate.
Qed.

Lemma skip_spaces_app (ws s : string) :
  string_all is_space ws = true -> skip_spaces (ws ++ s)%string = skip_spaces s.
Proof.
  induction ws as [|c ws IH]; simpl; [reflexivity|].
  rewrite andb_true_iff. intros [-> H]. now apply IH.
Qed.

Lemma skip_spaces_split (s : string) :
  exists ws, s = (ws ++ skip_spaces s)%string /\ string_all is_space ws = true.
Proof.
  induction s as [|c s (ws & Hs & Hws)]; simpl.
  - now exists "".
  - destruct (is_space c) eqn:E.
    + exists (String c ws). simpl. rewrite E, Hws. split; [congruence|reflexivity].
    + now exists "".
Qed.

Ltac digits_step :=
  cbn [read_digits horner string_all String.append fst snd].

Ltac digits_step_in H :=
  cbn [read_digits horner string_all String.append fst snd] in H.

Lemma read_digits_app (ds rest : string) (acc : Z) :
  string_all cls_d ds = true ->
  string_all is_space rest = true ->
  read_digits acc (ds ++ rest)%string = (horner acc ds, rest).
Proof.
  revert acc. induction ds as [|c ds IH]; digits_step; intros acc.
  - intros _ Hr. destruct rest as [|c rest]; digits_step; [reflexivity|].
    digits_step_in Hr. apply andb_true_iff in Hr. destruct Hr as [Hc _].
    destruct (cls_d c) eqn:E; [|reflexivity].
    apply digit_not_space in E. congruence.
  - rewrite andb_true_iff. intros [-> H] Hr. now apply IH.
Qed.

Lemma read_digits_split (s : string) (acc : Z) :
  exists ds,
    s = (ds ++ snd (read_digits acc s))%string /\
    string_all cls_d ds = true /\
    fst (read_digits acc s) = horner acc ds /\
    (forall c r, s = String c r -> cls_d c = true -> ds <> "").
Proof.
  revert acc. induction s as [|c s IH]; intros acc; digits_step.
  - exists "". repeat split; auto. discriminate.
  - destruct (cls_d c) eqn:E.
    + destruct (IH (10 * acc + digit_value c)%Z) as (ds & Hs & Hd & Hv & _).
      exists (String c ds). digits_step. rewrite E, Hd.
      split; [congruence|]. split; [reflexivity|]. split; [exact Hv|].
      discriminate.
    + exists "". repeat split; auto. intros c' r H. inversion H; subst. congruence.
Qed.

Lemma read_sign_split (s : string) :
  exists sg, s = (sg ++ snd (read_sign s))%string /\ sign_prefix sg (fst (read_sign s)).
Proof.
  destruct s as [|c r]; simpl.
  - exists "". split; [reflexivity|constructor].
  - destruct (Ascii.eqb c "+") eqn:Ep.
    + apply Ascii.eqb_eq in Ep. subst. exists "+". split; [reflexivity|constructor].
    + destruct (Ascii.eqb c "-") eqn:Em.
      * apply Ascii.eqb_eq in Em. subst. exists "-". split; [reflexivity|constructor].
      * exists "". split; [reflexivity|constructor].
Qed.

Lemma skip_spaces_empty (s : string) :
  skip_spaces s = "" -> string_all is_space s = true.
Proof.
  intros H. destruct (skip_spaces_split s) as (ws & Hs & Hws).
  rewrite H in Hs. rewrite Hs.
  clear -Hws. induction ws as [|c ws IH]; simpl in *; auto.
  apply andb_true_iff in Hws. destruct Hws as [-> Hws]. now apply IH.
Qed.

(** Whatever [int] converts is an integer literal with that value. *)
Lemma int_sound (s : string) (z : Z) : int s = Ok z -> integer_literal s z.
Proof.
  unfold int.
  destruct (skip_spaces_split s) as (ws1 & Hs1 & Hws1).
  destruct (read_sign_split (skip_spaces s)) as (sg & Hs2 & Hsg).
  destruct (snd (read_sign (skip_spaces s))) as [|c r] eqn:E2; [discriminate|].
  destruct (cls_d c) eqn:Ec; [|discriminate].
  destruct (read_digits_split (String c r) 0) as (ds & Hs3 & Hds & Hv & Hne).
  destruct (skip_spaces (snd (read_digits 0 (String c r)))) eqn:E4; [|discriminate].
  intros H. inversion H; subst z; clear H.
  exists ws1, sg, ds, (snd (read_digits 0 (String c r))),
    (fst (read_sign (skip_spaces s))).
  repeat split; auto.
  - rewrite <- Hs3, <- Hs2. exact Hs1.
  - now apply skip_spaces_empty.
  - eapply Hne; eauto.
  - unfold decimal_value. rewrite <- Hv. reflexivity.
Qed.

Lemma string_all_nil_r (ws : string) :
  string_all is_space ws = true -> skip_spaces ws = "".
Proof.
  induction ws as [|c ws IH]; simpl; auto.
  rewrite andb_true_iff. intros [-> H]. auto.
Qed.

(** Every integer literal is converted to its value. *)
Lemma int_complete (s : string) (z : Z) : integer_literal s z -> int s = Ok z.
Proof.
  intros (ws1 & sg & ds & ws2 & sgn & -> & Hws1 & Hws2 & Hsg & Hne & Hds & ->).
  destruct ds as [|c ds]; [congruence|].
  pose proof Hds as Hall.
  cbn [string_all] in Hds. apply andb_true_iff in Hds. destruct Hds as [Hc Hds].
  pose proof (digit_not_space _ Hc) as Hsp.
  destruct (digit_not_sign _ Hc) as [Hp Hm].
  pose proof (read_digits_app _ _ 0 Hall Hws2) as Hd.
  assert (E1 : skip_spaces (sg ++ String c ds ++ ws2)%string
               = (sg ++ String c ds ++ ws2)%string).
  { destruct Hsg; cbn [String.append skip_spaces]; try reflexivity.
    now rewrite Hsp. }
  assert (E2 : read_sign (sg ++ String c ds ++ ws2)%string
               = (sgn, (String c ds ++ ws2)%string)).
  { destruct Hsg; cbn [String.append read_sign]; try reflexivity.
    now rewrite Hp, Hm. }
  unfold int. rewrite skip_spaces_app by assumption.
  rewrite E1, E2. cbn [fst snd]. rewrite Hd. cbn [fst snd String.append].
  rewrite Hc, (string_all_nil_r _ Hws2). reflexivity.
Qed.


(** ** [astype(int)] on the frame *)

Lemma astype_int_cell_ok (x y : value) :
  astype_int_cell x = Ok y -> exists z, y = VInt z.
Proof.
  destruct x as [s|z| | |]; simpl; try discriminate.
  - unfold bind. destruct (int s) as [z|]; [|discriminate].
    destruct (fits_int64 z); [|discriminate]. intros H; inversion H. eauto.
  - intros H; inversion H. eauto.
Qed.

Lemma astype_int_cell_numeric (s : string) (z : Z) :
  integer_literal s z -> fits_int64 z = true ->
  astype_int_cell (VStr s) = Ok (VInt z).
Proof.
  intros H Hz. simpl. rewrite (int_complete _ _ H). simpl. now rewrite Hz.
Qed.


Lemma has_column_add (cols : list string) (label l : string) :
  existsb (String.eqb l) cols = true ->
  existsb (String.eqb l) (add_column cols label) = true.
Proof.
  intros H. unfold add_column.
  destruct (existsb (String.eqb label) cols); [exact H|].
  rewrite existsb_app, H. reflexivity.
Qed.


Lemma astype_int_column_rows (df df' : DataFrame) (label : string) :
  astype_int_column df label = Ok df' ->
  Forall2 (fun r r' => exists x, astype_int_cell (lookup r label) = Ok x /\
                                 r' = assign label x r)
          (rows df) (rows df') /\
  (forall l, has_column df l = true -> has_column df' l = true).
Proof.
  unfold astype_int_column, column, bind.
  destruct (mapM astype_int_cell (map (fun r => lookup r label) (rows df)))
    as [ints|] eqn:Em; [|discriminate].
  intros H; inversion H; subst df'; clear H. simpl.
  apply mapM_Forall2 in Em. split.
  - exact (series_rows _ (fun a b => astype_int_cell a = Ok b) label _ _ Em).
  - intros l. unfold has_column. simpl. apply has_column_add.
Qed.

Lemma mapM_total {A B} (f : A -> result B) (l : list A) :
  Forall (fun a => exists b, f a = Ok b) l -> exists l', mapM f l = Ok l'.
Proof.
  induction 1 as [|a l (b & Hb) _ (l' & Hl')]; simpl.
  - eauto.
  - rewrite Hb, Hl'. simpl. eauto.
Qed.

Lemma astype_int_column_total (df : DataFrame) (label : string) :
  Forall (fun r => exists x, astype_int_cell (lookup r label) = Ok x) (rows df) ->
  exists df', astype_int_column df label = Ok df'.
Proof.
  intros Hall. unfold astype_int_column, column.
  destruct (mapM_total astype_int_cell (map (fun r => lookup r label) (rows df)))
    as (ints & Hints).
  { apply Forall_map. exact Hall. }
  rewrite Hints. simpl. eauto.
Qed.

Lemma Forall2_In_l {A B} (P : A -> B -> Prop) (l : list A) (l' : list B) (a : A) :
  Forall2 P l l' -> In a l -> exists b, In b l' /\ P a b.
Proof.
  induction 1 as [|x y l l' Hxy _ IH]; simpl; [contradiction|].
  intros [<-|Hin].
  - exists y. auto.
  - destruct (IH Hin) as (b & Hb & Hab). exists b. auto.
Qed.

Lemma Forall2_In_r {A B} (P : A -> B -> Prop) (l : list A) (l' : list B) (b : B) :
  Forall2 P l l' -> In b l' -> exists a, In a l /\ P a b.
Proof.
  induction 1 as [|x y l l' Hxy _ IH]; simpl; [contradiction|].
  intros [<-|Hin].
  - exists x. auto.
  - destruct (IH Hin) as (a & Ha & Hab). exists a. auto.
Qed.

Lemma Forall2_same {A} (P : A -> A -> Prop) (l : list A) :
  (forall a, P a a) -> Forall2 P l l.
Proof. intros H. induction l; constructor; auto. Qed.

Lemma astype_int_columns_rows (labels : list string) :
  NoDup labels ->
  forall df df',
    foldM astype_int_column labels df = Ok df' ->
    Forall2 (converted labels) (rows df) (rows df').
Proof.
  induction 1 as [|l0 ls Hnotin Hnd IH]; intros df df'; simpl.
  - intros H; inversion H; subst. apply Forall2_same.
    intros r. split; [intros l []|reflexivity].
  - unfold bind at 1.
    destruct (astype_int_column df l0) as [df1|] eqn:E1; [|discriminate].
    intros H. apply astype_int_column_rows in E1. destruct E1 as [E1 _].
    specialize (IH _ _ H).
    eapply Forall2_impl; [|exact (Forall2_compose _ _ _ _ _ E1 IH)].
    intros r r' (r1 & (x & Hx & ->) & Hconv). destruct Hconv as [Hin Hout].
    destruct (astype_int_cell_ok _ _ Hx) as (z & ->).
    split.
    + intros l [<-|Hl].
      * exists z. split; [exact Hx|].
        rewrite (Hout _ Hnotin). apply lookup_assign_same.
      * destruct (Hin _ Hl) as (z' & Hz' & Hl').
        rewrite lookup_assign_other in Hz' by congruence. eauto.
    + intros l Hl. rewrite Hout by (intros Hc; apply Hl; now right).
      apply lookup_assign_other. intros ->. apply Hl. now left.
Qed.

Lemma astype_int_columns_kept (labels : list string) :
  forall df df' l,
    foldM astype_int_column labels df = Ok df' ->
    has_column df l = true -> has_column df' l = true.
Proof.
  induction labels as [|l0 ls IH]; intros df df' l; simpl.
  - intros H; inversion H. auto.
  - destruct (astype_int_column df l0) as [df1|] eqn:E; cbn [bind]; [|discriminate].
    intros H Hl. apply (IH _ _ _ H).
    now apply (proj2 (astype_int_column_rows _ _ _ E)).
Qed.

Lemma int_columns_NoDup : NoDup int_columns.
Proof.
  unfold int_columns. repeat constructor; simpl; intuition discriminate.
Qed.

(** *** Labels that are not repeated *)

Lemma has_column_count (df : DataFrame) (l : string) :
  has_column df l = true <-> 1 <= count_occ string_dec (columns df) l.
Proof.
  unfold has_column. rewrite existsb_exists. split.
  - intros (x & Hin & Hx). apply String.eqb_eq in Hx. subst x.
    now apply count_occ_In.
  - intros H. exists l. split; [now apply (count_occ_In string_dec)|].
    apply String.eqb_refl.
Qed.

Lemma NoDup_not_repeated (df : DataFrame) (l : string) :
  NoDup (columns df) -> repeated df l = false.
Proof.
  intros H. unfold repeated. apply Nat.ltb_ge.
  now apply NoDup_count_occ.
Qed.

Lemma lookup_first (r : record) (l : string) :
  nth 0 (lookup_all r l) NaN = lookup r l.
Proof.
  induction r as [|[l0 x] r IH]; simpl; [reflexivity|].
  destruct (String.eqb l0 l); [reflexivity|exact IH].
Qed.

Lemma columns_at_length (df : DataFrame) (l : string) :
  List.length (columns_at df l) = count_occ string_dec (columns df) l.
Proof. unfold columns_at. now rewrite length_map, length_seq. Qed.

Lemma columns_at_once (df : DataFrame) (l : string) :
  has_column df l = true -> repeated df l = false ->
  columns_at df l = [column df l].
Proof.
  intros Hc Hr. apply has_column_count in Hc. unfold repeated in Hr.
  apply Nat.ltb_ge in Hr.
  unfold columns_at, column.
  replace (count_occ string_dec (columns df) l) with 1 by lia.
  simpl. f_equal. apply map_ext. intros r. apply lookup_first.
Qed.

Lemma getitems_once (df : DataFrame) (labels : list string) :
  forallb (has_column df) labels = true ->
  (forall l, In l labels -> repeated df l = false) ->
  getitems df labels = Ok (map (column df) labels).
Proof.
  intros Hc Hr. unfold getitems. rewrite Hc. f_equal.
  induction labels as [|l ls IH]; [reflexivity|].
  simpl in Hc. apply andb_true_iff in Hc. destruct Hc as [Hc Hcs].
  simpl. rewrite columns_at_once; auto; [|apply Hr; now left].
  simpl. f_equal. apply IH; auto. intros l' Hl'. apply Hr. now right.
Qed.

(** *** Converting the selection, then writing it back *)

Lemma setitem_series_column (df : DataFrame) (l l' : string) (xs : list value) :
  l' <> l -> List.length xs = List.length (rows df) ->
  column (setitem_series df l xs) l' = column df l'.
Proof.
  intros Hne. unfold column, setitem_series. cbn [rows]. rewrite map_map.
  generalize (rows df). intros rs. revert xs.
  induction rs as [|r rs IH]; intros [|x xs] Hlen; simpl in *;
    try discriminate; [reflexivity|].
  rewrite lookup_assign_other by assumption. f_equal. apply IH. lia.
Qed.

Lemma setitem_series_length (df : DataFrame) (l : string) (xs : list value) :
  List.length xs = List.length (rows df) ->
  List.length (rows (setitem_series df l xs)) = List.length (rows df).
Proof.
  intros H. unfold setitem_series. cbn [rows].
  rewrite length_map, length_combine. lia.
Qed.

Lemma convert_then_write (labels : list string) :
  NoDup labels ->
  forall df,
    (ints <- mapM (mapM astype_int_cell) (map (column df) labels) ;;
     Ok (fold_left (fun df lx => setitem_series df (fst lx) (snd lx))
                   (combine labels ints) df))
    = foldM astype_int_column labels df.
Proof.
  induction 1 as [|l ls Hnotin Hnd IH]; intros df; [reflexivity|].
  cbn [map mapM foldM]. unfold astype_int_column at 1.
  destruct (mapM astype_int_cell (column df l)) as [xs|e] eqn:Ex; cbn [bind];
    [|reflexivity].
  rewrite <- IH.
  assert (Hlen : List.length xs = List.length (rows df)).
  { apply mapM_Forall2, Forall2_length in Ex. unfold column in Ex.
    rewrite length_map in Ex. lia. }
  assert (Hcols : map (column (setitem_series df l xs)) ls = map (column df) ls).
  { apply map_ext_in. intros l' Hl'. apply setitem_series_column; auto.
    intros ->. contradiction. }
  rewrite Hcols.
  destruct (mapM (mapM astype_int_cell) (map (column df) ls)) as [xss|e];
    reflexivity.
Qed.

Lemma mapM_length {A B} (f : A -> result B) (l : list A) (l' : list B) :
  mapM f l = Ok l' -> List.length l' = List.length l.
Proof.
  intros H. apply mapM_Forall2, Forall2_length in H. lia.
Qed.

(** On a frame without a repeated label among the three, [astype_int] is the
    conversion of [Place], [Age] and [Bib No], one column after the other. *)
Lemma astype_int_by_columns (df : DataFrame) :
  forallb (has_column df) int_columns = true ->
  (forall l, In l int_columns -> repeated df l = false) ->
  astype_int df = foldM astype_int_column int_columns df.
Proof.
  intros Hc Hr. unfold astype_int. rewrite (getitems_once _ _ Hc Hr).
  cbn [bind]. rewrite <- (convert_then_write _ int_columns_NoDup).
  destruct (mapM (mapM astype_int_cell) (map (column df) int_columns))
    as [ints|e] eqn:E; cbn [bind]; [|reflexivity].
  apply mapM_length in E. rewrite length_map in E. now rewrite E, Nat.eqb_refl.
Qed.

(** [astype_int] succeeds only when none of the three labels is missing or
    repeated. *)
Lemma astype_int_ok_once (df df' : DataFrame) :
  astype_int df = Ok df' ->
  forallb (has_column df) int_columns = true /\
  (forall l, In l int_columns -> repeated df l = false).
Proof.
  unfold astype_int, getitems.
  destruct (forallb (has_column df) int_columns) eqn:Hc; cbn [bind];
    [|discriminate].
  destruct (mapM (mapM astype_int_cell) (flat_map (columns_at df) int_columns))
    as [ints|] eqn:E; cbn [bind]; [|discriminate].
  destruct (Nat.eqb (List.length ints) (List.length int_columns)) eqn:El;
    [|discriminate].
  intros _. split; [reflexivity|].
  apply Nat.eqb_eq in El. apply mapM_length in E. rewrite E in El.
  unfold int_columns in El, Hc. cbn [flat_map] in El.
  rewrite !length_app, !columns_at_length in El. cbn [List.length] in El.
  cbn [forallb] in Hc. rewrite !andb_true_iff in Hc.
  destruct Hc as (H1 & H2 & H3 & _).
  apply has_column_count in H1, H2, H3.
  intros l Hl. unfold repeated. apply Nat.ltb_ge.
  unfold int_columns in Hl. simpl in Hl.
  destruct Hl as [<-|[<-|[<-|[]]]]; lia.
Qed.

Lemma astype_int_rows (df df' : DataFrame) :
  astype_int df = Ok df' ->
  Forall2 (converted int_columns) (rows df) (rows df').
Proof.
  intros H. destruct (astype_int_ok_once _ _ H) as [Hc Hr].
  rewrite (astype_int_by_columns _ Hc Hr) in H.
  exact (astype_int_columns_rows _ int_columns_NoDup _ _ H).
Qed.

Lemma astype_int_kept (df df' : DataFrame) (l : string) :
  astype_int df = Ok df' -> has_column df l = true -> has_column df' l = true.
Proof.
  intros H. destruct (astype_int_ok_once _ _ H) as [Hc Hr].
  rewrite (astype_int_by_columns _ Hc Hr) in H.
  exact (astype_int_columns_kept _ _ _ _ H).
Qed.

(** *** The first cell that cannot be converted *)





Lemma numeric_cell_ok (x : value) :
  numeric_cell x -> exists y, astype_int_cell x = Ok y.
Proof.
  intros (s & z & -> & Hlit & Hfit). exists (VInt z).
  now apply astype_int_cell_numeric.
Qed.

Lemma astype_int_total (df : DataFrame) :
  NoDup (columns df) ->
  forallb (has_column df) int_columns = true ->
  (forall r l, In r (rows df) -> In l int_columns -> numeric_cell (lookup r l)) ->
  exists df', astype_int df = Ok df'.
Proof.
  intros Hnd Hc Hcells.
  rewrite astype_int_by_columns; auto using NoDup_not_repeated.
  assert (Hgen : forall labels df0,
            (forall r l, In r (rows df0) -> In l labels ->
               numeric_cell (lookup r l)) ->
            NoDup labels ->
            exists df', foldM astype_int_column labels df0 = Ok df').
  { clear. induction labels as [|l0 ls IH]; intros df0 Hcells Hnd; simpl;
      [eauto|].
    inversion Hnd as [|? ? Hnotin Hnd']; subst.
    destruct (astype_int_column_total df0 l0) as (df1 & E1).
    { apply Forall_forall. intros r Hr. apply numeric_cell_ok, Hcells; auto.
      now left. }
    rewrite E1. simpl.
    apply astype_int_column_rows in E1. destruct E1 as [Hrows _].
    apply IH; [|exact Hnd'].
    intros r1 l Hr1 Hl.
    destruct (Forall2_In_r _ _ _ _ Hrows Hr1) as (r & Hr & x & Hx & ->).
    rewrite lookup_assign_other by congruence.
    apply Hcells; auto. now right. }
  apply Hgen; [exact Hcells|apply int_columns_NoDup].
Qed.







(** ** The worked example, end to end *)

Lemma example_minutes :
  six_decimals (div60 1220) (20333333 # 1000000) /\
  six_decimals (div60 1223) (20383333 # 1000000).
Proof. split; vm_compute; discriminate. Qed.

(** C6: on the four rows of the worked example and the year 2015 the
    notebook writes two lines, both with [Year] 2015, Alexandra's first, with
    [Minutes] 1220/60 and 1223/60, which are 20.333333 and 20.383333 to six
    decimals. *)
Theorem notebook_on_four_rows
        (urlopen_read : string -> result string)
        (table_rows : string -> result (list Row)) (html : string) :
  urlopen_read (url_of 2015) = Ok html ->
  table_rows html = Ok four_rows ->
  notebook urlopen_read table_rows [2015%Z] = Ok example_frame /\
  rows example_frame = [alexandra_record; tamma_record] /\
  lookup alexandra_record "Year" = VInt 2015 /\
  lookup tamma_record "Year" = VInt 2015 /\
  (exists m1 m2,
     lookup alexandra_record "Minutes" = VFloat m1 /\
     lookup tamma_record "Minutes" = VFloat m2 /\
     six_decimals m1 (20333333 # 1000000) /\
     six_decimals m2 (20383333 # 1000000)).
Proof.
  intros Hu Ht.
  assert (Hp : parse_results_table urlopen_read table_rows (url_of 2015)
               = parse_rows four_rows).
  { unfold parse_results_table. rewrite Hu. cbn [bind]. rewrite Ht. reflexivity. }
  split; [|split; [reflexivity|split; [reflexivity|split; [reflexivity|]]]].
  - unfold notebook, build_frame, urls. cbn [map combine foldM].
    unfold year_step. cbn [fst snd]. rewrite Hp. vm_compute. reflexivity.
  - exists (div60 1220), (div60 1223).
    split; [reflexivity|]. split; [reflexivity|]. exact example_minutes.
Qed.

Lemma notebook_on_four_rows_witness :
  notebook (fun url => Ok url) (fun _ => Ok four_rows) [2015%Z] = Ok example_frame.
Proof.
  exact (proj1 (notebook_on_four_rows (fun url => Ok url) (fun _ => Ok four_rows)
                  (url_of 2015) eq_refl eq_refl)).
Defined.

(** ** The default sort: arrays of indices *)

Local Open Scope Z_scope.

Lemma wr_nat_length (a : list nat) (n x : nat) :
  List.length (wr_nat a n x) = List.length a.
Proof.
  revert n. induction a as [|y a IH]; intros [|n]; simpl; auto.
Qed.

Lemma nth_wr_nat_same (a : list nat) (n x d : nat) :
  (n < List.length a)%nat -> nth n (wr_nat a n x) d = x.
Proof.
  revert n. induction a as [|y a IH]; intros [|n]; simpl; intros H;
    try lia; auto. apply IH. lia.
Qed.

Lemma nth_wr_nat_other (a : list nat) (n m x d : nat) :
  m <> n -> nth m (wr_nat a n x) d = nth m a d.
Proof.
  revert n m. induction a as [|y a IH]; intros [|n] [|m]; simpl; intros H;
    try lia; auto.
Qed.

Lemma wr_length (a : list nat) (p : Z) (x : nat) :
  List.length (wr a p x) = List.length a.
Proof. apply wr_nat_length. Qed.

Lemma rd_wr_same (a : list nat) (p : Z) (x : nat) :
  in_array a p -> rd (wr a p x) p = x.
Proof.
  unfold in_array, rd, wr. intros H. apply nth_wr_nat_same. lia.
Qed.

Lemma rd_wr_other (a : list nat) (p q : Z) (x : nat) :
  0 <= p -> 0 <= q -> q <> p -> rd (wr a p x) q = rd a q.
Proof.
  unfold rd, wr. intros Hp Hq H. apply nth_wr_nat_other. lia.
Qed.

Lemma array_ext (a b : list nat) :
  List.length a = List.length b ->
  (forall p, in_array a p -> rd a p = rd b p) -> a = b.
Proof.
  intros Hlen H. apply (nth_ext a b 0%nat 0%nat Hlen).
  intros n Hn. specialize (H (Z.of_nat n)). unfold rd, in_array in H.
  rewrite Nat2Z.id in H. apply H. lia.
Qed.

Lemma swap_length (a : list nat) (p q : Z) :
  List.length (INTP_SWAP a p q) = List.length a.
Proof. unfold INTP_SWAP. now rewrite !wr_length. Qed.

Lemma rd_swap (a : list nat) (p q r : Z) :
  in_array a p -> in_array a q -> 0 <= r ->
  rd (INTP_SWAP a p q) r
  = if r =? p then rd a q else if r =? q then rd a p else rd a r.
Proof.
  unfold INTP_SWAP. intros Hp Hq Hr.
  destruct (r =? p) eqn:Erp.
  - apply Z.eqb_eq in Erp. subst r. apply rd_wr_same.
    unfold in_array. rewrite wr_length. exact Hp.
  - apply Z.eqb_neq in Erp. rewrite rd_wr_other by (unfold in_array in *; lia).
    destruct (r =? q) eqn:Erq.
    + apply Z.eqb_eq in Erq. subst r. now apply rd_wr_same.
    + apply Z.eqb_neq in Erq. apply rd_wr_other; unfold in_array in *; lia.
Qed.

Lemma swap_perm (a : list nat) (p q : Z) :
  in_array a p -> in_array a q -> Permutation (INTP_SWAP a p q) a.
Proof.
  intros Hp Hq. apply Permutation_sym.
  apply (Permutation_nth a (INTP_SWAP a p q) 0%nat).
  split; [apply swap_length|].
  set (P := Z.to_nat p). set (Q := Z.to_nat q).
  exists (fun x => if (x =? P)%nat then Q else if (x =? Q)%nat then P else x).
  assert (HP : (P < List.length a)%nat) by (unfold in_array in Hp; lia).
  assert (HQ : (Q < List.length a)%nat) by (unfold in_array in Hq; lia).
  split; [|split].
  - intros x Hx. destruct (x =? P)%nat; [lia|]. destruct (x =? Q)%nat; lia.
  - intros x y Hx Hy.
    destruct (x =? P)%nat eqn:E1; destruct (y =? P)%nat eqn:E2;
      destruct (x =? Q)%nat eqn:E3; destruct (y =? Q)%nat eqn:E4;
      rewrite ?Nat.eqb_eq, ?Nat.eqb_neq in *; lia.
  - intros x Hx.
    pose proof (rd_swap a p q (Z.of_nat x) Hp Hq ltac:(lia)) as H.
    unfold rd in H. rewrite Nat2Z.id in H. rewrite H.
    fold P Q.
    destruct (Z.of_nat x =? p) eqn:E1; destruct (x =? P)%nat eqn:E1';
      rewrite ?Z.eqb_eq, ?Z.eqb_neq, ?Nat.eqb_eq, ?Nat.eqb_neq in *;
      try (unfold in_array in *; lia); auto.
    destruct (Z.of_nat x =? q) eqn:E2; destruct (x =? Q)%nat eqn:E2';
      rewrite ?Z.eqb_eq, ?Z.eqb_neq, ?Nat.eqb_eq, ?Nat.eqb_neq in *;
      try (unfold in_array in *; lia); auto.
Qed.

(** ** The scans and the partition *)

Section Partition.

Variable v : list Z.

Lemma scan_up_S (fuel : nat) (a : list nat) (vp pi : Z) :
  scan_up v (S fuel) a vp pi
  = if K v a (pi + 1) <? vp then scan_up v fuel a vp (pi + 1) else Some (pi + 1).
Proof. reflexivity. Qed.

Lemma scan_down_S (fuel : nat) (a : list nat) (vp pj : Z) :
  scan_down v (S fuel) a vp pj
  = if vp <? K v a (pj - 1) then scan_down v fuel a vp (pj - 1) else Some (pj - 1).
Proof. reflexivity. Qed.

Lemma scan_up_spec (fuel : nat) (a : list nat) (vp pi b : Z) :
  pi < b -> b - pi <= Z.of_nat fuel -> vp <= K v a b ->
  exists pi',
    scan_up v fuel a vp pi = Some pi' /\ pi < pi' <= b /\ vp <= K v a pi' /\
    (forall p, pi < p < pi' -> K v a p < vp).
Proof.
  revert pi. induction fuel as [|fuel IH]; intros pi Hlt Hfuel Hb; [lia|].
  rewrite scan_up_S.
  destruct (K v a (pi + 1) <? vp) eqn:E.
  - apply Z.ltb_lt in E.
    assert (pi + 1 <> b) by (intros Heq; subst b; lia).
    destruct (IH (pi + 1)) as (pi' & Hs & Hr & Hk & Hbelow); try lia.
    exists pi'. split; [exact Hs|]. split; [lia|]. split; [exact Hk|].
    intros p Hp. destruct (Z.eq_dec p (pi + 1)) as [->|]; [exact E|].
    apply Hbelow. lia.
  - apply Z.ltb_ge in E. exists (pi + 1).
    split; [reflexivity|]. split; [lia|]. split; [exact E|]. intros p Hp. lia.
Qed.

Lemma scan_down_spec (fuel : nat) (a : list nat) (vp pj b : Z) :
  b < pj -> pj - b <= Z.of_nat fuel -> K v a b <= vp ->
  exists pj',
    scan_down v fuel a vp pj = Some pj' /\ b <= pj' < pj /\ K v a pj' <= vp /\
    (forall p, pj' < p < pj -> vp < K v a p).
Proof.
  revert pj. induction fuel as [|fuel IH]; intros pj Hlt Hfuel Hb; [lia|].
  rewrite scan_down_S.
  destruct (vp <? K v a (pj - 1)) eqn:E.
  - apply Z.ltb_lt in E.
    assert (pj - 1 <> b) by (intros Heq; subst b; lia).
    destruct (IH (pj - 1)) as (pj' & Hs & Hr & Hk & Habove); try lia.
    exists pj'. split; [exact Hs|]. split; [lia|]. split; [exact Hk|].
    intros p Hp. destruct (Z.eq_dec p (pj - 1)) as [->|]; [exact E|].
    apply Habove. lia.
  - apply Z.ltb_ge in E. exists (pj - 1).
    split; [reflexivity|]. split; [lia|]. split; [exact E|]. intros p Hp. lia.
Qed.

Lemma moved_refl (pl pr : Z) (a : list nat) : moved_within pl pr a a.
Proof.
  split; [reflexivity|]. split; [apply Permutation_refl|]. split; [auto|].
  intros p Hp. exists p. auto.
Qed.

Lemma moved_trans (pl pr : Z) (a b c : list nat) :
  0 <= pl ->
  moved_within pl pr a b -> moved_within pl pr b c -> moved_within pl pr a c.
Proof.
  intros Hpl (L1 & P1 & O1 & W1) (L2 & P2 & O2 & W2).
  split; [congruence|]. split; [eapply Permutation_trans; eauto|]. split.
  - intros p Hp Hout. rewrite O2, O1; auto.
  - intros p Hp. destruct (W2 p Hp) as (q & Hq & ->).
    destruct (W1 q Hq) as (r & Hr & ->). eauto.
Qed.

Lemma moved_swap (pl pr : Z) (a : list nat) (p q : Z) :
  0 <= pl -> pr < Z.of_nat (List.length a) ->
  pl <= p <= pr -> pl <= q <= pr ->
  moved_within pl pr a (INTP_SWAP a p q).
Proof.
  intros Hpl Hpr Hp Hq.
  assert (Ip : in_array a p) by (unfold in_array; lia).
  assert (Iq : in_array a q) by (unfold in_array; lia).
  split; [apply swap_length|]. split; [now apply swap_perm|]. split.
  - intros r Hr Hout. rewrite rd_swap by assumption.
    destruct (Z.eqb_spec r p); [lia|]. destruct (Z.eqb_spec r q); [lia|].
    reflexivity.
  - intros r Hr. rewrite rd_swap by (assumption || lia).
    destruct (Z.eqb_spec r p); [eauto|]. destruct (Z.eqb_spec r q); eauto.
Qed.

Lemma K_swap (a : list nat) (p q r : Z) :
  in_array a p -> in_array a q -> 0 <= r ->
  K v (INTP_SWAP a p q) r
  = if r =? p then K v a q else if r =? q then K v a p else K v a r.
Proof.
  intros Hp Hq Hr. unfold K. rewrite rd_swap by assumption.
  destruct (r =? p); [reflexivity|]. now destruct (r =? q).
Qed.

Lemma swap_if_less_spec (pl pr : Z) (a : list nat) (p q : Z) :
  0 <= pl -> pr < Z.of_nat (List.length a) ->
  pl <= p <= pr -> pl <= q <= pr -> p <> q ->
  let a' := swap_if_less v a p q in
  moved_within pl pr a a' /\
  K v a' q <= K v a' p /\
  (K v a' p = K v a p /\ K v a' q = K v a q \/
   K v a' p = K v a q /\ K v a' q = K v a p) /\
  (forall r, 0 <= r -> r <> p -> r <> q -> K v a' r = K v a r).
Proof.
  intros Hpl Hpr Hp Hq Hne. unfold swap_if_less. fold (K v a p) (K v a q).
  assert (Ip : in_array a p) by (unfold in_array; lia).
  assert (Iq : in_array a q) by (unfold in_array; lia).
  destruct (K v a p <? K v a q) eqn:E; cbn zeta.
  - apply Z.ltb_lt in E. split; [now apply moved_swap|].
    rewrite !K_swap by (assumption || lia).
    rewrite Z.eqb_refl.
    destruct (Z.eqb_spec q p); [lia|]. rewrite Z.eqb_refl.
    split; [lia|]. split; [right; auto|].
    intros r Hr Hrp Hrq. rewrite K_swap by assumption.
    destruct (Z.eqb_spec r p); [lia|]. destruct (Z.eqb_spec r q); [lia|].
    reflexivity.
  - apply Z.ltb_ge in E. split; [apply moved_refl|]. split; [lia|].
    split; [left; auto|]. auto.
Qed.

Lemma exchange_S (fuel : nat) (a : list nat) (vp pi pj : Z) :
  exchange v (S fuel) a vp pi pj
  = match scan_up v (S (List.length a)) a vp pi with
    | None => None
    | Some pi' =>
        match scan_down v (S (List.length a)) a vp pj with
        | None => None
        | Some pj' =>
            if pi' >=? pj' then Some (a, pi')
            else exchange v fuel (INTP_SWAP a pi' pj') vp pi' pj'
        end
    end.
Proof. reflexivity. Qed.

Lemma exchange_spec (fuel : nat) (pl pr vp : Z) :
  forall (a : list nat) (pi pj : Z),
  0 <= pl -> pr < Z.of_nat (List.length a) ->
  pl <= pi -> pi < pj -> pj <= pr - 1 ->
  pj - pi <= Z.of_nat fuel ->
  (forall p, pl <= p <= pi -> K v a p <= vp) ->
  (forall p, pj <= p <= pr -> vp <= K v a p) ->
  K v a (pr - 1) = vp ->
  exists a' pi',
    exchange v fuel a vp pi pj = Some (a', pi') /\
    moved_within pl pr a a' /\
    pi < pi' <= pr - 1 /\
    (forall p, pl <= p < pi' -> K v a' p <= vp) /\
    (forall p, pi' <= p <= pr -> vp <= K v a' p) /\
    K v a' (pr - 1) = vp.
Proof.
  induction fuel as [|fuel IH];
    intros a pi pj Hpl Hpr Hpi Hlt Hpj Hfuel Hlow Hhigh Hpivot; [lia|].
  rewrite exchange_S.
  destruct (scan_up_spec (S (List.length a)) a vp pi pj)
    as (pi' & -> & Hpi' & Hkpi' & Hbelow); try lia.
  { apply Hhigh. lia. }
  destruct (scan_down_spec (S (List.length a)) a vp pj pi)
    as (pj' & -> & Hpj' & Hkpj' & Habove); try lia.
  { apply Hlow. lia. }
  destruct (pi' >=? pj') eqn:E.
  - apply Z.geb_le in E. exists a, pi'.
    split; [reflexivity|]. split; [apply moved_refl|]. split; [lia|].
    split; [|split; [|exact Hpivot]].
    + intros p Hp. destruct (Z_le_gt_dec p pi); [apply Hlow; lia|].
      apply Z.lt_le_incl, Hbelow. lia.
    + intros p Hp. destruct (Z.eq_dec p pi') as [->|]; [exact Hkpi'|].
      destruct (Z_lt_ge_dec p pj); [|apply Hhigh; lia].
      apply Z.lt_le_incl, Habove. lia.
  - assert (Hlt' : pi' < pj') by (destruct (Z.geb_spec pi' pj'); [discriminate|lia]).
    clear E.
    assert (Ipi : in_array a pi') by (unfold in_array; lia).
    assert (Ipj : in_array a pj') by (unfold in_array; lia).
    destruct (IH (INTP_SWAP a pi' pj') pi' pj')
      as (a' & pi'' & Hex & Hmoved & Hr & Hl' & Hh' & Hp'); try lia.
    + rewrite swap_length. lia.
    + intros p Hp. rewrite K_swap by (assumption || lia).
      destruct (Z.eqb_spec p pi'); [exact Hkpj'|].
      destruct (Z.eqb_spec p pj'); [lia|].
      destruct (Z_le_gt_dec p pi); [apply Hlow; lia|].
      apply Z.lt_le_incl, Hbelow. lia.
    + intros p Hp. rewrite K_swap by (assumption || lia).
      destruct (Z.eqb_spec p pi'); [lia|].
      destruct (Z.eqb_spec p pj'); [exact Hkpi'|].
      destruct (Z_lt_ge_dec p pj); [|apply Hhigh; lia].
      apply Z.lt_le_incl, Habove. lia.
    + rewrite K_swap by (assumption || lia).
      destruct (Z.eqb_spec (pr - 1) pi'); [lia|].
      destruct (Z.eqb_spec (pr - 1) pj'); [lia|]. exact Hpivot.
    + exists a', pi''. split; [exact Hex|]. split.
      * eapply moved_trans; [exact Hpl| |exact Hmoved].
        apply moved_swap; lia.
      * split; [lia|]. auto.
Qed.

Lemma partition_spec (a : list nat) (pl pr : Z) :
  0 <= pl -> pr < Z.of_nat (List.length a) -> 2 <= pr - pl ->
  exists a' pi,
    partition v a pl pr = Some (a', pi) /\
    moved_within pl pr a a' /\
    pl < pi < pr /\
    (forall p, pl <= p < pi -> K v a' p <= K v a' pi) /\
    (forall p, pi < p <= pr -> K v a' pi <= K v a' p).
Proof.
  intros Hpl Hpr Hsize. unfold partition.
  assert (Hshift : Z.shiftr (pr - pl) 1 = (pr - pl) / 2).
  { rewrite Z.shiftr_div_pow2 by lia. reflexivity. }
  rewrite Hshift.
  set (pm := pl + (pr - pl) / 2).
  assert (Hpm : pl < pm < pr).
  { unfold pm. pose proof (Z.div_le_lower_bound (pr - pl) 2 1 ltac:(lia) ltac:(lia)).
    pose proof (Z.div_lt_upper_bound (pr - pl) 2 (pr - pl) ltac:(lia) ltac:(lia)).
    lia. }
  destruct (swap_if_less_spec pl pr a pm pl) as (M1 & O1 & V1 & U1); try lia.
  set (a1 := swap_if_less v a pm pl) in *.
  assert (L1 : List.length a1 = List.length a) by apply M1.
  destruct (swap_if_less_spec pl pr a1 pr pm) as (M2 & O2 & V2 & U2); try lia.
  set (a2 := swap_if_less v a1 pr pm) in *.
  assert (L2 : List.length a2 = List.length a) by (destruct M2; lia).
  destruct (swap_if_less_spec pl pr a2 pm pl) as (M3 & O3 & V3 & U3); try lia.
  set (a3 := swap_if_less v a2 pm pl) in *.
  assert (L3 : List.length a3 = List.length a) by (destruct M3; lia).
  pose proof (U2 pl ltac:(lia) ltac:(lia) ltac:(lia)) as Hpl2.
  pose proof (U3 pr ltac:(lia) ltac:(lia) ltac:(lia)) as Hpr3.
  pose proof (U1 pr ltac:(lia) ltac:(lia) ltac:(lia)) as Hpr1.
  assert (Hmed : K v a3 pl <= K v a3 pm <= K v a3 pr) by lia.
  fold (K v a3 pm).
  set (vp := K v a3 pm) in *.
  set (a4 := INTP_SWAP a3 pm (pr - 1)).
  assert (Ipm : in_array a3 pm) by (unfold in_array; lia).
  assert (Ipr1 : in_array a3 (pr - 1)) by (unfold in_array; lia).
  assert (L4 : List.length a4 = List.length a) by (unfold a4; rewrite swap_length; lia).
  assert (M4 : moved_within pl pr a3 a4) by (apply moved_swap; lia).
  assert (K4pl : K v a4 pl = K v a3 pl).
  { unfold a4. rewrite K_swap by (assumption || lia).
    destruct (Z.eqb_spec pl pm); [lia|]. destruct (Z.eqb_spec pl (pr - 1)); [lia|].
    reflexivity. }
  assert (K4pr : K v a4 pr = K v a3 pr).
  { unfold a4. rewrite K_swap by (assumption || lia).
    destruct (Z.eqb_spec pr pm); [lia|]. destruct (Z.eqb_spec pr (pr - 1)); [lia|].
    reflexivity. }
  assert (K4pv : K v a4 (pr - 1) = vp).
  { unfold a4. rewrite K_swap by (assumption || lia).
    destruct (Z.eqb_spec (pr - 1) pm) as [e|]; [rewrite e; reflexivity|].
    rewrite Z.eqb_refl. reflexivity. }
  destruct (exchange_spec (S (List.length a4)) pl pr vp a4 pl (pr - 1))
    as (a5 & pi & Hex & M5 & Hpi & Hlow & Hhigh & Hpv); try lia.
  - intros p Hp. replace p with pl by lia. lia.
  - intros p Hp. destruct (Z.eq_dec p pr) as [->|]; [lia|].
    replace p with (pr - 1) by lia. lia.
  - rewrite Hex.
    assert (L5 : List.length a5 = List.length a) by (destruct M5; lia).
    assert (Ipi : in_array a5 pi) by (unfold in_array; lia).
    assert (Ipv : in_array a5 (pr - 1)) by (unfold in_array; lia).
    exists (INTP_SWAP a5 pi (pr - 1)), pi.
    split; [reflexivity|]. split; [|split; [lia|]].
    + eapply moved_trans; [exact Hpl| |apply moved_swap; lia].
      eapply moved_trans; [exact Hpl| |exact M5].
      eapply moved_trans; [exact Hpl| |exact M4].
      eapply moved_trans; [exact Hpl| |exact M3].
      eapply moved_trans; [exact Hpl|exact M1|exact M2].
    + assert (Kpi : K v (INTP_SWAP a5 pi (pr - 1)) pi = vp).
      { rewrite K_swap by (assumption || lia). now rewrite Z.eqb_refl. }
      rewrite Kpi. split.
      * intros p Hp. rewrite K_swap by (assumption || lia).
        destruct (Z.eqb_spec p pi); [lia|].
        destruct (Z.eqb_spec p (pr - 1)); [lia|]. apply Hlow. lia.
      * intros p Hp. rewrite K_swap by (assumption || lia).
        destruct (Z.eqb_spec p pi); [lia|].
        destruct (Z.eqb_spec p (pr - 1)); apply Hhigh; lia.
Qed.

(** ** The insertion sort of a small part *)

Lemma shift_right_S (fuel : nat) (a : list nat) (pl vp pj : Z) :
  shift_right v (S fuel) a pl vp pj
  = if (pj >? pl) && (vp <? K v a (pj - 1))
    then shift_right v fuel (wr a pj (rd a (pj - 1))) pl vp (pj - 1)
    else Some (a, pj).
Proof. reflexivity. Qed.

Lemma K_wr_same (a : list nat) (p : Z) (x : nat) :
  in_array a p -> K v (wr a p x) p = key_at v x.
Proof. intros H. unfold K. now rewrite rd_wr_same. Qed.

Lemma K_wr_other (a : list nat) (p q : Z) (x : nat) :
  0 <= p -> 0 <= q -> q <> p -> K v (wr a p x) q = K v a q.
Proof. intros Hp Hq H. unfold K. now rewrite rd_wr_other. Qed.

Lemma wr_rd_same (a : list nat) (p : Z) : in_array a p -> wr a p (rd a p) = a.
Proof.
  intros Hp. apply array_ext; [apply wr_length|].
  intros q Hq. destruct (Z.eq_dec q p) as [->|Hne].
  - now apply rd_wr_same.
  - apply rd_wr_other; unfold in_array in *; lia.
Qed.

(** Moving the hole one place down is a transposition. *)
Lemma wr_wr_perm (a : list nat) (p q : Z) (x : nat) :
  in_array a p -> in_array a q -> p <> q ->
  Permutation (wr (wr a p (rd a q)) q x) (wr a p x).
Proof.
  intros Hp Hq Hne.
  assert (Ip : in_array (wr a p x) p) by (unfold in_array; now rewrite wr_length).
  assert (Iq : in_array (wr a p x) q) by (unfold in_array; now rewrite wr_length).
  replace (wr (wr a p (rd a q)) q x) with (INTP_SWAP (wr a p x) p q).
  - now apply swap_perm.
  - apply array_ext.
    + now rewrite swap_length, !wr_length.
    + intros r Hr. unfold in_array in Hr. rewrite swap_length, wr_length in Hr.
      rewrite rd_swap by (assumption || lia).
      destruct (Z.eqb_spec r p) as [->|Hrp].
      * rewrite (rd_wr_other _ q p) by (unfold in_array in *; lia).
        rewrite rd_wr_other by (unfold in_array in *; lia).
        now rewrite rd_wr_same.
      * destruct (Z.eqb_spec r q) as [->|Hrq].
        -- rewrite !rd_wr_same; auto. unfold in_array. now rewrite wr_length.
        -- rewrite !rd_wr_other by (unfold in_array in *; lia). reflexivity.
Qed.

Lemma shift_right_spec (fuel : nat) (pl vp : Z) :
  forall (a : list nat) (pj : Z),
  0 <= pl -> pl <= pj -> pj < Z.of_nat (List.length a) ->
  pj - pl < Z.of_nat fuel ->
  exists a' pj',
    shift_right v fuel a pl vp pj = Some (a', pj') /\
    pl <= pj' <= pj /\
    List.length a' = List.length a /\
    (forall p, 0 <= p -> p <= pj' -> rd a' p = rd a p) /\
    (forall p, pj' < p <= pj -> rd a' p = rd a (p - 1)) /\
    (forall p, pj < p -> rd a' p = rd a p) /\
    (forall p, pj' < p <= pj -> vp < K v a' p) /\
    (pj' = pl \/ K v a (pj' - 1) <= vp) /\
    (forall x, Permutation (wr a' pj' x) (wr a pj x)).
Proof.
  induction fuel as [|fuel IH]; intros a pj Hpl Hpj Hlen Hfuel; [lia|].
  rewrite shift_right_S.
  destruct ((pj >? pl) && (vp <? K v a (pj - 1))) eqn:E.
  - apply andb_true_iff in E. destruct E as [E1 E2].
    apply Z.gtb_lt in E1. apply Z.ltb_lt in E2.
    set (a1 := wr a pj (rd a (pj - 1))).
    assert (L1 : List.length a1 = List.length a) by apply wr_length.
    destruct (IH a1 (pj - 1))
      as (a' & pj' & Hs & Hr & HL & Hlow & Hmid & Hhigh & Hgt & Hstop & Hperm);
      try lia.
    exists a', pj'. split; [exact Hs|]. split; [lia|]. split; [lia|].
    split; [|split; [|split; [|split; [|split]]]].
    + intros p Hp0 Hp. rewrite Hlow by lia. apply rd_wr_other; lia.
    + intros p Hp. destruct (Z.eq_dec p pj) as [->|Hne].
      * rewrite Hhigh by lia. apply rd_wr_same. unfold in_array. lia.
      * rewrite Hmid by lia. apply rd_wr_other; lia.
    + intros p Hp. rewrite Hhigh by lia. apply rd_wr_other; lia.
    + intros p Hp. destruct (Z.eq_dec p pj) as [->|Hne].
      * unfold K. rewrite Hhigh by lia. unfold a1.
        rewrite rd_wr_same by (unfold in_array; lia). exact E2.
      * apply Hgt. lia.
    + destruct Hstop as [Hstop|Hstop]; [now left|].
      destruct (Z.eq_dec pj' pl); [now left|]. right.
      unfold a1 in Hstop. rewrite K_wr_other in Hstop by lia. exact Hstop.
    + intros x. eapply Permutation_trans; [apply Hperm|].
      unfold a1. apply wr_wr_perm; unfold in_array; lia.
  - exists a, pj. split; [reflexivity|]. split; [lia|]. split; [reflexivity|].
    split; [auto|]. split; [intros p Hp; lia|]. split; [auto|].
    split; [intros p Hp; lia|]. split; [|intros x; apply Permutation_refl].
    apply andb_false_iff in E. destruct E as [E|E].
    + left. destruct (Z.gtb_spec pj pl); [discriminate|lia].
    + right. now apply Z.ltb_ge in E.
Qed.

Lemma insertion_S (fuel : nat) (a : list nat) (pl pr pi : Z) :
  insertion v (S fuel) a pl pr pi
  = if pi <=? pr then
      match shift_right v (S (List.length a)) a pl (K v a pi) pi with
      | None => None
      | Some (a', pj) => insertion v fuel (wr a' pj (rd a pi)) pl pr (pi + 1)
      end
    else Some a.
Proof. reflexivity. Qed.

Lemma insertion_spec (fuel : nat) (pl pr : Z) :
  forall (a : list nat) (pi : Z),
  0 <= pl -> pr < Z.of_nat (List.length a) -> pl < pi ->
  0 < Z.of_nat fuel -> pr + 1 - pi < Z.of_nat fuel ->
  sorted_between v a pl (pi - 1) ->
  exists a',
    insertion v fuel a pl pr pi = Some a' /\
    moved_within pl pr a a' /\
    sorted_between v a' pl pr.
Proof.
  induction fuel as [|fuel IH]; intros a pi Hpl Hpr Hpi Hpos Hfuel Hsorted;
    [lia|].
  - rewrite insertion_S. destruct (pi <=? pr) eqn:E.
    + apply Z.leb_le in E.
      destruct (shift_right_spec (S (List.length a)) pl (K v a pi) a pi)
        as (a' & pj & Hs & Hr & HL & Hlow & Hmid & Hhigh & Hgt & Hstop & Hperm);
        try lia.
      rewrite Hs.
      set (vi := rd a pi). set (a2 := wr a' pj vi).
      assert (Ipj : in_array a' pj) by (unfold in_array; lia).
      assert (L2 : List.length a2 = List.length a)
        by (unfold a2; rewrite wr_length; lia).
      assert (R2 : forall p, 0 <= p ->
                 rd a2 p = if p <? pj then rd a p
                           else if p =? pj then vi
                           else if p <=? pi then rd a (p - 1) else rd a p).
      { intros p Hp. unfold a2.
        destruct (Z.ltb_spec p pj).
        - rewrite rd_wr_other by lia. apply Hlow; lia.
        - destruct (Z.eqb_spec p pj) as [->|Hne]; [now apply rd_wr_same|].
          rewrite rd_wr_other by lia.
          destruct (Z.leb_spec p pi); [apply Hmid|apply Hhigh]; lia. }
      assert (M2 : moved_within pl pr a a2).
      { split; [exact L2|]. split; [|split].
        - unfold a2. eapply Permutation_trans; [apply Hperm|].
          unfold vi. rewrite wr_rd_same; [apply Permutation_refl|].
          unfold in_array. lia.
        - intros p Hp Hout. rewrite R2 by assumption.
          destruct (Z.ltb_spec p pj); [reflexivity|].
          destruct (Z.eqb_spec p pj); [lia|].
          destruct (Z.leb_spec p pi); [lia|reflexivity].
        - intros p Hp. rewrite R2 by lia.
          destruct (Z.ltb_spec p pj); [exists p; split; [lia|reflexivity]|].
          destruct (Z.eqb_spec p pj); [exists pi; split; [lia|reflexivity]|].
          destruct (Z.leb_spec p pi);
            [exists (p - 1)|exists p]; (split; [lia|reflexivity]). }
      assert (S2 : sorted_between v a2 pl pi).
      { intros p q Hp Hpq Hq. unfold K. rewrite !R2 by lia.
        fold vi.
        assert (Hvi : key_at v vi = K v a pi) by reflexivity.
        assert (Hbelow : forall r, pl <= r < pj -> K v a r <= K v a pi).
        { intros r Hr'. destruct Hstop as [->|Hstop]; [lia|].
          eapply Z.le_trans; [|exact Hstop]. apply Hsorted; lia. }
        assert (Habove : forall r, pj < r <= pi -> K v a pi < K v a (r - 1)).
        { intros r Hr'. specialize (Hgt r Hr'). unfold K in Hgt.
          rewrite Hmid in Hgt by lia. exact Hgt. }
        destruct (Z.ltb_spec p pj); destruct (Z.ltb_spec q pj); try lia.
        - apply Hsorted; lia.
        - destruct (Z.eqb_spec q pj).
          + rewrite Hvi. apply Hbelow. lia.
          + destruct (Z.leb_spec q pi); [|lia]. apply Hsorted; lia.
        - destruct (Z.eqb_spec p pj); destruct (Z.eqb_spec q pj); try lia.
          + destruct (Z.leb_spec q pi); [|lia]. rewrite Hvi.
            apply Z.lt_le_incl, Habove. lia.
          + destruct (Z.leb_spec p pi); destruct (Z.leb_spec q pi); try lia.
            apply Hsorted; lia. }
      destruct (IH a2 (pi + 1)) as (a3 & Hins & M3 & S3); try lia.
      { replace (pi + 1 - 1) with pi by lia. exact S2. }
      exists a3. split; [exact Hins|]. split; [|exact S3].
      eapply moved_trans; eauto.
    + apply Z.leb_gt in E. exists a. split; [reflexivity|].
      split; [apply moved_refl|].
      intros p q Hp Hpq Hq. apply Hsorted; lia.
Qed.

(** ** The loop over the parts *)

Lemma work_nonneg (n : Z) (parts : list (Z * Z)) :
  Forall (part_ok n) parts -> 0 <= work parts.
Proof.
  induction 1 as [|s rest [H1 [H2 H3]] _ IH]; cbn [work]; lia.
Qed.

Lemma ordpairs_app {A} (R : A -> A -> Prop) (l1 l2 : list A) :
  ForallOrdPairs R l1 -> ForallOrdPairs R l2 ->
  (forall x y, In x l1 -> In y l2 -> R x y) ->
  ForallOrdPairs R (l1 ++ l2).
Proof.
  induction 1 as [|x l1 Hx H1 IH]; intros H2 Hcross; simpl; [exact H2|].
  constructor.
  - apply Forall_app. split; [exact Hx|].
    apply Forall_forall. intros y Hy. apply Hcross; [now left|exact Hy].
  - apply IH; [exact H2|]. intros a b Ha Hb. apply Hcross; [now right|exact Hb].
Qed.

Lemma two_parts_apart (s t : Z * Z) :
  apart s t -> ForallOrdPairs apart [s; t].
Proof.
  intros H. constructor.
  - constructor; [exact H|constructor].
  - constructor; constructor.
Qed.

Lemma inv_replace (a0 a a' : list nat) (pl pr : Z) (news stack : list (Z * Z)) :
  loop_inv v a0 a ((pl, pr) :: stack) ->
  moved_within pl pr a a' ->
  Forall (fun s => pl <= fst s /\ snd s <= pr /\ fst s <= snd s + 1) news ->
  ForallOrdPairs apart news ->
  (forall p q, pl <= p -> p < q -> q <= pr ->
     together news p q \/ K v a' p <= K v a' q) ->
  loop_inv v a0 a' (news ++ stack).
Proof.
  intros (L & P & Hok & Hap & Hord) (L' & P' & Hout & Hin) Hnews Hnap Hnord.
  inversion Hok as [|s0 st0 [Hpl [Hpr Hplr]] Hstack]; subst.
  inversion Hap as [|s0 st0 Hhead Hrest]; subst. cbn [fst snd] in *.
  split; [congruence|]. split; [eapply Permutation_trans; eauto|].
  split; [|split].
  - apply Forall_app. split; [|exact Hstack].
    eapply Forall_impl; [|exact Hnews]. intros s (H1 & H2 & H3).
    unfold part_ok. lia.
  - apply ordpairs_app; auto. intros s t Hs Ht.
    rewrite Forall_forall in Hnews, Hhead.
    destruct (Hnews s Hs) as (H1 & H2 & _).
    destruct (Hhead t Ht) as [H|H]; cbn [fst snd] in H; unfold apart; lia.
  - intros p q Hp Hpq Hq.
    destruct (Z_le_gt_dec pl p) as [Hp1|Hp1];
      [destruct (Z_le_gt_dec q pr) as [Hq1|Hq1]|].
    + destruct (Hnord p q Hp1 Hpq Hq1) as [H|H]; [left|now right].
      unfold together in *. apply Exists_app. now left.
    + (* p inside or beyond, q beyond the part *)
      assert (Hq' : rd a' q = rd a q) by (apply Hout; lia).
      assert (Hp' : exists p0, p0 < q /\ rd a' p = rd a p0 /\ 0 <= p0 /\
                               (pl <= p0 <= pr \/ p0 = p /\ pr < p)).
      { destruct (Z_le_gt_dec p pr).
        - destruct (Hin p ltac:(lia)) as (p0 & Hp0 & E).
          exists p0. repeat split; auto; lia.
        - exists p. split; [lia|]. split; [apply Hout; lia|]. split; lia. }
      destruct Hp' as (p0 & Hlt & Ep & Hp0 & Hwhere).
      destruct (Hord p0 q Hp0 Hlt Hq) as [H|H].
      * left. unfold together in *. apply Exists_app. right.
        inversion H as [s l [H1 H2]|s l H1]; subst; cbn [fst snd] in *; [lia|].
        apply Exists_exists in H1. destruct H1 as (t & Ht & H1 & H2).
        apply Exists_exists. exists t. split; [exact Ht|].
        rewrite Forall_forall in Hhead. specialize (Hhead t Ht).
        unfold apart in Hhead. cbn [fst snd] in Hhead. lia.
      * right. unfold K. now rewrite Ep, Hq'.
    + (* p before the part *)
      assert (Hp' : rd a' p = rd a p) by (apply Hout; lia).
      assert (Hq' : exists q0, p < q0 /\ rd a' q = rd a q0 /\
                               q0 < Z.of_nat (List.length a0) /\
                               (pl <= q0 <= pr \/ q0 = q /\ (q < pl \/ pr < q))).
      { destruct (Z_le_gt_dec pl q); [destruct (Z_le_gt_dec q pr)|].
        - destruct (Hin q ltac:(lia)) as (q0 & Hq0 & E).
          exists q0. repeat split; auto; lia.
        - exists q. split; [lia|]. split; [apply Hout; lia|]. split; lia.
        - exists q. split; [lia|]. split; [apply Hout; lia|]. split; lia. }
      destruct Hq' as (q0 & Hlt & Eq & Hq0 & Hwhere).
      destruct (Hord p q0 Hp Hlt Hq0) as [H|H].
      * left. unfold together in *. apply Exists_app. right.
        inversion H as [s l [H1 H2]|s l H1]; subst; cbn [fst snd] in *; [lia|].
        apply Exists_exists in H1. destruct H1 as (t & Ht & H1 & H2).
        apply Exists_exists. exists t. split; [exact Ht|].
        rewrite Forall_forall in Hhead. specialize (Hhead t Ht).
        unfold apart in Hhead. cbn [fst snd] in Hhead. lia.
      * right. unfold K. now rewrite Hp', Eq.
Qed.

Lemma quicksort_loop_S (fuel : nat) (a : list nat) (pl pr : Z)
      (stack : list (Z * Z)) :
  quicksort_loop v (S fuel) a pl pr stack
  = if pr - pl >? SMALL_QUICKSORT then
      match partition v a pl pr with
      | None => None
      | Some (a, pi) =>
          if pi - pl <? pr - pi
          then quicksort_loop v fuel a pl (pi - 1) ((pi + 1, pr) :: stack)
          else quicksort_loop v fuel a (pi + 1) pr ((pl, pi - 1) :: stack)
      end
    else
      match insertion v (S (List.length a)) a pl pr (pl + 1) with
      | None => None
      | Some a =>
          match stack with
          | [] => Some a
          | (l, r) :: stack' => quicksort_loop v fuel a l r stack'
          end
      end.
Proof. reflexivity. Qed.

Lemma quicksort_loop_spec (a0 : list nat) (fuel : nat) :
  forall (a : list nat) (pl pr : Z) (stack : list (Z * Z)),
  loop_inv v a0 a ((pl, pr) :: stack) ->
  work ((pl, pr) :: stack) <= Z.of_nat fuel ->
  exists a', quicksort_loop v fuel a pl pr stack = Some a' /\ loop_inv v a0 a' [].
Proof.
  induction fuel as [|fuel IH]; intros a pl pr stack Hinv Hwork;
    pose proof Hinv as (L & _ & Hok & _);
    inversion Hok as [|s0 st0 [Hpl [Hpr Hplr]] Hstack]; subst;
    cbn [fst snd] in *;
    pose proof (work_nonneg _ _ Hstack) as Hws;
    cbn [work fst snd] in Hwork; [lia|].
  - rewrite quicksort_loop_S.
    destruct (pr - pl >? SMALL_QUICKSORT) eqn:E.
    + apply Z.gtb_lt in E. unfold SMALL_QUICKSORT in E.
      destruct (partition_spec a pl pr) as (a' & pi & -> & M & Hpi & Hlow & Hhigh);
        try lia.
      assert (Hnord : forall news,
                 In (pl, pi - 1) news -> In (pi + 1, pr) news ->
                 forall p q, pl <= p -> p < q -> q <= pr ->
                   together news p q \/ K v a' p <= K v a' q).
      { intros news H1 H2 p q Hp Hpq Hq.
        destruct (Z_lt_ge_dec q pi).
        - left. apply Exists_exists. exists (pl, pi - 1). cbn [fst snd].
          split; [exact H1|lia].
        - destruct (Z_lt_ge_dec pi p).
          + left. apply Exists_exists. exists (pi + 1, pr). cbn [fst snd].
            split; [exact H2|lia].
          + right. apply Z.le_trans with (K v a' pi).
            * destruct (Z.eq_dec p pi) as [->|]; [lia|]. apply Hlow. lia.
            * destruct (Z.eq_dec q pi) as [->|]; [lia|]. apply Hhigh. lia. }
      destruct (pi - pl <? pr - pi).
      * apply IH.
        -- apply (inv_replace a0 a a' pl pr [(pl, pi - 1); (pi + 1, pr)] stack);
             auto.
           ++ repeat constructor; cbn [fst snd]; lia.
           ++ apply two_parts_apart. left. cbn [fst snd]. lia.
           ++ apply Hnord; simpl; auto.
        -- cbn [work fst snd]. lia.
      * apply IH.
        -- apply (inv_replace a0 a a' pl pr [(pi + 1, pr); (pl, pi - 1)] stack);
             auto.
           ++ repeat constructor; cbn [fst snd]; lia.
           ++ apply two_parts_apart. right. cbn [fst snd]. lia.
           ++ apply Hnord; simpl; auto.
        -- cbn [work fst snd]. lia.
    + assert (Hsmall : pr - pl <= SMALL_QUICKSORT)
        by (destruct (Z.gtb_spec (pr - pl) SMALL_QUICKSORT); [discriminate|lia]).
      destruct (insertion_spec (S (List.length a)) pl pr a (pl + 1))
        as (a' & -> & M & Hsorted); try lia.
      { intros p q Hp Hpq Hq. replace q with p by lia. lia. }
      assert (Hinv' : loop_inv v a0 a' stack).
      { apply (inv_replace a0 a a' pl pr [] stack); auto.
        - constructor.
        - intros p q Hp Hpq Hq. right. apply Hsorted; lia. }
      destruct stack as [|[l r] stack'].
      * exists a'. split; [reflexivity|exact Hinv'].
      * apply IH; [exact Hinv'|]. cbn [work fst snd] in *. lia.
Qed.

Lemma rd_cons (x : nat) (a : list nat) (p : Z) :
  0 <= p -> rd (x :: a) (p + 1) = rd a p.
Proof.
  intros Hp. unfold rd. replace (Z.to_nat (p + 1)) with (S (Z.to_nat p)) by lia.
  reflexivity.
Qed.

Lemma sorted_by_index (R : nat -> nat -> Prop) (a : list nat) :
  (forall p q, 0 <= p -> p < q -> q < Z.of_nat (List.length a) ->
     R (rd a p) (rd a q)) ->
  StronglySorted R a.
Proof.
  induction a as [|x a IH]; intros H; constructor.
  - apply IH. intros p q Hp Hpq Hq.
    rewrite <- (rd_cons x a p), <- (rd_cons x a q) by lia.
    apply H; try lia. simpl List.length. lia.
  - apply Forall_forall. intros y Hy.
    destruct (In_nth _ _ 0%nat Hy) as (i & Hi & <-).
    specialize (H 0 (Z.of_nat i + 1)).
    rewrite rd_cons in H by lia. unfold rd in H. rewrite Nat2Z.id in H.
    apply H; try lia. simpl List.length. lia.
Qed.

(** The indirect quicksort ends, and what it returns lists every index once,
    in ascending order of the keys. *)
Lemma aquicksort_sorts :
  exists indexer,
    aquicksort v = Some indexer /\
    Permutation indexer (seq 0 (List.length v)) /\
    StronglySorted (fun i j => key_at v i <= key_at v j) indexer.
Proof.
  unfold aquicksort.
  set (n := List.length v). set (a0 := seq 0 n).
  assert (L0 : List.length a0 = n) by apply length_seq.
  destruct (quicksort_loop_spec a0 (2 * n + 2) a0 0 (Z.of_nat n - 1) [])
    as (a' & Hrun & Hinv).
  - split; [reflexivity|]. split; [apply Permutation_refl|].
    split; [|split].
    + repeat constructor; cbn [fst snd]; lia.
    + repeat constructor.
    + intros p q Hp Hpq Hq. left. constructor. cbn [fst snd]. lia.
  - cbn [work fst snd]. lia.
  - exists a'. split; [exact Hrun|].
    destruct Hinv as (L & P & _ & _ & Hord). split; [exact P|].
    apply sorted_by_index. intros p q Hp Hpq Hq.
    destruct (Hord p q Hp Hpq ltac:(lia)) as [H|H]; [inversion H|exact H].
Qed.
End Partition.

Local Close Scope Z_scope.

(** ** The sorted frame *)

Lemma map_nth_seq {A} (d : A) (l : list A) :
  map (fun i => nth i l d) (seq 0 (List.length l)) = l.
Proof.
  induction l as [|x l IH]; simpl; [reflexivity|].
  f_equal. rewrite <- seq_shift, map_map. exact IH.
Qed.

Lemma take_perm (rs : list record) (indexer : list nat) :
  Permutation indexer (seq 0 (List.length rs)) ->
  Permutation (take rs indexer) rs.
Proof.
  intros H. unfold take.
  eapply Permutation_trans; [apply Permutation_map; exact H|].
  rewrite map_nth_seq. apply Permutation_refl.
Qed.

Lemma Forall2_nth {A B} (P : A -> B -> Prop) (l : list A) (l' : list B)
      (da : A) (db : B) (i : nat) :
  Forall2 P l l' -> (i < List.length l)%nat -> P (nth i l da) (nth i l' db).
Proof.
  intros H. revert i. induction H as [|x y l l' Hxy _ IH]; intros [|i] Hi;
    simpl in *; try lia; auto. apply IH. lia.
Qed.

Lemma sorted_map {A B} (R : A -> A -> Prop) (R' : B -> B -> Prop)
      (f : A -> B) (l : list A) :
  (forall x y, In x l -> In y l -> R x y -> R' (f x) (f y)) ->
  StronglySorted R l -> StronglySorted R' (map f l).
Proof.
  intros Hf H. induction H as [|x l Hl IH Hx]; simpl; constructor.
  - apply IH. intros a b Ha Hb. apply Hf; now right.
  - apply Forall_map. rewrite Forall_forall in *. intros y Hy.
    apply Hf; [now left|now right|]. now apply Hx.
Qed.

Lemma take_sorted (by_ : string) (rs : list record) (keys : list Z)
      (indexer : list nat) :
  mapM (sort_key by_) rs = Ok keys ->
  Permutation indexer (seq 0 (List.length rs)) ->
  StronglySorted (fun i j => (key_at keys i <= key_at keys j)%Z) indexer ->
  StronglySorted (key_le by_) (take rs indexer).
Proof.
  intros Hkeys Hperm Hsorted. apply mapM_Forall2 in Hkeys.
  unfold take. eapply sorted_map; [|exact Hsorted].
  intros i j Hi Hj Hij.
  assert (Hrange : forall x, In x indexer -> (x < List.length rs)%nat).
  { intros x Hx. apply (Permutation_in _ Hperm) in Hx.
    apply in_seq in Hx. lia. }
  exists (key_at keys i), (key_at keys j). unfold key_at.
  split; [|split; [|exact Hij]].
  - apply (Forall2_nth _ _ _ [] 0%Z i Hkeys). auto.
  - apply (Forall2_nth _ _ _ [] 0%Z j Hkeys). auto.
Qed.


Lemma sort_values_ok (df df' : DataFrame) (by_ : string) :
  sort_values df by_ = Ok df' ->
  columns df' = columns df /\
  Permutation (rows df') (rows df) /\
  StronglySorted (key_le by_) (rows df').
Proof.
  unfold sort_values, sort_values_with.
  destruct (has_column df by_); [|discriminate].
  destruct (mapM (sort_key by_) (rows df)) as [keys|] eqn:Ek; [|discriminate].
  cbn [bind].
  destruct (aquicksort_sorts keys) as (indexer & -> & Hperm & Hsorted).
  intros H; inversion H; subst df'; clear H. cbn [columns rows].
  rewrite (mapM_length _ _ _ Ek) in Hperm.
  split; [reflexivity|]. split.
  - now apply take_perm.
  - eapply take_sorted; eauto.
Qed.

Lemma sort_values_total (df : DataFrame) (by_ : string) :
  has_column df by_ = true ->
  (forall r, In r (rows df) -> exists td, lookup r by_ = VTimedelta td) ->
  exists df', sort_values df by_ = Ok df'.
Proof.
  intros Hcol Hcells. unfold sort_values, sort_values_with. rewrite Hcol.
  destruct (mapM_total (sort_key by_) (rows df)) as (keys & ->).
  { apply Forall_forall. intros r Hr. destruct (Hcells r Hr) as (td & Htd).
    exists (nanoseconds td). unfold sort_key. now rewrite Htd. }
  cbn [bind]. destruct (aquicksort_sorts keys) as (indexer & -> & _). eauto.
Qed.

(** C4, as the code has it: the sort ends on every frame whose [Time] cells
    are durations, and its result holds the same lines in ascending order of
    [Time]; of two lines with ["20:20"] and ["16:51"], in either order, the
    one with ["16:51"] comes first.  Nothing is said of lines with equal
    durations. *)
Theorem sort_values_orders_by_time :
  (forall df,
     has_column df "Time" = true ->
     (forall r, In r (rows df) -> exists td, lookup r "Time" = VTimedelta td) ->
     exists df', sort_values df "Time" = Ok df') /\
  (forall df df',
     sort_values df "Time" = Ok df' ->
     columns df' = columns df /\
     Permutation (rows df') (rows df) /\
     StronglySorted (key_le "Time") (rows df')) /\
  (forall cols ra rb ta tb,
     existsb (String.eqb "Time") cols = true ->
     convert_date_string_to_datetime "20:20" = Ok ta ->
     convert_date_string_to_datetime "16:51" = Ok tb ->
     lookup ra "Time" = VTimedelta ta ->
     lookup rb "Time" = VTimedelta tb ->
     sort_values (mk_frame cols [ra; rb]) "Time" = Ok (mk_frame cols [rb; ra]) /\
     sort_values (mk_frame cols [rb; ra]) "Time" = Ok (mk_frame cols [rb; ra])).
Proof.
  split; [|split].
  - intros df. apply sort_values_total.
  - intros df df'. apply sort_values_ok.
  - intros cols ra rb ta tb Hcol Ha Hb Hra Hrb.
    assert (Ea : convert_date_string_to_datetime "20:20"
                 = Ok (timedelta_of 20 20)) by reflexivity.
    assert (Eb : convert_date_string_to_datetime "16:51"
                 = Ok (timedelta_of 16 51)) by reflexivity.
    assert (ta = timedelta_of 20 20) by congruence.
    assert (tb = timedelta_of 16 51) by congruence.
    subst ta tb.
    unfold sort_values, sort_values_with, has_column. cbn [columns rows].
    rewrite Hcol. cbn [mapM]. unfold sort_key. rewrite Hra, Hrb.
    split; reflexivity.
Qed.

Lemma sort_values_orders_by_time_witness :
  sort_values late_first "Time" = Ok example_frame /\
  Permutation (rows example_frame) (rows late_first) /\
  StronglySorted (key_le "Time") (rows example_frame).
Proof.
  assert (H : sort_values late_first "Time" = Ok example_frame) by reflexivity.
  split; [exact H|].
  exact (proj2 (proj1 (proj2 sort_values_orders_by_time) late_first
                  example_frame H)).
Defined.

(** C4, as stated, fails on the code: of eighteen lines with equal durations,
    in merge order 1 to 18, the sorted frame has line 16 second and line 2
    sixteenth. *)
Lemma default_sort_reorders_ties :
  places (notebook (fun url => Ok url) (fun _ => Ok tied_page) [2015%Z])
  = map VInt [1; 16; 15; 14; 13; 12; 11; 10; 9; 8; 7; 6; 5; 4; 3; 2; 17; 18]%Z.
Proof. vm_compute. reflexivity. Qed.

(** * Further properties *)

(** ** More on the cleaning loop *)

Lemma keeps_len9 (header row : Row) : keeps header row = true -> len9 row = true.
Proof. unfold keeps. now rewrite andb_true_iff. Qed.

Lemma filter_filter_sub {A} (p q : A -> bool) (l : list A) :
  (forall x, p x = true -> q x = true) ->
  filter p (filter q l) = filter p l.
Proof.
  intros Hpq. induction l as [|x l IH]; simpl; [reflexivity|].
  destruct (q x) eqn:Eq; simpl.
  - now rewrite IH.
  - destruct (p x) eqn:Ep; [|exact IH]. apply Hpq in Ep. congruence.
Qed.

(** X1: the rows whose length is not 9 have no influence on the result. *)
Theorem classify_ignores_other_rows (raw_data : list Row) :
  classify (filter len9 raw_data) = classify raw_data /\
  parse_rows (filter len9 raw_data) = parse_rows raw_data.
Proof.
  assert (H : classify (filter len9 raw_data) = classify raw_data).
  { unfold classify, find_header.
    rewrite (filter_filter_sub len9 len9) by auto.
    destruct (filter len9 raw_data) as [|header rest] eqn:E; [reflexivity|].
    cbn [bind]. rewrite !clean_rows_filter. rewrite <- E.
    now rewrite (filter_filter_sub (keeps header) len9) by apply keeps_len9. }
  split; [exact H|]. unfold parse_rows. now rewrite H.
Qed.

Lemma kept_and_dropped (header : Row) (l : list Row) :
  len9 header = true ->
  List.length (filter (keeps header) l) + count_occ row_eq_dec l header
  = List.length (filter len9 l).
Proof.
  intros H9. induction l as [|row l IH]; simpl; [reflexivity|].
  unfold keeps at 1, row_neqb.
  destruct (row_eq_dec row header) as [e|n].
  - subst row. rewrite H9. simpl. lia.
  - destruct (len9 row); simpl; lia.
Qed.

(** X2: the cleaned output has as many rows as there are rows of length 9
    that are not copies of the header, and the header occurs at least once:
    when the table has no header line, its first data row of length 9 is
    taken for the header and is lost with all its copies. *)
Theorem header_rows_are_lost (raw_data : list Row) (header : Row)
        (cleaned : list Row) :
  classify raw_data = Ok (header, cleaned) ->
  List.length cleaned + count_occ row_eq_dec raw_data header
  = List.length (filter len9 raw_data) /\
  1 <= count_occ row_eq_dec raw_data header /\
  List.length cleaned < List.length (filter len9 raw_data).
Proof.
  intros Hc. destruct (classify_ok _ _ _ Hc) as [Hh ->].
  destruct (find_header_ok _ _ Hh) as (before & after & Hs & Hlen & _).
  assert (H9 : len9 header = true) by now apply len9_spec.
  pose proof (kept_and_dropped header raw_data H9) as Hk.
  assert (Hin : In header raw_data).
  { rewrite Hs. apply in_or_app. right. now left. }
  apply (count_occ_In row_eq_dec) in Hin. lia.
Qed.

Lemma header_rows_are_lost_witness :
  classify headless_table = Ok (alexandra, [tamma]) /\
  List.length [tamma] + count_occ row_eq_dec headless_table alexandra
  = List.length (filter len9 headless_table).
Proof.
  assert (H : classify headless_table = Ok (alexandra, [tamma])) by reflexivity.
  split; [exact H|]. exact (proj1 (header_rows_are_lost _ _ _ H)).
Defined.

Lemma keeps_filter_idem (header : Row) (l : list Row) :
  filter (keeps header) (filter (keeps header) l) = filter (keeps header) l.
Proof. apply filter_filter_sub. auto. Qed.

(** X3: a table rebuilt from the header and the cleaned rows parses to the
    same header and the same cleaned rows. *)
Theorem classify_round_trip (raw_data : list Row) (header : Row)
        (cleaned : list Row) :
  classify raw_data = Ok (header, cleaned) ->
  classify (header :: cleaned) = Ok (header, cleaned) /\
  parse_rows (header :: cleaned) = parse_rows raw_data.
Proof.
  intros Hc. destruct (classify_ok _ _ _ Hc) as [Hh Hcl].
  destruct (find_header_ok _ _ Hh) as (_ & _ & _ & Hlen & _).
  assert (H9 : len9 header = true) by now apply len9_spec.
  assert (H : classify (header :: cleaned) = Ok (header, cleaned)).
  { unfold classify, find_header. cbn [filter]. rewrite H9. cbn [bind].
    rewrite clean_rows_filter. cbn [filter].
    assert (Hk : keeps header header = false).
    { unfold keeps, row_neqb. now destruct (row_eq_dec header header). }
    rewrite Hk, Hcl. now rewrite keeps_filter_idem. }
  split; [exact H|]. unfold parse_rows. now rewrite H, Hc.
Qed.

Lemma classify_round_trip_witness :
  classify four_rows = Ok (site_header, [alexandra; tamma]) /\
  classify (site_header :: [alexandra; tamma])
  = Ok (site_header, [alexandra; tamma]).
Proof.
  assert (H : classify four_rows = Ok (site_header, [alexandra; tamma]))
    by reflexivity.
  split; [exact H|]. exact (proj1 (classify_round_trip _ _ _ H)).
Defined.

(** ** Reading the frame of a page *)

Lemma lookup_combine (labels : list string) (cells : list string) (j : nat) :
  NoDup labels -> List.length cells = List.length labels ->
  j < List.length labels ->
  lookup (combine labels (map VStr cells)) (nth j labels "")
  = VStr (nth j cells "").
Proof.
  intros Hnd. revert cells j.
  induction Hnd as [|l labels Hnotin Hnd IH]; intros cells j Hlen Hj;
    [simpl in Hj; lia|].
  destruct cells as [|c cells]; [discriminate|].
  simpl in Hlen, Hj. destruct j as [|j]; simpl.
  - now rewrite String.eqb_refl.
  - destruct (String.eqb l (nth j labels "")) eqn:E.
    + apply String.eqb_eq in E. exfalso. apply Hnotin. rewrite E.
      apply nth_In. lia.
    + apply IH; lia.
Qed.

Lemma cleaned_rows_facts (raw_data : list Row) (header : Row)
      (cleaned : list Row) :
  classify raw_data = Ok (header, cleaned) ->
  Forall (fun row => len row = 9) cleaned /\ len header = 9.
Proof.
  intros Hc. destruct (classify_ok _ _ _ Hc) as [Hh ->].
  destruct (find_header_ok _ _ Hh) as (_ & _ & _ & Hlen & _).
  split; [|exact Hlen]. apply Forall_forall. intros row Hin.
  apply filter_In in Hin. destruct Hin as [_ Hk]. now apply keeps_spec in Hk.
Qed.

(** X4: under a header without repeated labels, every line of the frame of a
    page reads back, label by label, the cells of its row, as strings; the
    frame has one line per cleaned row and the header for columns. *)
Theorem frame_reads_back_rows (raw_data : list Row) (header : Row)
        (cleaned : list Row) :
  classify raw_data = Ok (header, cleaned) ->
  NoDup header ->
  exists df,
    parse_rows raw_data = Ok df /\
    columns df = header /\
    List.length (rows df) = List.length cleaned /\
    (forall i j, i < List.length cleaned -> j < 9 ->
       lookup (nth i (rows df) []) (nth j header "")
       = VStr (nth j (nth i cleaned []) "")).
Proof.
  intros Hc Hnd.
  destruct (cleaned_rows_facts raw_data header cleaned Hc) as (Hall & Hlen).
  exists (new_frame cleaned header).
  split; [unfold parse_rows; now rewrite Hc|]. split; [reflexivity|].
  split; [simpl; apply length_map|].
  intros i j Hi Hj. unfold new_frame. cbn [rows].
  match goal with
  | |- lookup ?line _ = _ =>
      assert (Hnth : line = combine header (map VStr (nth i cleaned [])))
  end.
  { rewrite (nth_indep _ [] (combine header (map VStr [])))
      by (rewrite length_map; exact Hi).
    apply (map_nth (fun row => combine header (map VStr row))). }
  rewrite Hnth.
  rewrite Forall_forall in Hall.
  assert (Hrow : len (nth i cleaned []) = 9) by (apply Hall, nth_In; lia).
  unfold len in *. apply lookup_combine; auto; lia.
Qed.

Lemma site_header_NoDup : NoDup site_header.
Proof.
  unfold site_header.
  repeat (constructor; [simpl; intuition discriminate|]). constructor.
Qed.

Lemma frame_reads_back_rows_witness :
  classify four_rows = Ok (site_header, [alexandra; tamma]) /\
  NoDup site_header /\
  exists df,
    parse_rows four_rows = Ok df /\
    columns df = site_header /\
    List.length (rows df) = 2 /\
    (forall i j, i < 2 -> j < 9 ->
       lookup (nth i (rows df) []) (nth j site_header "")
       = VStr (nth j (nth i [alexandra; tamma] []) "")).
Proof.
  assert (H : classify four_rows = Ok (site_header, [alexandra; tamma]))
    by reflexivity.
  split; [exact H|]. split; [exact site_header_NoDup|].
  exact (frame_reads_back_rows _ _ _ H site_header_NoDup).
Defined.

(** ** Writing the year *)

Lemma existsb_add_column (cols : list string) (label l : string) :
  existsb (String.eqb l) (add_column cols label)
  = existsb (String.eqb l) cols || String.eqb l label.
Proof.
  unfold add_column. destruct (existsb (String.eqb label) cols) eqn:E.
  - destruct (String.eqb l label) eqn:El; [|now rewrite orb_false_r].
    apply String.eqb_eq in El. subst l. now rewrite E.
  - rewrite existsb_app. simpl. now rewrite orb_false_r.
Qed.

Lemma count_add_column (cols : list string) (label l : string) :
  count_occ string_dec (add_column cols label) l
  = if existsb (String.eqb label) cols then count_occ string_dec cols l
    else count_occ string_dec cols l + (if string_dec label l then 1 else 0).
Proof.
  unfold add_column. destruct (existsb (String.eqb label) cols); [reflexivity|].
  rewrite count_occ_app. simpl. destruct (string_dec label l); reflexivity.
Qed.

Lemma repeated_add_column (df : DataFrame) (label l : string) (cols : list string) :
  cols = columns df ->
  (1 <? count_occ string_dec (add_column cols label) l)%nat = repeated df l.
Proof.
  intros ->. unfold repeated. rewrite count_add_column.
  destruct (existsb (String.eqb label) (columns df)) eqn:E; [reflexivity|].
  destruct (string_dec label l) as [<-|Hne]; [|now rewrite Nat.add_0_r].
  assert (H0 : count_occ string_dec (columns df) label = 0).
  { apply count_occ_not_In. intros Hin.
    assert (Ht : existsb (String.eqb label) (columns df) = true).
    { apply existsb_exists. exists label. split; [exact Hin|].
      apply String.eqb_refl. }
    congruence. }
  rewrite H0. reflexivity.
Qed.

Lemma lookup_all_assign_same (label : string) (x : value) (r : record) :
  Forall (eq x) (lookup_all (assign label x r) label).
Proof.
  unfold assign. destruct (has_label r label) eqn:E.
  - clear E. induction r as [|[l0 y] r IH]; simpl; [constructor|].
    destruct (String.eqb l0 label) eqn:El; simpl; rewrite El; auto.
  - induction r as [|[l0 y] r IH]; simpl.
    + rewrite String.eqb_refl. auto.
    + rewrite has_label_cons, orb_false_iff, (String.eqb_sym label l0) in E.
      destruct E as [-> E]. now apply IH.
Qed.

Lemma lookup_all_assign_other (label other : string) (x : value) (r : record) :
  other <> label -> lookup_all (assign label x r) other = lookup_all r other.
Proof.
  intros Hne. unfold assign. destruct (has_label r label).
  - induction r as [|[l0 y] r IH]; [reflexivity|]. simpl.
    destruct (String.eqb l0 label) eqn:El; simpl; rewrite IH; auto.
    apply String.eqb_eq in El. subst l0.
    destruct (String.eqb label other) eqn:Eo; auto.
    apply String.eqb_eq in Eo. congruence.
  - induction r as [|[l0 y] r IH]; simpl.
    + destruct (String.eqb label other) eqn:Eo; auto.
      apply String.eqb_eq in Eo. congruence.
    + now rewrite IH.
Qed.

(** X5: after [d['Year'] = year] every cell under [Year] holds [year],
    whether or not the page had such a column, and the column reads [year]
    on every line; every other column reads as before, and no line is added
    or removed. *)
Theorem setitem_year_reads_back (d : DataFrame) (y : Z) :
  (repeated d "Year" = false ->
   getitem (setitem d "Year" (VInt y)) "Year"
   = Ok (Series (repeat (VInt y) (List.length (rows d))))) /\
  (forall r x, In r (rows (setitem d "Year" (VInt y))) ->
     In x (lookup_all r "Year") -> x = VInt y) /\
  (forall l, l <> "Year" ->
     getitem (setitem d "Year" (VInt y)) l = getitem d l) /\
  List.length (rows (setitem d "Year" (VInt y))) = List.length (rows d).
Proof.
  split; [|split; [|split]].
  - intros Hr. unfold getitem, has_column, setitem. cbn [columns].
    rewrite existsb_add_column, String.eqb_refl, orb_true_r.
    unfold repeated at 1. cbn [columns].
    rewrite (repeated_add_column d _ _ _ eq_refl), Hr. do 2 f_equal.
    unfold column. cbn [rows].
    induction (rows d) as [|r rs IH]; simpl; [reflexivity|].
    now rewrite lookup_assign_same, <- IH.
  - intros r x Hr Hx. unfold setitem in Hr. cbn [rows] in Hr.
    apply in_map_iff in Hr. destruct Hr as (r0 & <- & _).
    pose proof (lookup_all_assign_same "Year" (VInt y) r0) as H.
    rewrite Forall_forall in H. symmetry. now apply H.
  - intros l Hne. unfold getitem, has_column, setitem. cbn [columns].
    rewrite existsb_add_column.
    assert (E : String.eqb l "Year" = false) by now apply String.eqb_neq.
    rewrite E, orb_false_r.
    destruct (existsb (String.eqb l) (columns d)); [|reflexivity].
    unfold repeated at 1. cbn [columns].
    rewrite (repeated_add_column d _ _ _ eq_refl).
    destruct (repeated d l); do 2 f_equal; unfold column; cbn [rows];
      rewrite map_map; apply map_ext; intros r.
    + now apply lookup_all_assign_other.
    + now apply lookup_assign_other.
  - unfold setitem. cbn [rows]. apply length_map.
Qed.

(** ** The first page that fails *)

Section FirstFailure.

Variable urlopen_read : string -> result string.
Variable table_rows : string -> result (list Row).


End FirstFailure.



(** ** The normalisation cell as a whole *)

Lemma normalise_stages (df df' : DataFrame) :
  normalise df = Ok df' ->
  exists df1 df2 df3,
    add_Time df = Ok df1 /\ add_Minutes df1 = Ok df2 /\
    astype_int df2 = Ok df3 /\ sort_values df3 "Time" = Ok df'.
Proof.
  unfold normalise.
  destruct (add_Time df) as [df1|] eqn:E1; cbn [bind]; [|discriminate].
  destruct (add_Minutes df1) as [df2|] eqn:E2; cbn [bind]; [|discriminate].
  destruct (astype_int df2) as [df3|] eqn:E3; cbn [bind]; [|discriminate].
  intros H. exists df1, df2, df3. repeat split; auto.
Qed.


Lemma not_int_column (l : string) :
  l = "Time" \/ l = "Minutes" \/ l = "Total Time" \/ ~ In l derived_labels ->
  ~ In l int_columns.
Proof.
  unfold int_columns, derived_labels. simpl.
  intros [->|[->|[->|H]]]; intuition discriminate.
Qed.

Lemma normalise_lines (df df1 df2 df3 : DataFrame) :
  add_Time df = Ok df1 -> add_Minutes df1 = Ok df2 -> astype_int df2 = Ok df3 ->
  Forall2 normalised_from (rows df) (rows df3).
Proof.
  intros H1 H2 H3.
  pose proof (Forall2_compose _ _ _ _ _
                (Forall2_compose _ _ _ _ _ (add_Time_rows _ _ H1)
                   (add_Minutes_rows _ _ H2))
                (astype_int_rows _ _ H3)) as H.
  eapply Forall2_impl; [|exact H]. clear.
  intros r r3 (r2 & (r1 & (x & Hx & ->) & (y & Hy & ->)) & (Hin & Hout)).
  unfold apply_convert in Hx.
  destruct (lookup r "Total Time") as [s| | | |] eqn:El; try discriminate.
  unfold bind in Hx.
  destruct (convert_date_string_to_datetime s) as [td|] eqn:Ec; [|discriminate].
  inversion Hx; subst x; clear Hx.
  rewrite lookup_assign_same in Hy. cbn [minutes_of] in Hy.
  destruct (timedelta_of_parsed _ _ Ec) as (_ & Hsec & _).
  rewrite Hsec in Hy. inversion Hy; subst y; clear Hy.
  split; [split|].
  - exists s, td. split; [|split; [exact Ec|split]].
    + rewrite Hout by (apply not_int_column; auto).
      rewrite !lookup_assign_other by discriminate. exact El.
    + rewrite Hout by (apply not_int_column; auto).
      rewrite lookup_assign_other by discriminate. apply lookup_assign_same.
    + rewrite Hout by (apply not_int_column; auto). apply lookup_assign_same.
  - intros l Hl. destruct (Hin l Hl) as (z & _ & Hz). eauto.
  - intros l Hl. rewrite Hout by (apply not_int_column; auto).
    rewrite !lookup_assign_other; auto.
    + intros ->. apply Hl. simpl. auto.
    + intros ->. apply Hl. simpl. auto.
Qed.

(** X7: every line the notebook writes agrees with itself: its [Time] is the
    duration of its own [Total Time] string, its [Minutes] is that duration's
    seconds over 60, and [Place], [Age] and [Bib No] hold integers. *)
Theorem written_lines_are_normalised (df df' : DataFrame) :
  normalise df = Ok df' -> Forall normalised_record (rows df').
Proof.
  intros H. destruct (normalise_stages _ _ H) as (df1 & df2 & df3 & H1 & H2 & H3 & H4).
  pose proof (normalise_lines _ _ _ _ H1 H2 H3) as Hl.
  destruct (sort_values_ok _ _ _ H4) as (_ & Hperm & _).
  assert (H3' : Forall normalised_record (rows df3)).
  { apply Forall_forall. intros r3 Hr3.
    destruct (Forall2_In_r _ _ _ _ Hl Hr3) as (r & _ & Hn & _). exact Hn. }
  eapply Permutation_Forall; [apply Permutation_sym; exact Hperm|exact H3'].
Qed.

(** X8: the normalisation cell neither drops nor repeats a line and leaves
    every cell it does not write as it was: the written lines are, in
    another order, the lines of the built frame with only [Time], [Minutes],
    [Place], [Age] and [Bib No] written. *)
Theorem normalise_keeps_the_lines (df df' : DataFrame) :
  normalise df = Ok df' ->
  List.length (rows df') = List.length (rows df) /\
  exists lines,
    Permutation (rows df') lines /\
    Forall2 (fun r r' => forall l, ~ In l derived_labels ->
                                   lookup r' l = lookup r l)
            (rows df) lines.
Proof.
  intros H. destruct (normalise_stages _ _ H) as (df1 & df2 & df3 & H1 & H2 & H3 & H4).
  pose proof (normalise_lines _ _ _ _ H1 H2 H3) as Hl.
  destruct (sort_values_ok _ _ _ H4) as (_ & Hperm & _).
  split.
  - rewrite (Permutation_length Hperm). symmetry. eapply Forall2_length; eauto.
  - exists (rows df3). split; [exact Hperm|].
    eapply Forall2_impl; [|exact Hl]. intros r r' [_ Hk]. exact Hk.
Qed.

Lemma built_example_normalised : normalise built_example = Ok example_frame.
Proof. reflexivity. Qed.

Lemma written_lines_are_normalised_witness :
  normalise built_example = Ok example_frame /\
  Forall normalised_record (rows example_frame).
Proof.
  split; [exact built_example_normalised|].
  exact (written_lines_are_normalised _ _ built_example_normalised).
Defined.

Lemma normalise_keeps_the_lines_witness :
  normalise built_example = Ok example_frame /\
  List.length (rows example_frame) = List.length (rows built_example).
Proof.
  split; [exact built_example_normalised|].
  exact (proj1 (normalise_keeps_the_lines _ _ built_example_normalised)).
Defined.

(** ** When the normalisation cell succeeds, and when it fails *)

Lemma has_column_setitem_series (df : DataFrame) (label l : string)
      (xs : list value) :
  has_column (setitem_series df label xs) l
  = has_column df l || String.eqb l label.
Proof.
  unfold has_column, setitem_series. cbn [columns].
  unfold add_column. destruct (existsb (String.eqb label) (columns df)) eqn:E.
  - destruct (String.eqb l label) eqn:El; [|now rewrite orb_false_r].
    apply String.eqb_eq in El. subst l. now rewrite E.
  - rewrite existsb_app. simpl. now rewrite orb_false_r.
Qed.

Lemma add_Time_columns (df df1 : DataFrame) (l : string) :
  add_Time df = Ok df1 ->
  has_column df1 l = has_column df l || String.eqb l "Time".
Proof.
  unfold add_Time.
  destruct (getitem df "Total Time") as [[col|lines]|]; cbn [bind];
    try discriminate.
  destruct (mapM apply_convert col) as [times|]; cbn [bind]; [|discriminate].
  intros H; inversion H. apply has_column_setitem_series.
Qed.

Lemma add_Minutes_columns (df df2 : DataFrame) (l : string) :
  add_Minutes df = Ok df2 ->
  has_column df2 l = has_column df l || String.eqb l "Minutes".
Proof.
  unfold add_Minutes.
  destruct (getitem df "Time") as [[col|lines]|]; cbn [bind]; try discriminate.
  destruct col as [|c col]; [discriminate|].
  destruct (mapM minutes_of (c :: col)) as [mins|]; cbn [bind]; [|discriminate].
  intros H; inversion H. apply has_column_setitem_series.
Qed.

Lemma add_column_NoDup (cols : list string) (label : string) :
  NoDup cols -> NoDup (add_column cols label).
Proof.
  intros H. unfold add_column.
  destruct (existsb (String.eqb label) cols) eqn:E; [exact H|].
  apply NoDup_app; [exact H|repeat constructor; intros []|].
  intros x Hx [Heq|[]]. subst x.
  assert (Ht : existsb (String.eqb label) cols = true).
  { apply existsb_exists. exists label. split; [exact Hx|apply String.eqb_refl]. }
  congruence.
Qed.

Lemma add_Time_NoDup (df df1 : DataFrame) :
  add_Time df = Ok df1 -> NoDup (columns df) -> NoDup (columns df1).
Proof.
  unfold add_Time.
  destruct (getitem df "Total Time") as [[col|lines]|]; cbn [bind];
    try discriminate.
  destruct (mapM apply_convert col) as [times|]; cbn [bind]; [|discriminate].
  intros H; inversion H. cbn [setitem_series columns]. apply add_column_NoDup.
Qed.

Lemma add_Minutes_NoDup (df df2 : DataFrame) :
  add_Minutes df = Ok df2 -> NoDup (columns df) -> NoDup (columns df2).
Proof.
  unfold add_Minutes.
  destruct (getitem df "Time") as [[col|lines]|]; cbn [bind]; try discriminate.
  destruct col as [|c col]; [discriminate|].
  destruct (mapM minutes_of (c :: col)) as [mins|]; cbn [bind]; [|discriminate].
  intros H; inversion H. cbn [setitem_series columns]. apply add_column_NoDup.
Qed.

Lemma add_Time_total (df : DataFrame) :
  has_column df "Total Time" = true ->
  repeated df "Total Time" = false ->
  (forall r, In r (rows df) ->
     exists s m sec, lookup r "Total Time" = VStr s /\
                     minute_second_string s m sec) ->
  exists df1, add_Time df = Ok df1.
Proof.
  intros Hcol Hrep Hcells. unfold add_Time, getitem, column.
  rewrite Hcol, Hrep. cbn [bind].
  destruct (mapM_total apply_convert
              (map (fun r => lookup r "Total Time") (rows df))) as (times & ->).
  { apply Forall_map, Forall_forall. intros r Hr.
    destruct (Hcells r Hr) as (s & m & sec & -> & Hs).
    exists (VTimedelta (timedelta_of m sec)). cbn [apply_convert].
    unfold convert_date_string_to_datetime.
    now rewrite (strptime_complete _ _ _ Hs). }
  cbn [bind]. eauto.
Qed.

Lemma add_Minutes_total (df : DataFrame) :
  has_column df "Time" = true -> repeated df "Time" = false ->
  rows df <> [] ->
  (forall r, In r (rows df) -> exists td, lookup r "Time" = VTimedelta td) ->
  exists df2, add_Minutes df = Ok df2.
Proof.
  intros Hcol Hrep Hne Hcells. unfold add_Minutes, getitem, column.
  rewrite Hcol, Hrep. cbn [bind].
  destruct (rows df) as [|r rs] eqn:Er; [congruence|]. cbn [map].
  destruct (mapM_total minutes_of
              (lookup r "Time" :: map (fun r => lookup r "Time") rs))
    as (mins & ->).
  { change (Forall (fun a => exists b, minutes_of a = Ok b)
              (map (fun r => lookup r "Time") (r :: rs))).
    apply Forall_map, Forall_forall. intros r0 Hr0.
    destruct (Hcells r0 Hr0) as (td & ->). cbn [minutes_of]. eauto. }
  cbn [bind]. eauto.
Qed.

Lemma normalise_total (df : DataFrame) :
  NoDup (columns df) ->
  rows df <> [] ->
  has_column df "Total Time" = true ->
  forallb (has_column df) int_columns = true ->
  (forall r, In r (rows df) ->
     exists s m sec, lookup r "Total Time" = VStr s /\
                     minute_second_string s m sec) ->
  (forall r l, In r (rows df) -> In l int_columns ->
     exists s z, lookup r l = VStr s /\ integer_literal s z /\
                 fits_int64 z = true) ->
  exists df', normalise df = Ok df'.
Proof.
  intros Hnd Hne Htt Hint Htimes Hcells.
  destruct (add_Time_total df Htt (NoDup_not_repeated _ _ Hnd) Htimes)
    as (df1 & H1).
  pose proof (add_Time_rows _ _ H1) as R1.
  pose proof (add_Time_NoDup _ _ H1 Hnd) as Hnd1.
  destruct (add_Minutes_total df1) as (df2 & H2).
  { rewrite (add_Time_columns _ _ _ H1). apply orb_true_r. }
  { now apply NoDup_not_repeated. }
  { intros E. apply Forall2_length in R1. rewrite E in R1.
    destruct (rows df); [congruence|discriminate]. }
  { intros r1 Hr1.
    destruct (Forall2_In_r _ _ _ _ R1 Hr1) as (r & Hr & x & Hx & ->).
    rewrite lookup_assign_same. unfold apply_convert in Hx.
    destruct (lookup r "Total Time"); try discriminate.
    destruct (convert_date_string_to_datetime s); [|discriminate].
    inversion Hx. eauto. }
  pose proof (add_Minutes_rows _ _ H2) as R2.
  pose proof (add_Minutes_NoDup _ _ H2 Hnd1) as Hnd2.
  pose proof (Forall2_compose _ _ _ _ _ R1 R2) as R12.
  assert (Hcols2 : forall l, has_column df l = true -> has_column df2 l = true).
  { intros l Hl. rewrite (add_Minutes_columns _ _ _ H2),
      (add_Time_columns _ _ _ H1), Hl. reflexivity. }
  assert (Hint2 : forallb (has_column df2) int_columns = true).
  { rewrite forallb_forall in *. intros l Hl. apply Hcols2. now apply Hint. }
  destruct (astype_int_total df2 Hnd2 Hint2) as (df3 & H3).
  { intros r2 l Hr2 Hl.
    destruct (Forall2_In_r _ _ _ _ R12 Hr2)
      as (r & Hr & r1 & (x & _ & ->) & (y & _ & ->)).
    assert (l <> "Time" /\ l <> "Minutes") as [Hn1 Hn2].
    { unfold int_columns in Hl. simpl in Hl.
      split; intros ->; intuition discriminate. }
    rewrite !lookup_assign_other by assumption.
    exact (Hcells r l Hr Hl). }
  pose proof (normalise_lines _ _ _ _ H1 H2 H3) as Hl.
  destruct (sort_values_total df3 "Time") as (df' & H4).
  { apply (astype_int_kept _ _ _ H3).
    rewrite (add_Minutes_columns _ _ _ H2), (add_Time_columns _ _ _ H1).
    rewrite String.eqb_refl. now rewrite orb_true_r. }
  { intros r3 Hr3.
    destruct (Forall2_In_r _ _ _ _ Hl Hr3)
      as (r & _ & ((s & td & _ & _ & Ht & _) & _) & _).
    eauto. }
  exists df'. unfold normalise. rewrite H1. cbn [bind]. rewrite H2. cbn [bind].
  rewrite H3. cbn [bind]. exact H4.
Qed.

(** X9: the normalisation cell succeeds on every frame without a repeated
    label that has at least one line and the columns [Total Time], [Place],
    [Age] and [Bib No], when every time is a string of the accepted form and
    every cell of the three integer columns is an integer literal that fits
    64 bits. *)
Theorem normalise_succeeds (df : DataFrame) :
  NoDup (columns df) ->
  rows df <> [] ->
  has_column df "Total Time" = true ->
  forallb (has_column df) int_columns = true ->
  (forall r, In r (rows df) ->
     exists s m sec, lookup r "Total Time" = VStr s /\
                     minute_second_string s m sec) ->
  (forall r l, In r (rows df) -> In l int_columns ->
     exists s z, lookup r l = VStr s /\ integer_literal s z /\
                 fits_int64 z = true) ->
  exists df', normalise df = Ok df'.
Proof. exact (normalise_total df). Qed.

(** X10: on a frame without a repeated label, one time string that [strptime]
    refuses makes the whole cell fail with [ValueError], wherever its line
    stands: no line is normalised and nothing is written. *)
Theorem one_bad_time_fails_the_frame (df : DataFrame) (r : record) (s : string) :
  NoDup (columns df) ->
  has_column df "Total Time" = true ->
  (forall r', In r' (rows df) -> exists s', lookup r' "Total Time" = VStr s') ->
  In r (rows df) ->
  lookup r "Total Time" = VStr s ->
  (~ exists m sec, minute_second_string s m sec) ->
  add_Time df = Raise ValueError /\ normalise df = Raise ValueError.
Proof.
  intros Hnd Hcol Hstr Hr Hs Hbad.
  assert (H : add_Time df = Raise ValueError).
  { unfold add_Time, getitem, column.
    rewrite Hcol, (NoDup_not_repeated _ _ Hnd). cbn [bind].
    destruct (mapM apply_convert (map (fun r => lookup r "Total Time") (rows df)))
      as [times|e] eqn:E; cbn [bind].
    - exfalso. apply mapM_Forall2 in E.
      destruct (Forall2_In_l _ _ _ _ E (in_map _ _ _ Hr)) as (x & _ & Hx).
      rewrite Hs in Hx. cbn [apply_convert] in Hx.
      destruct (convert_date_string_to_datetime s) as [td|] eqn:Ec;
        [|discriminate].
      apply Hbad. destruct (convert_sound _ _ Ec) as (m & sec & H & _). eauto.
    - f_equal. clear Hr Hs Hbad r s.
      induction (rows df) as [|r0 rs IH]; [discriminate|].
      cbn [map mapM] in E.
      destruct (Hstr r0 (or_introl eq_refl)) as (s0 & Hs0). rewrite Hs0 in E.
      cbn [apply_convert] in E.
      unfold convert_date_string_to_datetime in E at 1.
      destruct (strptime s0) as [t|e0] eqn:Es; cbn [bind] in E.
      + destruct (mapM apply_convert (map (fun r => lookup r "Total Time") rs))
          as [ts|e1] eqn:E1; cbn [bind] in E; [discriminate|].
        inversion E; subst e1. apply IH; auto.
        intros r' Hr'. apply Hstr. now right.
      + inversion E; subst e0. now apply strptime_raises in Es. }
  split; [exact H|]. unfold normalise. now rewrite H.
Qed.

Lemma built_example_NoDup : NoDup (columns built_example).
Proof.
  vm_compute. repeat constructor; simpl; intuition discriminate.
Qed.

Lemma normalise_succeeds_witness :
  exists df', normalise built_example = Ok df'.
Proof.
  apply normalise_succeeds.
  - exact built_example_NoDup.
  - discriminate.
  - reflexivity.
  - reflexivity.
  - intros r [<-|[<-|[]]].
    + exists "20:20".
      destruct (convert_sound "20:20" _ eq_refl) as (m & sec & H & _). eauto.
    + exists "20:23".
      destruct (convert_sound "20:23" _ eq_refl) as (m & sec & H & _). eauto.
  - intros r l [<-|[<-|[]]] [<-|[<-|[<-|[]]]];
      (eexists; eexists; split; [reflexivity|];
       split; [apply int_sound; reflexivity | reflexivity]).
Defined.

Lemma one_bad_time_fails_the_frame_witness :
  add_Time over_an_hour = Raise ValueError /\
  normalise over_an_hour = Raise ValueError.
Proof.
  apply (one_bad_time_fails_the_frame over_an_hour
           [("Total Time", VStr "1:00:03")] "1:00:03").
  - repeat constructor. intros [].
  - reflexivity.
  - intros r' [<-|[<-|[]]]; eexists; reflexivity.
  - right; left; reflexivity.
  - reflexivity.
  - intros (m & sec & H). apply strptime_complete in H. discriminate H.
Defined.

(** X18: the normalisation cell writes a frame only if the merged frame has
    the four columns it reads: without [Total Time] it stops at once with
    [KeyError], and without [Place], [Age] or [Bib No] it never succeeds. *)
Theorem normalise_needs_its_columns (df : DataFrame) :
  has_column df "Total Time" && forallb (has_column df) int_columns = false ->
  (forall df', normalise df <> Ok df') /\
  (has_column df "Total Time" = false -> normalise df = Raise KeyError).
Proof.
  intros Hmiss. split.
  - intros df' H.
    destruct (normalise_stages _ _ H) as (df1 & df2 & df3 & H1 & H2 & H3 & _).
    assert (Htt : has_column df "Total Time" = true).
    { unfold add_Time, getitem in H1.
      destruct (has_column df "Total Time"); [reflexivity|discriminate]. }
    rewrite Htt in Hmiss. cbn [andb] in Hmiss.
    destruct (astype_int_ok_once _ _ H3) as [E _].
    assert (Hall : forallb (has_column df) int_columns = true).
    { rewrite forallb_forall in *. intros l Hl. specialize (E l Hl).
      rewrite (add_Minutes_columns _ _ _ H2), (add_Time_columns _ _ _ H1) in E.
      unfold int_columns in Hl. simpl in Hl.
      destruct Hl as [<-|[<-|[<-|[]]]]; cbn in E;
        rewrite !orb_false_r in E; exact E. }
    congruence.
  - intros Htt. unfold normalise, add_Time, getitem. now rewrite Htt.
Qed.

Lemma normalise_needs_its_columns_witness :
  has_column no_age "Total Time" && forallb (has_column no_age) int_columns = false /\
  normalise no_age <> Ok no_age.
Proof.
  split; [reflexivity|].
  exact (proj1 (normalise_needs_its_columns no_age eq_refl) no_age).
Defined.

(** ** Minutes and the order of the times *)

Lemma minutes_steps : forallb minutes_step_up (seq 0 3599) = true.
Proof. vm_compute. reflexivity. Qed.

Lemma minutes_step (n : nat) :
  n < 3599 ->
  (float_value (div60 (Z.of_nat n)) < float_value (div60 (Z.of_nat (S n))))%Q.
Proof.
  intros Hn. pose proof minutes_steps as H. rewrite forallb_forall in H.
  specialize (H n). unfold minutes_step_up in H.
  apply Qnot_le_lt. intros Hle. apply Qle_bool_iff in Hle.
  rewrite Hle in H. discriminate H. apply in_seq. lia.
Qed.

Lemma minutes_steps_nat (n k : nat) :
  n + S k < 3600 ->
  (float_value (div60 (Z.of_nat n)) < float_value (div60 (Z.of_nat (n + S k))))%Q.
Proof.
  induction k as [|k IH]; intros H.
  - replace (n + 1) with (S n) by lia. apply minutes_step. lia.
  - eapply Qlt_trans; [apply IH; lia|].
    replace (n + S (S k)) with (S (n + S k)) by lia. apply minutes_step. lia.
Qed.

Lemma div60_lt (a b : Z) :
  (0 <= a)%Z -> (a < b)%Z -> (b < 3600)%Z ->
  (float_value (div60 a) < float_value (div60 b))%Q.
Proof.
  intros Ha Hab Hb.
  pose proof (minutes_steps_nat (Z.to_nat a) (Z.to_nat (b - a - 1))) as H.
  replace (Z.to_nat a + S (Z.to_nat (b - a - 1))) with (Z.to_nat b) in H by lia.
  rewrite !Z2Nat.id in H by lia. apply H. lia.
Qed.

Lemma div60_le (a b : Z) :
  (0 <= a)%Z -> (a <= b)%Z -> (b < 3600)%Z ->
  (float_value (div60 a) <= float_value (div60 b))%Q.
Proof.
  intros Ha Hab Hb. destruct (Z.eq_dec a b) as [->|Hne].
  - apply Qle_refl.
  - apply Qlt_le_weak, div60_lt; lia.
Qed.

(** X11: on the seconds of a race time, from 0:00 to 59:59, the float
    [Minutes] is strictly increasing, starts at 0 and stays below 60: two
    different times never get the same [Minutes]. *)
Theorem minutes_separate_times (a b : Z) :
  (0 <= a)%Z -> (a < b)%Z -> (b < 3600)%Z ->
  (0 <= float_value (div60 a))%Q /\
  (float_value (div60 a) < float_value (div60 b))%Q /\
  (float_value (div60 b) < 60)%Q /\
  div60 a <> div60 b.
Proof.
  intros Ha Hab Hb.
  assert (H0 : float_value (div60 0) = 0%Q) by (vm_compute; reflexivity).
  assert (Hab' : (float_value (div60 a) < float_value (div60 b))%Q)
    by (apply div60_lt; lia).
  split; [|split; [exact Hab'|split]].
  - rewrite <- H0. apply div60_le; lia.
  - eapply Qle_lt_trans; [apply (div60_le b 3599); lia|].
    vm_compute. reflexivity.
  - intros E. rewrite E in Hab'. exact (Qlt_irrefl _ Hab').
Qed.

Lemma minutes_separate_times_witness :
  (float_value (div60 1220) < float_value (div60 1223))%Q.
Proof.
  exact (proj1 (proj2 (minutes_separate_times 1220 1223
                         ltac:(lia) ltac:(lia) ltac:(lia)))).
Defined.

(** X12: the lines the notebook writes are in the order of their [Minutes]
    too, as numbers: sorting by [Time] sorts by [Minutes]. *)
Theorem written_frame_is_ordered_by_minutes (df df' : DataFrame) :
  normalise df = Ok df' -> StronglySorted minutes_le (rows df').
Proof.
  intros H.
  destruct (normalise_stages _ _ H) as (df1 & df2 & df3 & H1 & H2 & H3 & H4).
  pose proof (normalise_lines _ _ _ _ H1 H2 H3) as Hl.
  destruct (sort_values_ok _ _ _ H4) as (_ & Hperm & Hsorted).
  assert (Hn : Forall normalised_record (rows df')).
  { apply Forall_forall. intros r Hr.
    apply (Permutation_in _ Hperm) in Hr.
    destruct (Forall2_In_r _ _ _ _ Hl Hr) as (r0 & _ & Hn & _). exact Hn. }
  clear - Hn Hsorted. induction Hsorted as [|r rs Hs IH Hall]; [constructor|].
  inversion Hn as [|? ? Hr Hrs]; subst. constructor; [now apply IH|].
  rewrite Forall_forall in *. intros r' Hr'.
  destruct (Hall r' Hr') as (k & k' & Hk & Hk' & Hle).
  destruct Hr as ((s & td & _ & Hc & Ht & Hm) & _).
  destruct (Hrs r' Hr') as ((s' & td' & _ & Hc' & Ht' & Hm') & _).
  unfold sort_key in Hk, Hk'. rewrite Ht in Hk. rewrite Ht' in Hk'.
  inversion Hk; subst k. inversion Hk'; subst k'.
  destruct (timedelta_of_parsed _ _ Hc) as (Hd & Hsec & Hrange).
  destruct (timedelta_of_parsed _ _ Hc') as (Hd' & Hsec' & Hrange').
  exists (div60 (total_seconds td)), (div60 (total_seconds td')).
  split; [exact Hm|]. split; [exact Hm'|].
  apply div60_le; try lia.
  assert (Hus : microseconds td = 0%Z /\ microseconds td' = 0%Z).
  { destruct (convert_sound _ _ Hc) as (? & ? & _ & ->).
    destruct (convert_sound _ _ Hc') as (? & ? & _ & ->). split; reflexivity. }
  destruct Hus as [Hu Hu'].
  unfold nanoseconds in Hle. unfold total_seconds in *. rewrite Hu, Hu' in Hle. lia.
Qed.

Lemma written_frame_is_ordered_by_minutes_witness :
  normalise built_example = Ok example_frame /\
  StronglySorted minutes_le (rows example_frame).
Proof.
  split; [exact built_example_normalised|].
  exact (written_frame_is_ordered_by_minutes _ _ built_example_normalised).
Defined.

(** ** [df.head()] *)

Lemma sorted_split {A} (R : A -> A -> Prop) (l1 l2 : list A) :
  StronglySorted R (l1 ++ l2) ->
  forall x y, In x l1 -> In y l2 -> R x y.
Proof.
  induction l1 as [|a l1 IH]; intros H x y Hx Hy; [destruct Hx|].
  simpl in H. inversion H as [|? ? Hs Hall]; subst.
  destruct Hx as [<-|Hx].
  - rewrite Forall_forall in Hall. apply Hall, in_or_app. now right.
  - now apply IH.
Qed.

(** X13: what the last cell prints are the fastest lines of the frame it
    wrote: at most five, all of them when the frame has five lines or fewer,
    and no line left out is faster than a printed one. *)
Theorem head_prints_the_fastest (df df' : DataFrame) :
  normalise df = Ok df' ->
  List.length (rows (head df')) = Nat.min 5 (List.length (rows df)) /\
  columns (head df') = columns df' /\
  (forall r r', In r (rows (head df')) -> In r' (skipn 5 (rows df')) ->
                key_le "Time" r r').
Proof.
  intros H.
  destruct (normalise_stages _ _ H) as (df1 & df2 & df3 & H1 & H2 & H3 & H4).
  pose proof (normalise_lines _ _ _ _ H1 H2 H3) as Hl.
  destruct (sort_values_ok _ _ _ H4) as (_ & Hperm & Hsorted).
  split; [|split; [reflexivity|]].
  - unfold head. cbn [rows]. rewrite length_firstn.
    rewrite (Permutation_length Hperm), <- (Forall2_length Hl). reflexivity.
  - unfold head. cbn [rows]. apply sorted_split.
    now rewrite firstn_skipn.
Qed.

Lemma head_prints_the_fastest_witness :
  normalise built_example = Ok example_frame /\
  List.length (rows (head example_frame)) = 2.
Proof.
  split; [exact built_example_normalised|].
  exact (proj1 (head_prints_the_fastest _ _ built_example_normalised)).
Defined.

(** ** The address of a year's page *)

Lemma four_digit_urls :
  forallb (fun y => String.eqb (url_of y)
                               (page_address (suffix_digits (y mod 100))))
          four_digit_years = true.
Proof. vm_compute. reflexivity. Qed.

Lemma url_of_four_digits (y : Z) :
  (1000 <= y <= 9999)%Z -> url_of y = page_address (suffix_digits (y mod 100)).
Proof.
  intros Hy. pose proof four_digit_urls as H. rewrite forallb_forall in H.
  apply String.eqb_eq, H. unfold four_digit_years. apply in_map_iff.
  exists (Z.to_nat (y - 1000)). split; [lia|]. apply in_seq. lia.
Qed.

Lemma suffix_read_back :
  forallb (fun n => (suffix_value (suffix_digits (Z.of_nat n) ++ ".html")
                     =? Z.of_nat n)%Z) (seq 0 100) = true.
Proof. vm_compute. reflexivity. Qed.

Lemma suffix_value_ok (z : Z) :
  (0 <= z < 100)%Z -> suffix_value (suffix_digits z ++ ".html") = z.
Proof.
  intros Hz. pose proof suffix_read_back as H. rewrite forallb_forall in H.
  specialize (H (Z.to_nat z)). rewrite Z2Nat.id in H by lia.
  apply Z.eqb_eq, H, in_seq. lia.
Qed.

Lemma append_inj_l (p a b : string) : (p ++ a = p ++ b)%string -> a = b.
Proof.
  induction p as [|c p IH]; simpl; intros H; [exact H|].
  injection H as H. now apply IH.
Qed.

(** X14: the address of a four-digit year carries the last two digits of the
    year and nothing else of it: two such years get the same address exactly
    when they differ by a multiple of 100. *)
Theorem url_keeps_two_digits (y y' : Z) :
  (1000 <= y <= 9999)%Z -> (1000 <= y' <= 9999)%Z ->
  url_of y = page_address (suffix_digits (y mod 100)) /\
  (url_of y = url_of y' <-> (y mod 100 = y' mod 100)%Z).
Proof.
  intros Hy Hy'. split; [now apply url_of_four_digits|].
  rewrite (url_of_four_digits y Hy), (url_of_four_digits y' Hy').
  split.
  - intros H. unfold page_address in H. apply append_inj_l in H.
    rewrite <- (suffix_value_ok (y mod 100)),
            <- (suffix_value_ok (y' mod 100)).
    + now rewrite H.
    + apply Z.mod_pos_bound. lia.
    + apply Z.mod_pos_bound. lia.
  - intros ->. reflexivity.
Qed.

Lemma url_keeps_two_digits_witness :
  url_of 2015 = page_address "15" /\ url_of 1915 = url_of 2015.
Proof.
  destruct (url_keeps_two_digits 1915 2015 ltac:(lia) ltac:(lia)) as [_ H].
  split; [exact (proj1 (url_keeps_two_digits 2015 2015 ltac:(lia) ltac:(lia)))|].
  apply H. reflexivity.
Defined.

(** ** The columns of the merged frame *)

Lemma existsb_lacking (l : string) (cs acc : list string) :
  existsb (String.eqb l) acc = false ->
  existsb (String.eqb l)
          (filter (fun c => negb (existsb (String.eqb c) acc)) cs)
  = existsb (String.eqb l) cs.
Proof.
  intros Hacc. induction cs as [|c cs IH]; [reflexivity|]. simpl.
  destruct (existsb (String.eqb c) acc) eqn:Ec; simpl.
  - rewrite IH. destruct (String.eqb l c) eqn:El; [|reflexivity].
    apply String.eqb_eq in El. subst c. congruence.
  - now rewrite IH.
Qed.

Lemma has_column_append (df d : DataFrame) (l : string) :
  has_column (append df d) l = has_column df l || has_column d l.
Proof.
  unfold has_column, append. cbn [columns]. rewrite existsb_app.
  destruct (existsb (String.eqb l) (columns df)) eqn:E; [reflexivity|].
  now apply existsb_lacking.
Qed.

Lemma append_NoDup (df d : DataFrame) :
  NoDup (columns df) -> NoDup (columns d) -> NoDup (columns (append df d)).
Proof.
  intros H1 H2. unfold append. cbn [columns].
  apply NoDup_app; [exact H1|now apply NoDup_filter|].
  intros x Hx Hf. apply filter_In in Hf. destruct Hf as [_ Hf].
  assert (Ht : existsb (String.eqb x) (columns df) = true).
  { apply existsb_exists. exists x. split; [exact Hx|apply String.eqb_refl]. }
  rewrite Ht in Hf. discriminate.
Qed.

Lemma has_column_setitem (df : DataFrame) (label l : string) (x : value) :
  has_column (setitem df label x) l = has_column df l || String.eqb l label.
Proof. apply existsb_add_column. Qed.

Lemma has_label_app (r : record) (l0 l : string) (x : value) :
  has_label (r ++ [(l0, x)]) l = has_label r l || String.eqb l l0.
Proof.
  unfold has_label. rewrite map_app, existsb_app. simpl. now rewrite orb_false_r.
Qed.

Lemma has_label_assign (r : record) (label l : string) (x : value) :
  has_label (assign label x r) l = has_label r l || String.eqb l label.
Proof.
  unfold assign. destruct (has_label r label) eqn:E.
  - assert (Hfst : map fst (map (fun lx : string * value =>
                      if String.eqb (fst lx) label then (fst lx, x) else lx) r)
                   = map fst r).
    { rewrite map_map. apply map_ext. intros [l1 y]. simpl.
      now destruct (String.eqb l1 label). }
    unfold has_label at 1. rewrite Hfst. fold (has_label r l).
    destruct (String.eqb l label) eqn:El; [|now rewrite orb_false_r].
    apply String.eqb_eq in El. subst l. now rewrite E.
  - apply has_label_app.
Qed.

Lemma combine_labels (header : list string) (cells : list value) :
  List.length cells = List.length header ->
  map fst (combine header cells) = header.
Proof.
  revert cells. induction header as [|h header IH]; intros [|c cells]; simpl;
    intros H; try discriminate; auto. f_equal. apply IH. lia.
Qed.

Section Merged.

Variable urlopen_read : string -> result string.
Variable table_rows : string -> result (list Row).

(** Every line of the frame of a page has the labels of the frame. *)
Lemma parsed_lines_are_full (url : string) (d : DataFrame) :
  parse_results_table urlopen_read table_rows url = Ok d ->
  forall r l, In r (rows d) -> has_label r l = has_column d l.
Proof.
  unfold parse_results_table, parse_rows.
  destruct (urlopen_read url) as [html|]; cbn [bind]; [|discriminate].
  destruct (table_rows html) as [raw_data|]; cbn [bind]; [|discriminate].
  destruct (classify raw_data) as [[header cleaned]|] eqn:Ec; cbn [bind];
    [|discriminate].
  intros H; inversion H; subst d; clear H. cbn [fst snd].
  destruct (cleaned_rows_facts _ _ _ Ec) as [Hrows Hh].
  intros r l Hr. unfold new_frame in Hr. cbn [rows] in Hr.
  apply in_map_iff in Hr. destruct Hr as (row & <- & Hrow).
  rewrite Forall_forall in Hrows. specialize (Hrows row Hrow).
  unfold has_label, has_column, new_frame. cbn [columns].
  rewrite combine_labels; [reflexivity|].
  rewrite length_map. unfold len in *. congruence.
Qed.

Lemma year_loop_columns (ys : list Z) (ds : list DataFrame) :
  Forall2 (fun y d => parse_results_table urlopen_read table_rows (url_of y) = Ok d)
          ys ds ->
  forall df0 df l,
    foldM (year_step urlopen_read table_rows) (combine ys (urls ys)) df0 = Ok df ->
    has_column df l
    = has_column df0 l
      || existsb (fun d => has_column d l || String.eqb l "Year") ds.
Proof.
  induction 1 as [|y d ys ds Hy _ IH]; intros df0 df l; simpl.
  - intros H; inversion H. now rewrite orb_false_r.
  - unfold year_step at 1. cbn [fst snd]. rewrite Hy. cbn [bind].
    intros H. rewrite (IH _ _ _ H), has_column_append, has_column_setitem.
    now rewrite !orb_assoc.
Qed.

Lemma year_loop_NoDup (ys : list Z) (ds : list DataFrame) :
  Forall2 (fun y d => parse_results_table urlopen_read table_rows (url_of y) = Ok d)
          ys ds ->
  (forall d, In d ds -> NoDup (columns d)) ->
  forall df0 df,
    NoDup (columns df0) ->
    foldM (year_step urlopen_read table_rows) (combine ys (urls ys)) df0 = Ok df ->
    NoDup (columns df).
Proof.
  induction 1 as [|y d ys ds Hy _ IH]; intros Hnd df0 df H0; simpl.
  - intros H; inversion H; subst. exact H0.
  - unfold year_step at 1. cbn [fst snd]. rewrite Hy. cbn [bind].
    apply IH; [intros d' Hd'; apply Hnd; now right|].
    apply append_NoDup; [exact H0|].
    unfold setitem. cbn [columns]. apply add_column_NoDup, Hnd. now left.
Qed.

Lemma merged_rows_In (ys : list Z) (ds : list DataFrame) (r : record) :
  In r (merged_rows ys ds) ->
  exists y d r0, In d ds /\ In r0 (rows d) /\ r = assign "Year" (VInt y) r0.
Proof.
  unfold merged_rows. intros H. apply in_concat in H.
  destruct H as (rs & Hrs & Hr). apply in_map_iff in Hrs.
  destruct Hrs as ([y d] & <- & Hyd). apply in_combine_r in Hyd.
  unfold year_rows in Hr. cbn [fst snd] in Hr. apply in_map_iff in Hr.
  destruct Hr as (r0 & <- & Hr0). eauto 6.
Qed.

Lemma merged_rows_intro (ys : list Z) (ds : list DataFrame) (d : DataFrame)
      (r0 : record) :
  List.length ys = List.length ds -> In d ds -> In r0 (rows d) ->
  exists y, In (assign "Year" (VInt y) r0) (merged_rows ys ds).
Proof.
  revert ds. induction ys as [|y ys IH]; intros [|d0 ds]; simpl;
    intros Hlen Hd Hr0; try discriminate; try contradiction.
  unfold merged_rows. simpl. destruct Hd as [->|Hd].
  - exists y. apply in_or_app. left. unfold year_rows. cbn [fst snd].
    now apply in_map.
  - destruct (IH ds ltac:(lia) Hd Hr0) as (y' & H'). exists y'.
    apply in_or_app. now right.
Qed.

Lemma merged_rows_length (ys : list Z) (ds : list DataFrame) :
  List.length ys = List.length ds ->
  List.length (merged_rows ys ds)
  = list_sum (map (fun d => List.length (rows d)) ds).
Proof.
  revert ds. induction ys as [|y ys IH]; intros [|d ds]; simpl; intros H;
    try discriminate; auto.
  unfold merged_rows in *. simpl. rewrite length_app, IH by lia.
  unfold year_rows. now rewrite length_map.
Qed.

(** X15: when every page of the run has the same header, no cell is missing
    in the merged frame: each line has a cell under exactly the labels of the
    frame, the header's and [Year]. *)
Theorem merged_frame_has_no_gaps (ys : list Z) (header : list string)
        (df : DataFrame) :
  (forall y d, In y ys ->
     parse_results_table urlopen_read table_rows (url_of y) = Ok d ->
     columns d = header) ->
  build_frame urlopen_read table_rows ys = Ok df ->
  forall r l, In r (rows df) ->
    has_label r l = has_column df l /\
    has_column df l = existsb (String.eqb l) header || String.eqb l "Year".
Proof.
  intros Hh Hb r l Hr.
  destruct (year_loop_inv _ _ _ _ _ Hb) as (ds & Hds & Hrows).
  pose proof (year_loop_columns _ _ Hds _ _ l Hb) as Hcols.
  cbn [empty_frame rows app] in Hrows. rewrite Hrows in Hr.
  assert (Hall : forall d, In d ds -> columns d = header).
  { intros d Hd. destruct (Forall2_In_r _ _ _ _ Hds Hd) as (y & Hy & Hp). eauto. }
  assert (Hex : existsb (fun d => has_column d l || String.eqb l "Year") ds
                = existsb (String.eqb l) header || String.eqb l "Year").
  { destruct (merged_rows_In _ _ _ Hr) as (_ & d0 & _ & Hd0 & _ & _).
    assert (Hne : ds <> []) by (intros ->; destruct Hd0).
    clear - Hall Hne. induction ds as [|d ds IH]; [congruence|].
    simpl. unfold has_column at 1. rewrite (Hall d) by now left.
    destruct ds as [|d1 ds]; [simpl; now rewrite orb_false_r|].
    rewrite IH; [now rewrite orb_diag|..];
      first [discriminate | intros d' Hd'; apply Hall; now right]. }
  change (has_column empty_frame l) with false in Hcols. cbn [orb] in Hcols.
  rewrite Hcols, Hex. split; [|reflexivity].
  destruct (merged_rows_In _ _ _ Hr) as (y & d & r0 & Hd & Hr0 & ->).
  rewrite has_label_assign.
  destruct (Forall2_In_r _ _ _ _ Hds Hd) as (y0 & Hy0 & Hp).
  rewrite (parsed_lines_are_full _ _ Hp _ _ Hr0).
  unfold has_column. now rewrite (Hall d Hd).
Qed.

(** X16: the whole run succeeds when every page of the run gives a frame
    without a repeated label and with the columns [Total Time], [Place],
    [Age] and [Bib No], some page has a line, every time has the accepted
    form and every cell of the three integer columns is an integer literal
    that fits 64 bits; the frame written then has one line for each line of
    the pages. *)
Theorem notebook_succeeds (ys : list Z) (ds : list DataFrame) :
  Forall2 (fun y d => parse_results_table urlopen_read table_rows (url_of y) = Ok d)
          ys ds ->
  (forall d, In d ds -> NoDup (columns d)) ->
  (exists d, In d ds /\ rows d <> []) ->
  (forall d, In d ds ->
     has_column d "Total Time" = true /\
     forallb (has_column d) int_columns = true) ->
  (forall d r, In d ds -> In r (rows d) ->
     exists s m sec, lookup r "Total Time" = VStr s /\
                     minute_second_string s m sec) ->
  (forall d r l, In d ds -> In r (rows d) -> In l int_columns ->
     exists s z, lookup r l = VStr s /\ integer_literal s z /\
                 fits_int64 z = true) ->
  exists df,
    notebook urlopen_read table_rows ys = Ok df /\
    List.length (rows df) = list_sum (map (fun d => List.length (rows d)) ds).
Proof.
  intros Hds Hnd (d1 & Hd1 & Hne) Hcols Htimes Hints.
  destruct (year_loop_ok urlopen_read table_rows ys ds empty_frame Hds)
    as (df0 & Hb & Hrows).
  cbn [empty_frame rows app] in Hrows.
  assert (Hnd0 : NoDup (columns df0)).
  { apply (year_loop_NoDup ys ds Hds Hnd empty_frame df0); [constructor|exact Hb]. }
  assert (Hc : forall l, has_column d1 l = true -> has_column df0 l = true).
  { intros l Hl. rewrite (year_loop_columns _ _ Hds _ _ l Hb).
    change (has_column empty_frame l) with false. cbn [orb].
    apply existsb_exists. exists d1. split; [exact Hd1|]. now rewrite Hl. }
  destruct (Hcols d1 Hd1) as [Htt Hic].
  destruct (normalise_total df0) as (df & Hn).
  - exact Hnd0.
  - rewrite Hrows. destruct (rows d1) as [|r1 rs1] eqn:E1; [congruence|].
    destruct (merged_rows_intro ys ds d1 r1) as (y & Hy).
    + eapply Forall2_length; eauto.
    + exact Hd1.
    + rewrite E1. now left.
    + intros E. rewrite E in Hy. destruct Hy.
  - now apply Hc.
  - rewrite forallb_forall in *. intros l Hl. apply Hc. now apply Hic.
  - intros r Hr. rewrite Hrows in Hr.
    destruct (merged_rows_In _ _ _ Hr) as (y & d & r0 & Hd & Hr0 & ->).
    rewrite lookup_assign_other by discriminate. eauto.
  - intros r l Hr Hl. rewrite Hrows in Hr.
    destruct (merged_rows_In _ _ _ Hr) as (y & d & r0 & Hd & Hr0 & ->).
    rewrite lookup_assign_other; [eauto|].
    unfold int_columns in Hl. simpl in Hl. intros ->. intuition discriminate.
  - exists df. split.
    + unfold notebook. unfold build_frame. rewrite Hb. cbn [bind]. exact Hn.
    + destruct (normalise_stages _ _ Hn) as (a1 & a2 & a3 & H1 & H2 & H3 & H4).
      pose proof (normalise_lines _ _ _ _ H1 H2 H3) as Hl.
      destruct (sort_values_ok _ _ _ H4) as (_ & Hperm & _).
      rewrite (Permutation_length Hperm), <- (Forall2_length Hl), Hrows.
      apply merged_rows_length. eapply Forall2_length; eauto.
Qed.

End Merged.

Lemma example_page_parsed (url : string) :
  parse_results_table example_urlopen example_table_rows url = Ok example_page_frame.
Proof. reflexivity. Qed.

Lemma example_built :
  build_frame example_urlopen example_table_rows [2015%Z] = Ok built_example.
Proof. reflexivity. Qed.

Lemma merged_frame_has_no_gaps_witness :
  has_label (nth 0 (rows built_example) []) "Age" = has_column built_example "Age" /\
  has_column built_example "Age"
  = existsb (String.eqb "Age") site_header || String.eqb "Age" "Year".
Proof.
  apply (merged_frame_has_no_gaps example_urlopen example_table_rows [2015%Z]
           site_header built_example).
  - intros y d _ H. rewrite example_page_parsed in H.
    injection H as <-. reflexivity.
  - exact example_built.
  - left. reflexivity.
Defined.

Lemma example_page_NoDup : NoDup (columns example_page_frame).
Proof.
  vm_compute. repeat constructor; simpl; intuition discriminate.
Qed.

Lemma notebook_succeeds_witness :
  exists df,
    notebook example_urlopen example_table_rows years = Ok df /\
    List.length (rows df) = 4.
Proof.
  apply (notebook_succeeds example_urlopen example_table_rows years
           [example_page_frame; example_page_frame]).
  - repeat constructor; apply example_page_parsed.
  - intros d [<-|[<-|[]]]; exact example_page_NoDup.
  - exists example_page_frame. split; [now left|discriminate].
  - intros d [<-|[<-|[]]]; split; reflexivity.
  - intros d r [<-|[<-|[]]] [<-|[<-|[]]];
      [exists "20:20"|exists "20:23"|exists "20:20"|exists "20:23"];
      match goal with
      | |- exists m sec, lookup _ _ = VStr ?s /\ _ =>
          destruct (convert_sound s _ eq_refl) as (m & sec & H & _); eauto
      end.
  - intros d r l [<-|[<-|[]]] [<-|[<-|[]]] [<-|[<-|[<-|[]]]];
      (eexists; eexists; split; [reflexivity|];
       split; [apply int_sound; reflexivity | reflexivity]).
Defined.

(** ** Ties in a short frame *)

Local Open Scope Z_scope.

Section Stable.

Variable v : list Z.

Lemma lex_before_le (i j : nat) : lex_before v i j -> key_at v i <= key_at v j.
Proof. intros [H|[H _]]; lia. Qed.

Lemma insertion_stable (fuel : nat) (pl pr : Z) :
  forall (a : list nat) (pi : Z),
  0 <= pl -> pr < Z.of_nat (List.length a) -> pl < pi ->
  0 < Z.of_nat fuel -> pr + 1 - pi < Z.of_nat fuel ->
  (forall p q, pl <= p -> p < q -> q <= pr -> pi <= q ->
     (rd a p < rd a q)%nat) ->
  (forall p q, pl <= p -> p < q -> q < pi -> lex_before v (rd a p) (rd a q)) ->
  exists a',
    insertion v fuel a pl pr pi = Some a' /\
    (forall p q, pl <= p -> p < q -> q <= pr ->
       lex_before v (rd a' p) (rd a' q)).
Proof.
  induction fuel as [|fuel IH]; intros a pi Hpl Hpr Hpi Hpos Hfuel Hnew Hlex;
    [lia|].
  rewrite insertion_S. destruct (pi <=? pr) eqn:E.
  - apply Z.leb_le in E.
    destruct (shift_right_spec v (S (List.length a)) pl (K v a pi) a pi)
      as (a' & pj & Hs & Hr & HL & Hlow & Hmid & Hhigh & Hgt & Hstop & Hperm);
      try lia.
    rewrite Hs.
    set (vi := rd a pi). set (a2 := wr a' pj vi).
    assert (Ipj : in_array a' pj) by (unfold in_array; lia).
    assert (L2 : List.length a2 = List.length a)
      by (unfold a2; rewrite wr_length; lia).
    assert (R2 : forall p, 0 <= p ->
               rd a2 p = if p <? pj then rd a p
                         else if p =? pj then vi
                         else if p <=? pi then rd a (p - 1) else rd a p).
    { intros p Hp. unfold a2.
      destruct (Z.ltb_spec p pj).
      - rewrite rd_wr_other by lia. apply Hlow; lia.
      - destruct (Z.eqb_spec p pj) as [->|Hne]; [now apply rd_wr_same|].
        rewrite rd_wr_other by lia.
        destruct (Z.leb_spec p pi); [apply Hmid|apply Hhigh]; lia. }
    assert (Hvi : key_at v vi = K v a pi) by reflexivity.
    assert (Hbelow : forall r, pl <= r < pj -> K v a r <= K v a pi).
    { intros r Hr'. destruct Hstop as [->|Hstop]; [lia|].
      eapply Z.le_trans; [|exact Hstop].
      destruct (Z.eq_dec r (pj - 1)) as [->|Hne]; [lia|].
      apply lex_before_le, Hlex; lia. }
    assert (Habove : forall r, pj < r <= pi -> K v a pi < K v a (r - 1)).
    { intros r Hr'. specialize (Hgt r Hr'). unfold K in Hgt.
      rewrite Hmid in Hgt by lia. exact Hgt. }
    destruct (IH a2 (pi + 1)) as (a3 & Hins & H3); try lia.
    + intros p q Hp Hpq Hq Hpiq. rewrite !R2 by lia.
      destruct (Z.ltb_spec q pj); [lia|].
      destruct (Z.eqb_spec q pj); [lia|].
      destruct (Z.leb_spec q pi); [lia|].
      destruct (Z.ltb_spec p pj); [apply Hnew; lia|].
      destruct (Z.eqb_spec p pj); [apply Hnew; lia|].
      destruct (Z.leb_spec p pi); apply Hnew; lia.
    + intros p q Hp Hpq Hq. rewrite !R2 by lia.
      destruct (Z.ltb_spec p pj); destruct (Z.ltb_spec q pj); try lia.
      * apply Hlex; lia.
      * destruct (Z.eqb_spec q pj).
        -- assert (Hle : K v a p <= K v a pi) by (apply Hbelow; lia).
           unfold lex_before. rewrite Hvi. unfold K in *.
           destruct (Z.eq_dec (key_at v (rd a p)) (key_at v (rd a pi)));
             [right|left; lia].
           split; [assumption|]. apply Hnew; lia.
        -- destruct (Z.leb_spec q pi); [|lia]. apply Hlex; lia.
      * destruct (Z.eqb_spec p pj); destruct (Z.eqb_spec q pj); try lia.
        -- destruct (Z.leb_spec q pi); [|lia]. left. rewrite Hvi.
           apply Habove. lia.
        -- destruct (Z.leb_spec p pi); destruct (Z.leb_spec q pi); try lia.
           apply Hlex; lia.
    + exists a3. split; [exact Hins|exact H3].
  - apply Z.leb_gt in E. exists a. split; [reflexivity|].
    intros p q Hp Hpq Hq. apply Hlex; lia.
Qed.

Lemma rd_seq (n : nat) (p : Z) :
  0 <= p < Z.of_nat n -> rd (seq 0 n) p = Z.to_nat p.
Proof. intros H. unfold rd. rewrite seq_nth by lia. reflexivity. Qed.

(** On at most [SMALL_QUICKSORT + 1] keys the indirect quicksort is the
    insertion sort alone, which never moves an index past one of equal key. *)
Lemma aquicksort_short_stable :
  Z.of_nat (List.length v) <= SMALL_QUICKSORT + 1 ->
  exists indexer, aquicksort v = Some indexer /\ stable_indexer v indexer.
Proof.
  intros Hshort. unfold SMALL_QUICKSORT in Hshort.
  destruct (aquicksort_sorts v) as (indexer & Hrun & Hperm & _).
  exists indexer. split; [exact Hrun|]. split; [exact Hperm|].
  unfold aquicksort in Hrun.
  set (n := List.length v) in *.
  replace (2 * n + 2)%nat with (S (2 * n + 1)) in Hrun by lia.
  rewrite quicksort_loop_S in Hrun.
  destruct (Z.of_nat n - 1 - 0 >? SMALL_QUICKSORT) eqn:E.
  { apply Z.gtb_lt in E. unfold SMALL_QUICKSORT in E. lia. }
  assert (Hnew : forall p q, 0 <= p -> p < q -> q <= Z.of_nat n - 1 ->
            0 + 1 <= q -> (rd (seq 0 n) p < rd (seq 0 n) q)%nat).
  { intros p q Hp Hpq Hq _. rewrite !rd_seq by lia. lia. }
  assert (Hlex0 : forall p q, 0 <= p -> p < q -> q < 0 + 1 ->
            lex_before v (rd (seq 0 n) p) (rd (seq 0 n) q)).
  { intros p q Hp Hpq Hq. lia. }
  assert (Hlen : List.length (seq 0 n) = n) by apply length_seq.
  destruct (insertion_stable (S (List.length (seq 0 n))) 0 (Z.of_nat n - 1)
              (seq 0 n) (0 + 1) ltac:(lia) ltac:(lia) ltac:(lia) ltac:(lia)
              ltac:(lia) Hnew Hlex0) as (a' & Hins & Hlex).
  rewrite Hins in Hrun. injection Hrun as <-.
  intros p q Hpq Hq.
  specialize (Hlex (Z.of_nat p) (Z.of_nat q)). unfold rd in Hlex.
  rewrite !Nat2Z.id in Hlex. apply Hlex; lia.
Qed.

End Stable.

Local Close Scope Z_scope.

(** X17: a frame of at most 16 lines is sorted stably: the sort goes through
    the insertion sort alone, and two lines with the same time keep the order
    they had in the merged frame. *)
Theorem short_frames_sort_stably (df df' : DataFrame) (by_ : string) :
  List.length (rows df) <= 16 ->
  sort_values df by_ = Ok df' ->
  exists keys indexer,
    mapM (sort_key by_) (rows df) = Ok keys /\
    rows df' = take (rows df) indexer /\
    stable_indexer keys indexer.
Proof.
  intros Hshort H. unfold sort_values, sort_values_with in H.
  destruct (has_column df by_); [|discriminate].
  destruct (mapM (sort_key by_) (rows df)) as [keys|] eqn:Ek; cbn [bind] in H;
    [|discriminate].
  pose proof (mapM_length _ _ _ Ek) as Hlen.
  destruct (aquicksort_short_stable keys) as (indexer & Hrun & Hst).
  { unfold SMALL_QUICKSORT. lia. }
  rewrite Hrun in H. injection H as <-.
  exists keys, indexer. auto.
Qed.

Lemma short_frames_sort_stably_witness :
  sort_values sixteen_tied "Time" = Ok sixteen_tied /\
  exists keys indexer,
    mapM (sort_key "Time") (rows sixteen_tied) = Ok keys /\
    rows sixteen_tied = take (rows sixteen_tied) indexer /\
    stable_indexer keys indexer.
Proof.
  assert (H : sort_values sixteen_tied "Time" = Ok sixteen_tied)
    by (vm_compute; reflexivity).
  split; [exact H|].
  apply (short_frames_sort_stably sixteen_tied sixteen_tied "Time");
    [simpl; lia | exact H].
Defined.
